(** * Jane: synthetic retail / school data generators

    A shallow embedding of the generator classes of [Analysis/Classes]
    ([OrderHistory], [CustomerInfo], [SchoolAttendance], [Students]) and of
    [Utilities.to_dataframe], followed by the properties established about
    them.

    Conventions of the embedding.
    - A [datetime.date] is represented by its proleptic Gregorian ordinal
      ([date.toordinal()]), the number on which CPython defines comparison,
      subtraction and [timedelta] addition of dates.
    - Python [int] is [Z].  Real-valued quantities (order amounts, weights,
      multipliers) are exact rationals [Q]; the rounding error of binary64
      arithmetic on them is not represented.  The one place where binary64
      rounding decides an integer result, the tier sizes of the customer
      pool, is computed on primitive binary64 floats.
    - The three pseudo-random sources used by the code ([random], [numpy.random]
      and the private generator of [Faker]) are tapes of raw draws with a
      cursor each; every sampling primitive maps the next raw draw into its
      range, so that a tape determines a run and every run is the image of
      a tape.
    - Exceptions are values: a computation returns [Ok v] or [Raise e]. *)

From Stdlib Require Import ZArith QArith Qround Lia Lqa List Permutation Sorted.
From Stdlib Require Import PrimFloat FloatOps SpecFloat.
From stdpp Require Import base option list gmap strings pretty.

Set Warnings "-inexact-float".
Local Open Scope Z_scope.

(** ** Python runtime *)

Module Py.

Inductive exn : Type :=
| IndexError
| ValueError
| KeyError
| ZeroDivisionError
| OverflowError.

Inductive result (A : Type) : Type :=
| Ok (a : A)
| Raise (e : exn).
Arguments Ok {A} a.
Arguments Raise {A} e.

(** A tape of raw draws and the position of the next one. *)
Record tape (A : Type) : Type := Tape { draws : nat -> A; pos : nat }.
Arguments Tape {A} draws pos.
Arguments draws {A} t n.
Arguments pos {A} t.

Definition advance {A} (t : tape A) : tape A := Tape (draws t) (S (pos t)).
Definition current {A} (t : tape A) : A := draws t (pos t).

(** The ambient state of a run: the global [random] generator, the
    global [numpy.random] generator and the generator owned by [Faker]. *)
Record world : Type := World {
  rn : tape Q;
  np : tape Q;
  fake : tape string
}.

Definition M (A : Type) : Type := world -> result A * world.

Definition ret {A} (a : A) : M A := fun w => (Ok a, w).
Definition raise {A} (e : exn) : M A := fun w => (Raise e, w).
Definition bind {A B} (m : M A) (k : A -> M B) : M B :=
  fun w => match m w with
           | (Ok a, w') => k a w'
           | (Raise e, w') => (Raise e, w')
           end.

Definition exn_eqb (a b : exn) : bool :=
  match a, b with
  | IndexError, IndexError => true
  | ValueError, ValueError => true
  | KeyError, KeyError => true
  | ZeroDivisionError, ZeroDivisionError => true
  | OverflowError, OverflowError => true
  | _, _ => false
  end.

(** [try: body except cls: handler] for one exception class. *)
Definition try_except {A} (body : M A) (cls : exn) (handler : M A) : M A :=
  fun w => match body w with
           | (Ok a, w') => (Ok a, w')
           | (Raise e, w') => if exn_eqb e cls then handler w' else (Raise e, w')
           end.

Definition lift {A} (r : result A) : M A := fun w => (r, w).

Declare Scope py_scope.
Delimit Scope py_scope with py.
Notation "'let*' x ':=' m 'in' k" := (bind m (fun x => k))
  (at level 10, x name, m at level 100, k at level 200) : py_scope.
Notation "'let*' ' pat ':=' m 'in' k" :=
  (bind m (fun x => match x with pat => k end))
  (at level 10, pat pattern, m at level 100, k at level 200) : py_scope.

Local Open Scope py_scope.

(** [for x in xs: ys.append(f(x))] *)
Fixpoint for_each {A B} (f : A -> M B) (xs : list A) : M (list B) :=
  match xs with
  | [] => ret []
  | x :: xs' => let* y := f x in let* ys := for_each f xs' in ret (y :: ys)
  end.

(** [range(a, b)] as a list of integers; empty when [b <= a]. *)
Definition range (a b : Z) : list Z :=
  map (fun i => a + Z.of_nat i) (seq 0 (Z.to_nat (b - a))).

(** *** Raw draws *)

Definition step_rn (w : world) : world := World (advance (rn w)) (np w) (fake w).
Definition step_np (w : world) : world := World (rn w) (advance (np w)) (fake w).
Definition step_fake (w : world) : world := World (rn w) (np w) (advance (fake w)).

Definition next_rn : M Q := fun w => (Ok (current (rn w)), step_rn w).
Definition next_np : M Q := fun w => (Ok (current (np w)), step_np w).
Definition next_fake : M string := fun w => (Ok (current (fake w)), step_fake w).

(** The fractional part of a raw draw, in [[0, 1)]. *)
Definition frac (q : Q) : Q := (q - inject_Z (Qfloor q))%Q.

(** An index below [n] picked by a raw draw ([n] positive). *)
Definition index_below (q : Q) (n : Z) : Z := Qfloor q mod n.

(** [random.randint(lo, hi)], both ends included. *)
Definition randint (lo hi : Z) : M Z :=
  if hi <? lo then raise ValueError
  else let* q := next_rn in ret (lo + index_below q (hi - lo + 1)).

(** [random.choice(seq)]: [IndexError] on an empty sequence. *)
Definition choice {A} (xs : list A) : M A :=
  match xs with
  | [] => raise IndexError
  | x :: _ =>
      let* q := next_rn in
      ret (nth (Z.to_nat (index_below q (Z.of_nat (length xs)))) xs x)
  end.

(** [random.normalvariate(mu, sigma)]: the raw draw is the standard
    normal deviate. *)
Definition normalvariate (mu sigma : Q) : M Q :=
  let* z := next_rn in ret (mu + z * sigma)%Q.

(** [random.choices(population, weights)[0]]: the first element whose
    cumulative weight exceeds [u * total], [u] uniform in [[0, 1)]; the
    last element otherwise. *)
Fixpoint pick_weighted {A} (x : Q) (acc : Q) (pw : list (A * Q)) (last : A) : A :=
  match pw with
  | [] => last
  | (a, wt) :: rest =>
      if Qlt_le_dec x (acc + wt) then a else pick_weighted x (acc + wt)%Q rest a
  end.

Definition choices {A} (population : list A) (weights : list Q) : M A :=
  match population with
  | [] => raise IndexError
  | a :: _ =>
      let* q := next_rn in
      let total := fold_right Qplus 0%Q weights in
      ret (pick_weighted (frac q * total)%Q 0%Q (combine population weights) a)
  end.

(** [numpy.random.uniform(lo, hi)], in [[lo, hi)]. *)
Definition np_uniform (lo hi : Q) : M Q :=
  let* q := next_np in ret (lo + (hi - lo) * frac q)%Q.

(** [numpy.random.choice(a, 1)[0]] *)
Definition np_choice {A} (xs : list A) : M A :=
  match xs with
  | [] => raise ValueError
  | x :: _ =>
      let* q := next_np in
      ret (nth (Z.to_nat (index_below q (Z.of_nat (length xs)))) xs x)
  end.

(** [numpy.random.normal(loc, scale)]: the raw draw is the standard
    normal deviate. *)
Definition np_normal (loc scale : Q) : M Q :=
  let* z := next_np in ret (loc + scale * z)%Q.

(** *** Rounding *)

(** Round half to even to an integer. *)
Definition round_half_even (x : Q) : Z :=
  let f := Qfloor x in
  match (x - inject_Z f ?= 1 # 2)%Q with
  | Lt => f
  | Gt => f + 1
  | Eq => if Z.even f then f else f + 1
  end.

Definition pow10 (n : Z) : Q :=
  if 0 <=? n then inject_Z (10 ^ n) else (1 / inject_Z (10 ^ (- n)))%Q.

(** [round(x, ndigits)] *)
Definition round (x : Q) (ndigits : Z) : Q :=
  (inject_Z (round_half_even (x * pow10 ndigits)) / pow10 ndigits)%Q.

(** *** Binary64 helpers *)

Definition float_of_int (n : Z) : float :=
  SF2Prim (binary_normalize prec emax n 0 false).

(** [int(x // 4)] for a binary64 [x]: the division by a power of two is
    exact, so the floor division is the floor of the quotient. *)
Definition int_floordiv4 (x : float) : result Z :=
  match Prim2SF (PrimFloat.div x 4%float) with
  | S754_zero _ => Ok 0
  | S754_finite s m e =>
      let v := if s then Z.neg m else Z.pos m in
      Ok (if 0 <=? e then v * 2 ^ e else v / 2 ^ (- e))
  | S754_infinity _ => Raise OverflowError
  | S754_nan => Raise ValueError
  end.

(** *** datetime.date *)

Definition date : Type := Z.

Definition MINYEAR : Z := 1.
Definition MAXYEAR : Z := 9999.

Definition is_leap (y : Z) : bool :=
  (y mod 4 =? 0) && (negb (y mod 100 =? 0) || (y mod 400 =? 0)).

Definition days_in_month (y m : Z) : Z :=
  if m =? 2 then (if is_leap y then 29 else 28)
  else if (m =? 4) || (m =? 6) || (m =? 9) || (m =? 11) then 30
  else 31.

Definition days_before_year (y : Z) : Z :=
  let p := y - 1 in p * 365 + p / 4 - p / 100 + p / 400.

Definition days_before_month (y m : Z) : Z :=
  fold_right Z.add 0 (map (days_in_month y) (range 1 m)).

Definition ymd2ord (y m d : Z) : Z :=
  days_before_year y + days_before_month y m + d.

Definition max_ordinal : Z := ymd2ord MAXYEAR 12 31.

(** [date(year, month, day)]: [ValueError] outside the calendar. *)
Definition mkdate (y m d : Z) : result date :=
  if (MINYEAR <=? y) && (y <=? MAXYEAR) && (1 <=? m) && (m <=? 12)
     && (1 <=? d) && (d <=? days_in_month y m)
  then Ok (ymd2ord y m d) else Raise ValueError.

(** [d + timedelta(days = n)]: [OverflowError] outside the calendar. *)
Definition add_days (d : date) (n : Z) : result date :=
  let o := d + n in
  if (1 <=? o) && (o <=? max_ordinal) then Ok o else Raise OverflowError.

(** [(a - b).days] *)
Definition days_between (a b : date) : Z := a - b.

(** [d.weekday()]: Monday is 0, Sunday is 6. *)
Definition weekday (d : date) : Z := (d + 6) mod 7.

End Py.

Import Py.
Local Open Scope py_scope.

(** ** OrderHistory.py *)

Module OrderHistory.

Record t : Type := Build {
  num_orders : Z;
  revenue : Z;
  aov : Z;
  start_date : date;
  end_date : date;
  peak_days : list date;
  dates : list date;
  customer_pool : list Z
}.

(** One order record (the dictionary built by [generate_data]). *)
Record order : Type := Order {
  order_id : string;
  order_date : date;
  shipped_date : date;
  status : string;
  comments : string;
  order_amount : Q;
  customer_id : Z;
  store_id : string
}.

(** The nine dates of [self.peak_days], in the order of the source. *)
Definition peak_days_2022 : list date :=
  [ ymd2ord 2022 4 20;
    ymd2ord 2022 11 20;
    ymd2ord 2022 11 21;
    ymd2ord 2022 11 22;
    ymd2ord 2022 11 23;
    ymd2ord 2022 12 19;
    ymd2ord 2022 12 20;
    ymd2ord 2022 12 26;
    ymd2ord 2022 12 27 ].

Definition calculate_dates (start_date end_date : date) (peak_days : list date)
  : M (list date) :=
  let delta := days_between end_date start_date in
  let* dates := for_each (fun d => lift (add_days start_date d)) (range 0 (delta + 1)) in
  ret (dates ++ concat (replicate 4 peak_days)).

(** [int(percentage * self.num_orders // 4)] on binary64. *)
Definition tier_size (percentage : float) (num_orders : Z) : result Z :=
  int_floordiv4 (PrimFloat.mul percentage (float_of_int num_orders)).

Definition percentages : list float := [0.05%float; 0.35%float; 0.60%float].
Definition orders_list : list Z := [20; 4; 1].

Definition set_customer_pool (num_orders : Z) : M (list Z) :=
  let* tiers :=
    for_each (fun '(percentage, slots) =>
                let* n := lift (tier_size percentage num_orders) in
                let* ids := for_each (fun _ => randint 1000000 9999999) (range 0 n) in
                ret (concat (map (fun customer_id => replicate (Z.to_nat slots) customer_id) ids)))
             (combine percentages orders_list) in
  ret (concat tiers).

(** [OrderHistory(revenue, aov, start_date, end_date)], with integer
    [revenue] and [aov] ([range(self.num_orders)] needs an integer). *)
Definition init (revenue aov : Z) (start_date end_date : date) : M t :=
  if aov =? 0 then raise ZeroDivisionError else
  let num_orders := revenue / aov in
  let* dates := calculate_dates start_date end_date peak_days_2022 in
  let* customer_pool := set_customer_pool num_orders in
  ret (Build num_orders revenue aov start_date end_date peak_days_2022
             dates customer_pool).

Section Mutators.

(** [hd.US(years = 2022)], the holiday calendar of the [holidays]
    package, as its membership test. *)
Variable holidays_2022 : date -> bool.

Variable self : t.

Definition set_order_id : M string :=
  let* n := randint 1000000 9999999 in ret ("O" +:+ pretty n).

Definition set_order_date : M date := choice (dates self).

Definition set_shipped_date (order_date : date) : M date :=
  let* r := randint 1 2 in
  let* shipped_date := lift (add_days order_date r) in
  let extra :=
    Z.of_nat (length (List.filter (fun _ : Z =>
                                (5 <=? weekday shipped_date) || holidays_2022 shipped_date)
                             (range 0 3))) in
  lift (add_days shipped_date extra).

Definition set_status : M string :=
  choices ["completed"; "abandoned"; "canceled"]
          [87 # 100; 1 # 10; 3 # 100]%Q.

Definition set_comments (order_date : date) : string :=
  if holidays_2022 order_date then "Holiday Promotion" else "".

(** The [for day in self.peak_days] loop of [set_order_amount]. *)
Fixpoint peak_multiplier (days : list date) (order_date : date) : Q :=
  match days with
  | [] => 1
  | day :: rest =>
      let days_diff := days_between day order_date in
      if (-10 <=? days_diff) && (days_diff <=? 0)
      then (1 + (2 # 10) * inject_Z (Z.abs days_diff))%Q
      else peak_multiplier rest order_date
  end.

Definition set_order_amount (order_date : date) : M Q :=
  let* u := np_uniform 2 4 in
  let* spike_multiplier := np_choice (replicate 29 1%Q ++ [u]) in
  let peak_multiplier := peak_multiplier (peak_days self) order_date in
  let* x := np_normal (inject_Z (aov self) * spike_multiplier * peak_multiplier) 15 in
  ret (round x 2).

Definition set_customer_id : M Z := choice (customer_pool self).

Definition set_store_id : M string :=
  let* n := randint 1 500 in ret ("S" +:+ pretty n).

Definition get_customer_ids : gset Z := list_to_set (customer_pool self).

Definition generate_data : M (list order) :=
  for_each (fun _ =>
              let* order_date := set_order_date in
              let* order_id := set_order_id in
              let* shipped_date := set_shipped_date order_date in
              let* status := set_status in
              let comments := set_comments order_date in
              let* order_amount := set_order_amount order_date in
              let* customer_id := set_customer_id in
              let* store_id := set_store_id in
              ret (Order order_id order_date shipped_date status comments
                         order_amount customer_id store_id))
           (range 0 (num_orders self)).

(** [order_totals[order['customer_id']] += order['order_amount']] on a
    [defaultdict(float)]. *)
Definition add_total (totals : gmap Z Q) (o : order) : gmap Z Q :=
  <[customer_id o := (default 0%Q (totals !! customer_id o) + order_amount o)%Q]> totals.

Definition order_totals (data : list order) : gmap Z Q :=
  fold_left add_total data ∅.

(** [max(values)]: [ValueError] on an empty sequence; the first
    greatest element otherwise. *)
Definition max_of (values : list Q) : result Q :=
  match values with
  | [] => Raise ValueError
  | v :: rest => Ok (fold_left (fun a b => if Qlt_le_dec a b then b else a) rest v)
  end.

(** The weights computed from a given list of orders. *)
Definition spend_weights_of (data : list order) : result (gmap Z Q) :=
  let totals := order_totals data in
  match max_of (snd <$> map_to_list totals) with
  | Raise e => Raise e
  | Ok max_total =>
      if Qeq_bool max_total 0 then Raise ZeroDivisionError
      else Ok ((fun v => 1 + 2 * (v / max_total))%Q <$> totals)
  end.

Definition get_spend_weights : M (gmap Z Q) :=
  let* data := generate_data in
  lift (spend_weights_of data).

End Mutators.

End OrderHistory.

(** ** CustomerInfo.py *)

Module CustomerInfo.

(** What [SearchEngine.by_state] returns: zipcode objects, of which the
    code reads [major_city], [zipcode] and the truth value (an object
    without a zipcode is falsy). *)
Record location : Type := Location {
  major_city : string;
  zipcode : option string
}.

Record t : Type := Build {
  order_history : OrderHistory.t;
  spend_weights : gmap Z Q
}.

(** One customer record (the dictionary built by [generate_data]). *)
Record customer : Type := Customer {
  customer_id : Z;
  customer_name : string;
  phone : string;
  address : string;
  city : string;
  state : string;
  postal_code : string;
  sales_rep_employee_id : string;
  credit_limit : Q
}.

(** [for x in xs: ... return ...] followed by a final [return]: the
    first iteration that returns decides, the tail runs otherwise. *)
Fixpoint first_return {A B} (body : A -> M (option B)) (xs : list A)
                      (otherwise : M B) : M B :=
  match xs with
  | [] => otherwise
  | x :: rest =>
      let* r := body x in
      match r with
      | Some b => ret b
      | None => first_return body rest otherwise
      end
  end.

Definition excluded_states : list string := ["AK"; "HI"; "DC"; "PR"].

Section Methods.

(** [hd.US(years = 2022)] and [self.search.by_state], the two library
    services the class calls. *)
Variable holidays_2022 : date -> bool.
Variable by_state : string -> result (list location).

(** [CustomerInfo(order_history)] *)
Definition init (order_history : OrderHistory.t) : M t :=
  let* spend_weights := OrderHistory.get_spend_weights holidays_2022 order_history in
  ret (Build order_history spend_weights).

Variable self : t.

Definition set_customer_id : gset Z :=
  OrderHistory.get_customer_ids (order_history self).

Definition set_customer_name : M string := next_fake.
Definition set_phone : M string := next_fake.
Definition set_address : M string := next_fake.

(** The body of one pass of the retry loop, with its [try]. *)
Definition attempt (i : Z) : M (option (string * string * string)) :=
  try_except
    (let* state := next_fake in
     if negb (existsb (String.eqb state) excluded_states) then
       let* found := lift (by_state state) in
       let* choice := choice found in
       match zipcode choice with
       | Some z => ret (Some (major_city choice, state, z))
       | None => ret None
       end
     else ret None)
    IndexError
    (ret None).

Definition set_city_state_zip : M (string * string * string) :=
  first_return attempt (range 0 5) (ret ("Los Angeles", "CA", "90210")).

Definition set_sales_rep_employee_id : M string :=
  let* n := randint 1 10 in ret ("SRE" +:+ pretty n).

Definition set_credit_limit (customer_id : Z) : M Q :=
  let* u := np_uniform 1000 5000 in
  ret (round (u * default 1%Q (spend_weights self !! customer_id)) (-2)).

(** The loop runs over [set(self.customer_pool)]; the order in which a
    Python set yields its elements is left open, [elements] stands for
    it. *)
Definition generate_data : M (list customer) :=
  for_each (fun customer_id =>
              let* '(city, state, postal_code) := set_city_state_zip in
              let* customer_name := set_customer_name in
              let* phone := set_phone in
              let* address := set_address in
              let* sales_rep_employee_id := set_sales_rep_employee_id in
              let* credit_limit := set_credit_limit customer_id in
              ret (Customer customer_id customer_name phone address city state
                            postal_code sales_rep_employee_id credit_limit))
           (elements set_customer_id).

End Methods.

End CustomerInfo.

(** ** SchoolAttendance.py *)

Module SchoolAttendance.

Record t : Type := Build {
  start_date : date;
  end_date : date;
  max_student_id : Z;
  attendance_weights : list bool;
  dates : list date
}.

Record attendance_record : Type := Record_ {
  date_ : date;
  student_id : Z;
  attendance : bool
}.

Definition calculate_dates (start_date end_date : date) : M (list date) :=
  let delta := days_between end_date start_date in
  for_each (fun d => lift (add_days start_date d)) (range 0 (delta + 1)).

(** [SchoolAttendance(start_date, end_date, max_student_id)] *)
Definition init (start_date end_date : date) (max_student_id : Z) : M t :=
  let attendance_weights := replicate 4 true ++ [false] in
  let* dates := calculate_dates start_date end_date in
  ret (Build start_date end_date max_student_id attendance_weights dates).

Section Methods.

Variable self : t.

Definition set_student_ids : list Z := range 1 (max_student_id self + 1).

Definition set_date_range : M date := choice (dates self).

Definition set_random_attendance : M bool := choice (attendance_weights self).

Definition get_student_ids : list Z := set_student_ids.

Definition generate_data : M (list attendance_record) :=
  let* per_date :=
    for_each (fun date =>
                for_each (fun student_id =>
                            let* attendance := set_random_attendance in
                            ret (Record_ date student_id attendance))
                         set_student_ids)
             (dates self) in
  ret (concat per_date).

End Methods.

End SchoolAttendance.

(** ** Students.py *)

Module Students.

Record t : Type := Build {
  school_attendance : SchoolAttendance.t
}.

(** One student record (the dictionary built by [generate_data]). *)
Record student : Type := Student {
  student_id : Z;
  school_id : string;
  grade_level : Z;
  gpa : Q;
  date_of_birth : date;
  school_district : string
}.

Definition school_district_mapping : list (string * string) :=
  [("SC1", "District 1"); ("SC2", "District 1"); ("SC3", "District 2");
   ("SC4", "District 2"); ("SC5", "District 3"); ("SC6", "District 3")].

(** The list [[3] * 12 + [i for i in range(1, 13)] * 5] from which the
    birth month is chosen. *)
Definition birth_months : list Z :=
  replicate 12 3 ++ concat (replicate 5 (range 1 13)).

(** [np.clip(x, lo, hi)] *)
Definition clip (x lo hi : Q) : Q :=
  if Qlt_le_dec x lo then lo else if Qlt_le_dec hi x then hi else x.

Section Methods.

(** [date.today().year] *)
Variable current_year : Z.

Variable self : t.

Definition set_student_ids : list Z :=
  SchoolAttendance.get_student_ids (school_attendance self).

Definition set_school_id_and_district : M (string * string) :=
  let* n := randint 1 6 in
  let school_id := "SC" +:+ pretty n in
  match find (fun kv => String.eqb school_id (fst kv)) school_district_mapping with
  | Some (_, school_district) => ret (school_id, school_district)
  | None => raise KeyError
  end.

Definition set_grade_level : M Z := randint 1 12.

Definition set_gpa : M Q :=
  let* x := normalvariate 3 (2 # 10) in
  ret (round (clip x 1 4) 2).

Definition set_date_of_birth (grade_level : Z) : M date :=
  let birth_year := current_year - (grade_level + 5) in
  let* birth_month := choice birth_months in
  let* birth_day :=
    randint 1 (if birth_month =? 2 then 28
               else if existsb (Z.eqb birth_month) [4; 6; 9; 11] then 30
               else 31) in
  lift (mkdate birth_year birth_month birth_day).

Definition generate_data : M (list student) :=
  for_each (fun student_id =>
              let* grade_level := set_grade_level in
              let* '(school_id, district) := set_school_id_and_district in
              let* gpa := set_gpa in
              let* date_of_birth := set_date_of_birth grade_level in
              ret (Student student_id school_id grade_level gpa date_of_birth
                           district))
           set_student_ids.

End Methods.

End Students.

(** ** Utilities.py *)

Module Utilities.

Definition rbind {A B} (r : result A) (k : A -> result B) : result B :=
  match r with
  | Ok a => k a
  | Raise e => Raise e
  end.

Fixpoint rmap {A B} (f : A -> result B) (xs : list A) : result (list B) :=
  match xs with
  | [] => Ok []
  | x :: rest => rbind (f x) (fun y => rbind (rmap f rest) (fun ys => Ok (y :: ys)))
  end.

Section ToDataframe.

(** The values held in the cells of a record, the integers among them,
    and the order [<=] by which a column is sorted. *)
Variable V : Type.
Variable int_cell : Z -> V.
Variable cell_le : V -> V -> bool.

(** A row of a frame: one cell per column, [None] for a missing value. *)
Definition row : Type := list (option V).

(** The sorting routine behind [DataFrame.sort_values], called with
    the default [kind]: it is given the order on rows and the rows. *)
Variable sort_rows : (row -> row -> bool) -> list row -> list row.

(** A record of [data]: a dictionary in insertion order. *)
Definition record : Type := list (string * V).

Record DataFrame : Type := Frame {
  columns : list string;
  rows : list row
}.

Definition get (k : string) (r : record) : option V :=
  snd <$> find (fun kv => String.eqb k (fst kv)) r.

(** The columns of [pd.DataFrame(data)]: the keys in order of first
    appearance. *)
Definition keys_of (data : list record) : list string :=
  fold_left (fun acc k => if existsb (String.eqb k) acc then acc else acc ++ [k])
            (concat (map (map fst) data)) [].

Definition from_records (data : list record) : DataFrame :=
  let cols := keys_of data in
  Frame cols (map (fun r => map (fun c => get c r) cols) data).

Fixpoint column_index (c : string) (cols : list string) : option nat :=
  match cols with
  | [] => None
  | c' :: rest => if String.eqb c c' then Some O else S <$> column_index c rest
  end.

(** Whether cell [a] sorts strictly before cell [b] in a column sorted
    in the given direction; missing values sort last in both. *)
Definition cell_before (asc : bool) (a b : option V) : bool :=
  match a, b with
  | Some x, Some y => if asc then negb (cell_le y x) else negb (cell_le x y)
  | Some _, None => true
  | None, _ => false
  end.

(** Lexicographic order of two rows on the sort keys, each key a column
    position and a direction. *)
Fixpoint row_le (keys : list (nat * bool)) (r1 r2 : row) : bool :=
  match keys with
  | [] => true
  | (c, asc) :: rest =>
      let a := mjoin (r1 !! c) in
      let b := mjoin (r2 !! c) in
      if cell_before asc a b then true
      else if cell_before asc b a then false
      else row_le rest r1 r2
  end.

(** The positions and directions of the sort keys: [ValueError] when
    [ascending] is a list of another length than [by], [KeyError] for a
    key that is not a column. *)
Definition sort_keys (by_ : list string) (ascending : bool + list bool)
                     (cols : list string) : result (list (nat * bool)) :=
  rbind (match ascending with
         | inl b => Ok (replicate (length by_) b)
         | inr flags =>
             if Nat.eqb (length flags) (length by_) then Ok flags
             else Raise ValueError
         end)
        (fun flags =>
           rbind (rmap (fun c => match column_index c cols with
                                 | Some i => Ok i
                                 | None => Raise KeyError
                                 end) by_)
                 (fun idx => Ok (combine idx flags))).

(** [df.sort_values(by = by, ascending = ascending)] *)
Definition sort_values (by_ : list string) (ascending : bool + list bool)
                       (df : DataFrame) : result DataFrame :=
  rbind (sort_keys by_ ascending (columns df))
        (fun keys => Ok (Frame (columns df) (sort_rows (row_le keys) (rows df)))).

(** [df.insert(0, 'id', range(1, len(df) + 1))]: [ValueError] when the
    column exists. *)
Definition insert_id (df : DataFrame) : result DataFrame :=
  if existsb (String.eqb "id") (columns df) then Raise ValueError
  else Ok (Frame ("id" :: columns df)
                 (zip_with (fun i r => Some (int_cell i) :: r)
                           (range 1 (Z.of_nat (length (rows df)) + 1))
                           (rows df))).

(** [to_dataframe(data, by, ascending, add_id)] with [filename] and
    [sql_table] left at [None]; [by] is the list of sort columns, empty
    for [None]. *)
Definition to_dataframe (data : list record) (by_ : list string)
                        (ascending : bool + list bool) (add_id : bool)
  : result DataFrame :=
  let df := from_records data in
  rbind (match by_ with
         | [] => Ok df
         | _ :: _ => sort_values by_ ascending df
         end)
        (fun df => if add_id then insert_id df else Ok df).

(** Following the specification: the stable sort of the rows by the
    keys, rows with equal keys in input order.  It is a reference to
    compare [to_dataframe] with, not part of the program. *)
Fixpoint stable_insert (le : row -> row -> bool) (r : row) (sorted : list row)
  : list row :=
  match sorted with
  | [] => [r]
  | s :: rest => if le r s then r :: s :: rest else s :: stable_insert le r rest
  end.

Definition stable_sort (le : row -> row -> bool) (rs : list row) : list row :=
  fold_right (stable_insert le) [] rs.

End ToDataframe.

Arguments Frame {V} columns rows.
Arguments columns {V} d.
Arguments rows {V} d.
Arguments get {V} k r.
Arguments keys_of {V} data.
Arguments from_records {V} data.
Arguments cell_before {V} cell_le asc a b.
Arguments row_le {V} cell_le keys r1 r2.
Arguments sort_values {V} cell_le sort_rows by_ ascending df.
Arguments insert_id {V} int_cell df.
Arguments to_dataframe {V} int_cell cell_le sort_rows data by_ ascending add_id.
Arguments stable_insert {V} le r sorted.
Arguments stable_sort {V} le rs.

(** [str.upper] on an ASCII string: the letters a to z become A to Z. *)
Definition upper_ascii (c : Ascii.ascii) : Ascii.ascii :=
  let n := Ascii.nat_of_ascii c in
  if ((97 <=? n) && (n <=? 122))%nat then Ascii.ascii_of_nat (n - 32) else c.

Fixpoint upper (s : string) : string :=
  match s with
  | EmptyString => EmptyString
  | String c rest => String (upper_ascii c) (upper rest)
  end.

Fixpoint ascii_only (s : string) : bool :=
  match s with
  | EmptyString => true
  | String c rest => (Ascii.nat_of_ascii c <? 128)%nat && ascii_only rest
  end.

(** The table of [get_state_name], in the order of the source. *)
Definition state_dict : record string :=
  [("AL", "Alabama"); ("AK", "Alaska"); ("AZ", "Arizona");
   ("AR", "Arkansas"); ("CA", "California"); ("CO", "Colorado");
   ("CT", "Connecticut"); ("DE", "Delaware"); ("FL", "Florida");
   ("GA", "Georgia"); ("HI", "Hawaii"); ("ID", "Idaho");
   ("IL", "Illinois"); ("IN", "Indiana"); ("IA", "Iowa");
   ("KS", "Kansas"); ("KY", "Kentucky"); ("LA", "Louisiana");
   ("ME", "Maine"); ("MD", "Maryland"); ("MA", "Massachusetts");
   ("MI", "Michigan"); ("MN", "Minnesota"); ("MS", "Mississippi");
   ("MO", "Missouri"); ("MT", "Montana"); ("NE", "Nebraska");
   ("NV", "Nevada"); ("NH", "New Hampshire"); ("NJ", "New Jersey");
   ("NM", "New Mexico"); ("NY", "New York"); ("NC", "North Carolina");
   ("ND", "North Dakota"); ("OH", "Ohio"); ("OK", "Oklahoma");
   ("OR", "Oregon"); ("PA", "Pennsylvania"); ("RI", "Rhode Island");
   ("SC", "South Carolina"); ("SD", "South Dakota"); ("TN", "Tennessee");
   ("TX", "Texas"); ("UT", "Utah"); ("VT", "Vermont");
   ("VA", "Virginia"); ("WA", "Washington"); ("WV", "West Virginia");
   ("WI", "Wisconsin"); ("WY", "Wyoming")].

(** [get_state_name(state_abbr)] for an ASCII [state_abbr]; [None] is
    Python's [None]. *)
Definition get_state_name (state_abbr : string) : option string :=
  get (upper state_abbr) state_dict.

(** A sorting routine that orders the rows but leaves rows with equal
    keys in the reverse of their input order: each row, taken from the
    front, is put before the rows it does not exceed. *)
Definition reversing_sort {V} (le : row V -> row V -> bool) (rs : list (row V))
  : list (row V) :=
  fold_left (fun acc r => stable_insert le r acc) rs [].

End Utilities.

(** ** Fixed inputs used in the examples *)

(** The US calendar of the [holidays] package for 2022: New Year's Day,
    Martin Luther King Jr. Day, Washington's Birthday, Memorial Day,
    Juneteenth and its observed Monday, Independence Day, Labor Day,
    Columbus Day, Veterans Day, Thanksgiving, Christmas Day and its
    observed Monday. *)
Definition US_holidays_2022 : list date :=
  [ ymd2ord 2022 1 1; ymd2ord 2022 1 17; ymd2ord 2022 2 21; ymd2ord 2022 5 30;
    ymd2ord 2022 6 19; ymd2ord 2022 6 20; ymd2ord 2022 7 4; ymd2ord 2022 9 5;
    ymd2ord 2022 10 10; ymd2ord 2022 11 11; ymd2ord 2022 11 24;
    ymd2ord 2022 12 25; ymd2ord 2022 12 26 ].

Definition in_US_holidays_2022 (d : date) : bool :=
  existsb (Z.eqb d) US_holidays_2022.

(** A world whose three tapes are given as functions of the position. *)
Definition world_of (rn_draws np_draws : nat -> Q) (fake_draws : nat -> string)
  : world :=
  World (Tape rn_draws 0) (Tape np_draws 0) (Tape fake_draws 0).

Import Utilities.

(** ** The tables: [to_dataframe] with its writes, and [__call__] *)

Module Tables.

(** The values of the dictionaries that the four classes build. *)
Inductive cell : Type :=
| CInt (n : Z)
| CFloat (x : Q)
| CStr (s : string)
| CBool (b : bool)
| CDate (d : date).

(** The order by which a column is sorted; a column of these tables
    holds cells of one kind. *)
Definition cell_le (a b : cell) : bool :=
  match a, b with
  | CInt x, CInt y => x <=? y
  | CFloat x, CFloat y => Qle_bool x y
  | CStr x, CStr y => String.leb x y
  | CBool x, CBool y => implb x y
  | CDate x, CDate y => x <=? y
  | _, _ => false
  end.

Definition order_record (o : OrderHistory.order) : record cell :=
  [("order_id", CStr (OrderHistory.order_id o));
   ("order_date", CDate (OrderHistory.order_date o));
   ("shipped_date", CDate (OrderHistory.shipped_date o));
   ("status", CStr (OrderHistory.status o));
   ("comments", CStr (OrderHistory.comments o));
   ("order_amount", CFloat (OrderHistory.order_amount o));
   ("customer_id", CInt (OrderHistory.customer_id o));
   ("store_id", CStr (OrderHistory.store_id o))].

Definition customer_info (c : CustomerInfo.customer) : record cell :=
  [("customer_id", CInt (CustomerInfo.customer_id c));
   ("customer_name", CStr (CustomerInfo.customer_name c));
   ("phone", CStr (CustomerInfo.phone c));
   ("address", CStr (CustomerInfo.address c));
   ("city", CStr (CustomerInfo.city c));
   ("state", CStr (CustomerInfo.state c));
   ("postal_code", CStr (CustomerInfo.postal_code c));
   ("sales_rep_employee_id", CStr (CustomerInfo.sales_rep_employee_id c));
   ("credit_limit", CFloat (CustomerInfo.credit_limit c))].

Definition attendance_record (r : SchoolAttendance.attendance_record) : record cell :=
  [("date", CDate (SchoolAttendance.date_ r));
   ("student_id", CInt (SchoolAttendance.student_id r));
   ("attendance", CBool (SchoolAttendance.attendance r))].

Definition student_record (s : Students.student) : record cell :=
  [("student_id", CInt (Students.student_id s));
   ("school_id", CStr (Students.school_id s));
   ("grade_level", CInt (Students.grade_level s));
   ("gpa", CFloat (Students.gpa s));
   ("date_of_birth", CDate (Students.date_of_birth s));
   ("school_district", CStr (Students.school_district s))].

(** [os.path.join(a, *p)] of a POSIX system: a part that starts with
    the separator replaces what precedes it, and a separator is put between
    two parts unless the first is empty or ends with one. *)
Definition sep : Ascii.ascii := Ascii.ascii_of_nat 47.

Definition starts_with_sep (s : string) : bool :=
  match s with
  | String c _ => Ascii.eqb c sep
  | EmptyString => false
  end.

Fixpoint ends_with_sep (s : string) : bool :=
  match s with
  | EmptyString => false
  | String c EmptyString => Ascii.eqb c sep
  | String _ rest => ends_with_sep rest
  end.

Fixpoint join (a : string) (p : list string) : string :=
  match p with
  | [] => a
  | b :: rest =>
      join (if starts_with_sep b then b
            else if String.eqb a "" || ends_with_sep a then a +:+ b
            else a +:+ "/" +:+ b)
           rest
  end.

Section Calls.

(** The services of the libraries: the sorting routine of pandas,
    [DataFrame.to_csv] to a file, and [DataFrame.to_sql] to a table of the
    database at a path. *)
Variable sort_rows : (row cell -> row cell -> bool) -> list (row cell) -> list (row cell).
Variable to_csv : DataFrame cell -> string -> result unit.
Variable to_sql : DataFrame cell -> string -> string -> result unit.

Variable holidays_2022 : date -> bool.
Variable by_state : string -> result (list CustomerInfo.location).
Variable current_year : Z.

(** [save_path(use_parent_directory, subdir, *subdirs)], with at least
    one subdirectory. *)
Definition save_path (use_parent_directory : bool) (subdir : string)
                     (subdirs : list string) : string :=
  if use_parent_directory then join ".." (subdir :: subdirs)
  else join subdir subdirs.

(** [to_dataframe(data, by, ascending, add_id, filename, sql_table)];
    [None] and the empty string are both false. *)
Definition to_dataframe (data : list (record cell)) (by_ : list string)
                        (ascending : bool + list bool) (add_id : bool)
                        (filename sql_table : option string)
  : result (DataFrame cell) :=
  rbind (Utilities.to_dataframe CInt cell_le sort_rows data by_ ascending add_id)
        (fun df =>
           rbind (match filename with
                  | Some (String c f) => to_csv df (String c f)
                  | _ => Ok tt
                  end)
                 (fun _ =>
                    rbind (match sql_table with
                           | Some (String c t) =>
                               to_sql df (String c t) (save_path true "Data" ["jane.db"])
                           | _ => Ok tt
                           end)
                          (fun _ => Ok df))).

(** [OrderHistory.__call__] *)
Definition OrderHistory_call (self : OrderHistory.t) : M (DataFrame cell) :=
  let* data := OrderHistory.generate_data holidays_2022 self in
  lift (to_dataframe (map order_record data) ["order_id"] (inl true) false
          (Some (save_path true "Data" ["order_history.csv"]))
          (Some "order_history")).

(** [CustomerInfo.__call__] *)
Definition CustomerInfo_call (self : CustomerInfo.t) : M (DataFrame cell) :=
  let* data := CustomerInfo.generate_data by_state self in
  lift (to_dataframe (map customer_info data) ["customer_id"] (inl true) false
          (Some (save_path true "Data" ["customer_info.csv"]))
          (Some "customer_info")).

(** [SchoolAttendance.__call__] *)
Definition SchoolAttendance_call (self : SchoolAttendance.t) : M (DataFrame cell) :=
  let* data := SchoolAttendance.generate_data self in
  lift (to_dataframe (map attendance_record data) ["student_id"; "date"] (inl true) true
          (Some (save_path true "Data" ["school_attendance.csv"]))
          (Some "school_attendance")).

(** [Students.__call__] *)
Definition Students_call (self : Students.t) : M (DataFrame cell) :=
  let* data := Students.generate_data current_year self in
  lift (to_dataframe (map student_record data) ["student_id"] (inl true) false
          (Some (save_path true "Data" ["students.csv"]))
          (Some "students")).

End Calls.

End Tables.

(** ** Vocabulary of the statements *)


(** The spike multiplier picked by the next two [numpy] draws: one of
    29 ones or the uniform draw of [[2, 4)]. *)
Definition spike_of (w : world) : Q :=
  nth (Z.to_nat (index_below (current (np (step_np w))) 30))
      (replicate 29 1%Q ++ [(2 + (4 - 2) * frac (current (np w)))%Q]) 1%Q.

(** The normal sample of [set_order_amount] before rounding: the mean
    [aov * spike * peak] plus 15 times the third [numpy] draw. *)
Definition normal_sample (self : OrderHistory.t) (order_date : date) (w : world) : Q :=
  (inject_Z (OrderHistory.aov self) * spike_of w
   * OrderHistory.peak_multiplier (OrderHistory.peak_days self) order_date
   + 15 * current (np (step_np (step_np w))))%Q.

Definition shippable (d : date) : Prop := 1 <= d /\ d + 5 <= max_ordinal.

Definition month_length (birth_month : Z) : Z :=
  if birth_month =? 2 then 28
  else if existsb (Z.eqb birth_month) [4; 6; 9; 11] then 30
  else 31.

(** The (date, student_id) pair of a record. *)
Definition key_of (r : SchoolAttendance.attendance_record) : date * Z :=
  (SchoolAttendance.date_ r, SchoolAttendance.student_id r).

Definition key_eq_dec (x y : date * Z) : {x = y} + {x <> y} := decide (x = y).

Definition fallback : string * string * string := ("Los Angeles", "CA", "90210").

(** The resolver raises nothing but [IndexError]. *)
Definition raises_only_IndexError
  (by_state : string -> result (list CustomerInfo.location)) : Prop :=
  forall s e, by_state s = Raise e -> e = IndexError.

(** [t] is a triple sampled for the state abbreviation [s]: [s] is not
    excluded and the city and postal code are those of a location the
    resolver lists for [s]. *)
Definition sampled_for
  (by_state : string -> result (list CustomerInfo.location))
  (s : string) (t : string * string * string) : Prop :=
  existsb (String.eqb s) CustomerInfo.excluded_states = false
  /\ exists found loc z,
      by_state s = Ok found /\ In loc found
      /\ CustomerInfo.zipcode loc = Some z
      /\ t = (CustomerInfo.major_city loc, s, z).

(** The given passes of the retry loop, run in turn from [w], all end
    without returning and leave the world [w']. *)
Fixpoint failed_attempts
  (by_state : string -> result (list CustomerInfo.location))
  (passes : list Z) (w w' : world) : Prop :=
  match passes with
  | [] => w' = w
  | i :: rest =>
      exists w1, CustomerInfo.attempt by_state i w = (Ok None, w1)
                 /\ failed_attempts by_state rest w1 w'
  end.

(** What [sort_values] promises of its sorting routine with the default
    [kind]: the rows are rearranged, and come out in non-decreasing order
    when the order on rows is total.  The order of rows with equal keys is
    not part of the promise. *)
Definition sorting_routine {V}
  (sort_rows : (row V -> row V -> bool) -> list (row V) -> list (row V)) : Prop :=
  forall le rs,
    Permutation (sort_rows le rs) rs
    /\ ((forall a b, le a b = true \/ le b a = true) ->
        Sorted (fun a b => le a b = true) (sort_rows le rs)).

(** ** Vocabulary of the further statements *)

(** The hundredths returned by [set_gpa]. *)
Definition gpa_hundredths (w : world) : Z :=
  round_half_even
    (Students.clip (3 + current (rn w) * (2 # 10))%Q 1 4 * inject_Z 100).

(** What a student record produced in the year [current_year] holds. *)
Definition student_ok (current_year : Z) (s : Students.student) : Prop :=
  1 <= Students.grade_level s <= 12
  /\ (1 <= Students.gpa s <= 4)%Q
  /\ In (Students.school_id s, Students.school_district s)
        Students.school_district_mapping
  /\ exists m d,
      1 <= m <= 12 /\ 1 <= d <= month_length m
      /\ Students.date_of_birth s
         = ymd2ord (current_year - (Students.grade_level s + 5)) m d.

(** The slots of a tier: every customer id repeated [slots] times. *)
Definition spread (slots : nat) (ids : list Z) : list Z :=
  concat (map (fun customer_id => replicate slots customer_id) ids).

(** The range from which [set_customer_pool] draws an id. *)
Definition customer_id_range (customer_id : Z) : Prop :=
  1000000 <= customer_id <= 9999999.

(** The status that [set_status] picks for the uniform number [u]. *)
Definition status_of (u : Q) : string :=
  if Qlt_le_dec u (87 # 100) then "completed"
  else if Qlt_le_dec u (97 # 100) then "abandoned"
  else "canceled".




(** What one order draws: four numbers of [random], three of
    [numpy.random], two more of [random]. *)
Definition order_step (w : world) : world :=
  step_rn (step_rn (step_np (step_np (step_np
    (step_rn (step_rn (step_rn (step_rn w)))))))).

(** What an order produced by [generate_data] holds. *)
Definition order_ok (holidays_2022 : date -> bool) (self : OrderHistory.t)
           (o : OrderHistory.order) : Prop :=
  In (OrderHistory.order_date o) (OrderHistory.dates self)
  /\ In (OrderHistory.customer_id o) (OrderHistory.customer_pool self)
  /\ In (OrderHistory.shipped_date o - OrderHistory.order_date o) [1; 2; 4; 5]
  /\ In (OrderHistory.status o) ["completed"; "abandoned"; "canceled"]
  /\ OrderHistory.comments o
     = (if holidays_2022 (OrderHistory.order_date o) then "Holiday Promotion" else "")
  /\ (exists n, 1000000 <= n <= 9999999 /\ OrderHistory.order_id o = "O" +:+ pretty n)
  /\ (exists n, 1 <= n <= 500 /\ OrderHistory.store_id o = "S" +:+ pretty n).

(** The results of a loop whose body maps one raw draw of [random]: the
    element at index [i] gets the draw at position [p + i]. *)
Fixpoint draw_map {A B} (h : A -> Q -> B) (tape : nat -> Q) (p : nat) (xs : list A)
  : list B :=
  match xs with
  | [] => []
  | x :: rest => h x (tape p) :: draw_map h tape (S p) rest
  end.

(** The attendance picked by a raw draw among the five weights. *)
Definition attendance_of (q : Q) : bool :=
  nth (Z.to_nat (index_below q 5)) [true; true; true; true; false] true.

(** The attendance record of a (date, student) pair and a raw draw. *)
Definition record_of (key : date * Z) (q : Q) : SchoolAttendance.attendance_record :=
  SchoolAttendance.Record_ (fst key) (snd key) (attendance_of q).

(** What a customer record produced by [generate_data] holds. *)
Definition customer_ok (by_state : string -> result (list CustomerInfo.location))
           (c : CustomerInfo.customer) : Prop :=
  existsb (String.eqb (CustomerInfo.state c)) CustomerInfo.excluded_states = false
  /\ (let t := (CustomerInfo.city c, CustomerInfo.state c, CustomerInfo.postal_code c) in
      t = fallback \/ sampled_for by_state (CustomerInfo.state c) t)
  /\ (exists n, 1 <= n <= 10
                /\ CustomerInfo.sales_rep_employee_id c = "SRE" +:+ pretty n)
  /\ (exists hundreds : Z,
         (CustomerInfo.credit_limit c == inject_Z (100 * hundreds))%Q).

(** [ascending] fits [by]: one flag, or as many flags as sort columns. *)
Definition flags_fit (by_ : list string) (ascending : bool + list bool) : Prop :=
  match ascending with
  | inl _ => True
  | inr flags => length flags = length by_
  end.

(** The row of an attendance record. *)
Definition attendance_row (r : SchoolAttendance.attendance_record)
  : row Tables.cell :=
  [Some (Tables.CDate (SchoolAttendance.date_ r));
   Some (Tables.CInt (SchoolAttendance.student_id r));
   Some (Tables.CBool (SchoolAttendance.attendance r))].

(** The sort keys of the attendance table: [student_id], then [date],
    both ascending. *)
Definition attendance_keys : list (nat * bool) := [(1%nat, true); (0%nat, true)].

(** ** Fixed inputs used in the examples, continued *)

(** A resolver that knows Austin for TX and nothing else. *)
Definition texas_only (s : string) : result (list CustomerInfo.location) :=
  if String.eqb s "TX" then Ok [CustomerInfo.Location "Austin" (Some "73301")]
  else Ok [].

(** A resolver that rejects an unknown state with [ValueError], as a
    lookup by name may. *)
Definition rejecting (s : string) : result (list CustomerInfo.location) :=
  if String.eqb s "TX" then Ok [CustomerInfo.Location "Austin" (Some "73301")]
  else Raise ValueError.

(** Raw [random] draws: three customer ids, then six draws an order, of
    which the fifth picks the customer: slot 0 of the pool for the orders
    of even rank, slot 4 for those of odd rank. *)
Definition demo_rn (n : nat) : Q :=
  if (n <? 3)%nat then inject_Z (Z.of_nat n)
  else if ((n - 3) mod 6 =? 4)%nat
       then (if Nat.even ((n - 3) / 6) then 0 else 4)%Q
       else 0%Q.

(** Raw [numpy] draws: three an order, of which the third is the normal
    deviate: 1 for the orders of even rank, -1 for those of odd rank. *)
Definition demo_np (n : nat) : Q :=
  if (n mod 3 =? 2)%nat then (if Nat.even (n / 3) then 1 else -1)%Q else 0%Q.

Definition demo_world : world := world_of demo_rn demo_np (fun _ => "TX").

(** [OrderHistory(70, 5, date(2022, 1, 1), date(2022, 1, 31))] on
    [demo_world]: 14 orders, one customer with four slots and two with
    one. *)
Definition demo_history : OrderHistory.t :=
  OrderHistory.Build 14 70 5 (ymd2ord 2022 1 1) (ymd2ord 2022 1 31)
    OrderHistory.peak_days_2022
    (range (ymd2ord 2022 1 1) (ymd2ord 2022 1 31 + 1)
     ++ concat (replicate 4 OrderHistory.peak_days_2022))
    [1000000; 1000000; 1000000; 1000000; 1000001; 1000002].

(** The world once [demo_history] is constructed. *)
Definition demo_world_1 : world :=
  World (Tape demo_rn 3) (Tape demo_np 0) (Tape (fun _ => "TX") 0).

(** The same with every normal deviate equal to 1. *)
Definition calm_world_1 : world :=
  World (Tape demo_rn 3) (Tape (fun _ => 1%Q) 0) (Tape (fun _ => "TX") 0).

(** The customers are built over the history, then the orders are
    generated for the order table and the customers for theirs. *)
Definition paired_run
  : M (list OrderHistory.order * list CustomerInfo.customer) :=
  let* order_history :=
    OrderHistory.init 70 5 (ymd2ord 2022 1 1) (ymd2ord 2022 1 31) in
  let* customer_info := CustomerInfo.init in_US_holidays_2022 order_history in
  let* orders := OrderHistory.generate_data in_US_holidays_2022 order_history in
  let* customers := CustomerInfo.generate_data texas_only customer_info in
  ret (orders, customers).

(** The frame of the three records [{"k": 3}], [{"k": 1}], [{"k": 2}]. *)
Definition three_records : list (record Z) :=
  [[("k", 3)]; [("k", 1)]; [("k", 2)]].

(** A record that already has an [id] field. *)
Definition record_with_id : list (record Z) := [[("id", 7)]].

(** Two records with the same key. *)
Definition tied_records : list (record Z) :=
  [[("k", 1); ("v", 10)]; [("k", 1); ("v", 20)]].

(** * Properties *)

(** ** The runtime *)

Lemma bind_Ok {A B} (m : M A) (k : A -> M B) w a w' :
  m w = (Ok a, w') -> bind m k w = k a w'.
Proof. intros H. unfold bind. now rewrite H. Qed.

Lemma index_below_range q n : 0 < n -> 0 <= index_below q n < n.
Proof. intros H. unfold index_below. apply Z.mod_pos_bound. exact H. Qed.

Lemma randint_Ok lo hi w :
  lo <= hi ->
  randint lo hi w = (Ok (lo + index_below (current (rn w)) (hi - lo + 1)), step_rn w).
Proof.
  intros H. unfold randint.
  destruct (Z.ltb_spec hi lo) as [Hlt | _]; [lia | reflexivity].
Qed.

Lemma choice_Ok {A} (xs : list A) w :
  xs <> [] ->
  exists x, choice xs w = (Ok x, step_rn w) /\ In x xs.
Proof.
  intros Hne. destruct xs as [| x xs]; [congruence |].
  unfold choice, bind, next_rn, ret.
  eexists. split; [reflexivity |].
  apply nth_In.
  pose proof (index_below_range (current (rn w)) (Z.of_nat (length (x :: xs)))) as Hr.
  cbn [length] in *. lia.
Qed.

Lemma add_days_Ok d n :
  1 <= d + n <= max_ordinal -> add_days d n = Ok (d + n).
Proof.
  intros [H1 H2]. unfold add_days. cbv zeta.
  destruct (Z.leb_spec 1 (d + n)); [| lia].
  destruct (Z.leb_spec (d + n) max_ordinal); [reflexivity | lia].
Qed.

(** ** OrderHistory.set_shipped_date *)

(** The three passes of the comprehension test one and the same date, so
    they count 3 or 0. *)
Lemma shipped_extra (bad : bool) :
  Z.of_nat (length (List.filter (fun _ : Z => bad) (range 0 3)))
  = if bad then 3 else 0.
Proof. destruct bad; reflexivity. Qed.

Lemma set_shipped_date_eq holidays_2022 order_date w :
  1 <= order_date -> order_date + 5 <= max_ordinal ->
  let r := 1 + index_below (current (rn w)) 2 in
  let bad := (5 <=? weekday (order_date + r)) || holidays_2022 (order_date + r) in
  OrderHistory.set_shipped_date holidays_2022 order_date w
  = (Ok (order_date + r + (if bad then 3 else 0)), step_rn w).
Proof.
  intros Hlo Hhi r bad.
  pose proof (index_below_range (current (rn w)) 2 ltac:(lia)) as Hr.
  unfold OrderHistory.set_shipped_date.
  rewrite (bind_Ok _ _ _ _ _ (randint_Ok 1 2 w ltac:(lia))).
  change (2 - 1 + 1) with 2. fold r.
  unfold bind at 1, lift at 1.
  rewrite add_days_Ok by (subst r; lia).
  rewrite shipped_extra. fold bad.
  unfold lift. rewrite add_days_Ok by (subst r; destruct bad; lia).
  reflexivity.
Qed.

(** C10: the date returned by [set_shipped_date] is the order date plus
    a draw of 1 or 2 days plus a correction that is 3 days when the drawn
    date is a weekend day or a holiday and 0 days otherwise; so it is the
    order date plus 1, 2, 4 or 5 days. *)
Theorem set_shipped_date_offsets :
  forall (holidays_2022 : date -> bool) (order_date : date) (w : world),
    1 <= order_date -> order_date + 5 <= max_ordinal ->
    exists r c w',
      OrderHistory.set_shipped_date holidays_2022 order_date w
      = (Ok (order_date + r + c), w')
      /\ (r = 1 \/ r = 2)
      /\ (c = 0 \/ c = 3)
      /\ (c = 3 <->
          (5 <=? weekday (order_date + r)) || holidays_2022 (order_date + r) = true)
      /\ (r + c = 1 \/ r + c = 2 \/ r + c = 4 \/ r + c = 5).
Proof.
  intros hol od w Hlo Hhi.
  pose proof (index_below_range (current (rn w)) 2 ltac:(lia)) as Hr.
  exists (1 + index_below (current (rn w)) 2).
  eexists. eexists.
  split; [apply set_shipped_date_eq; assumption |].
  destruct ((5 <=? weekday (od + (1 + index_below (current (rn w)) 2)))
            || hol (od + (1 + index_below (current (rn w)) 2))).
  - repeat split; try lia; auto.
  - repeat split; try lia; try discriminate; auto.
Qed.

(** An order placed on 2022-11-23 under the US calendar of 2022. *)
Lemma set_shipped_date_offsets_witness :
  exists r c w',
    OrderHistory.set_shipped_date in_US_holidays_2022 (ymd2ord 2022 11 23)
      (world_of (fun _ => 0%Q) (fun _ => 0%Q) (fun _ => ""))
    = (Ok (ymd2ord 2022 11 23 + r + c), w')
    /\ (r = 1 \/ r = 2)
    /\ (c = 0 \/ c = 3)
    /\ (c = 3 <->
        (5 <=? weekday (ymd2ord 2022 11 23 + r))
        || in_US_holidays_2022 (ymd2ord 2022 11 23 + r) = true)
    /\ (r + c = 1 \/ r + c = 2 \/ r + c = 4 \/ r + c = 5).
Proof.
  apply (set_shipped_date_offsets in_US_holidays_2022 (ymd2ord 2022 11 23)).
  - vm_compute. discriminate.
  - vm_compute. discriminate.
Defined.

(** C3: on the order date 2022-11-23 with a draw of one day, the three
    checks see Thanksgiving three times and [set_shipped_date] returns
    2022-11-27, a Sunday. *)
Theorem set_shipped_date_lands_on_sunday :
  fst (OrderHistory.set_shipped_date in_US_holidays_2022 (ymd2ord 2022 11 23)
         (world_of (fun _ => 0%Q) (fun _ => 0%Q) (fun _ => "")))
  = Ok (ymd2ord 2022 11 27)
  /\ weekday (ymd2ord 2022 11 27) = 6
  /\ In (ymd2ord 2022 11 23) OrderHistory.peak_days_2022.
Proof.
  split; [vm_compute; reflexivity |].
  split; [vm_compute; reflexivity |].
  vm_compute. tauto.
Qed.

(** ** Loops *)

(** A loop whose body returns at every element returns, and relates each
    element to its result. *)
Lemma for_each_Ok {A B} (f : A -> M B) (P : A -> B -> Prop) (xs : list A) :
  (forall x w, In x xs -> exists y w', f x w = (Ok y, w') /\ P x y) ->
  forall w, exists ys w', for_each f xs w = (Ok ys, w') /\ Forall2 P xs ys.
Proof.
  induction xs as [| x xs IH]; intros Hf w.
  - exists [], w. split; [reflexivity | constructor].
  - destruct (Hf x w (or_introl eq_refl)) as (y & w1 & Hy & HP).
    destruct (IH (fun x' w' Hin => Hf x' w' (or_intror Hin)) w1)
      as (ys & w2 & Hys & HPs).
    exists (y :: ys), w2. split; [| constructor; assumption].
    cbn [for_each]. rewrite (bind_Ok _ _ _ _ _ Hy).
    rewrite (bind_Ok _ _ _ _ _ Hys). reflexivity.
Qed.

(** Whatever a loop returns relates each element to its result. *)
Lemma for_each_inv {A B} (f : A -> M B) (P : A -> B -> Prop) (xs : list A) :
  (forall x w y w', In x xs -> f x w = (Ok y, w') -> P x y) ->
  forall w ys w', for_each f xs w = (Ok ys, w') -> Forall2 P xs ys.
Proof.
  induction xs as [| x xs IH]; intros Hf w ys w' Hrun.
  - cbn in Hrun. injection Hrun as <- _. constructor.
  - cbn [for_each] in Hrun. unfold bind at 1 in Hrun.
    destruct (f x w) as [[y | e] w1] eqn:Hy; [| discriminate].
    unfold bind at 1 in Hrun.
    destruct (for_each f xs w1) as [[ys' | e] w2] eqn:Hys; [| discriminate].
    injection Hrun as <- _.
    constructor.
    + eapply Hf; [left; reflexivity | exact Hy].
    + eapply IH; [| exact Hys]. intros; eapply Hf; [right |]; eassumption.
Qed.

Lemma range_length a b : length (range a b) = Z.to_nat (b - a).
Proof. unfold range. now rewrite length_map, length_seq. Qed.

Lemma in_range a b x : In x (range a b) <-> a <= x < b.
Proof.
  unfold range. rewrite in_map_iff. split.
  - intros (i & <- & Hi). apply in_seq in Hi. lia.
  - intros H. exists (Z.to_nat (x - a)). split; [lia |]. apply in_seq. lia.
Qed.

Lemma range_NoDup a b : NoDup (range a b).
Proof.
  unfold range.
  assert (Inj eq eq (fun i : nat => a + Z.of_nat i)) as Hinj
    by (intros i j; lia).
  apply (NoDup_fmap_2 _), NoDup_seq.
Qed.

(** ** OrderHistory.set_order_amount: the peak multiplier *)


(** C5: around the first peak day, 2022-04-20, the multiplier is 1 on the
    days before it and on the peak day itself, then grows with the days
    elapsed since the peak day up to 3 on 2022-04-30, and is 1 again from
    2022-05-01: the greatest value is reached ten days after the peak
    day. *)
Theorem peak_multiplier_lowest_on_peak_day :
  let m := OrderHistory.peak_multiplier OrderHistory.peak_days_2022 in
  (m (ymd2ord 2022 4 19) == 1
   /\ m (ymd2ord 2022 4 20) == 1
   /\ m (ymd2ord 2022 4 21) == 12 # 10
   /\ m (ymd2ord 2022 4 25) == 2
   /\ m (ymd2ord 2022 4 30) == 3
   /\ m (ymd2ord 2022 5 1) == 1)%Q.
Proof. cbv zeta. repeat split; vm_compute; reflexivity. Qed.

(** ** Students.set_date_of_birth *)

Lemma birth_months_range m : In m Students.birth_months -> 1 <= m <= 12.
Proof.
  intros H. vm_compute in H.
  repeat (destruct H as [<- | H]; [lia |]). destruct H.
Qed.

Lemma month_length_fits y m : 1 <= m <= 12 -> 28 <= month_length m <= days_in_month y m.
Proof.
  intros H. unfold month_length, days_in_month.
  assert (m = 1 \/ m = 2 \/ m = 3 \/ m = 4 \/ m = 5 \/ m = 6 \/ m = 7 \/ m = 8
          \/ m = 9 \/ m = 10 \/ m = 11 \/ m = 12) as Hm by lia.
  destruct (is_leap y);
    repeat (destruct Hm as [-> | Hm]; [cbn; lia |]); subst; cbn; lia.
Qed.

(** C9, as amended: the birth year is the current year minus
    (grade_level + 5); the month is an element of a 72-element pool holding
    March 17 times and every other month 5 times, picked by the next draw;
    the day is picked by the draw after it from 1 up to 28 (February), 30
    (April, June, September, November) or 31 (the rest); and the date
    constructor accepts the three. *)
Theorem set_date_of_birth_valid :
  forall (current_year grade_level : Z) (w : world),
    1 <= grade_level <= 12 ->
    18 <= current_year <= 9999 ->
    (length Students.birth_months = 72%nat
     /\ count_occ Z.eq_dec Students.birth_months 3 = 17%nat
     /\ (forall m, 1 <= m <= 12 -> m <> 3 ->
                   count_occ Z.eq_dec Students.birth_months m = 5%nat))
    /\ exists birth_month birth_day,
        let birth_year := current_year - (grade_level + 5) in
        Students.set_date_of_birth current_year grade_level w
        = (Ok (ymd2ord birth_year birth_month birth_day), step_rn (step_rn w))
        /\ mkdate birth_year birth_month birth_day
           = Ok (ymd2ord birth_year birth_month birth_day)
        /\ nth_error Students.birth_months
                     (Z.to_nat (index_below (current (rn w)) 72)) = Some birth_month
        /\ birth_day = 1 + index_below (current (rn (step_rn w))) (month_length birth_month)
        /\ 1 <= birth_day <= month_length birth_month
        /\ month_length birth_month <= days_in_month birth_year birth_month.
Proof.
  intros cy g w Hg Hcy. split.
  { split; [reflexivity |]. split; [reflexivity |].
    intros m Hm Hne.
    assert (m = 1 \/ m = 2 \/ m = 4 \/ m = 5 \/ m = 6 \/ m = 7 \/ m = 8
            \/ m = 9 \/ m = 10 \/ m = 11 \/ m = 12) as Hc by lia.
    repeat (destruct Hc as [-> | Hc]; [reflexivity |]). subst. reflexivity. }
  pose proof (index_below_range (current (rn w)) 72 ltac:(lia)) as Hi.
  set (i := Z.to_nat (index_below (current (rn w)) 72)).
  assert (i < length Students.birth_months)%nat as Hlt
    by (change (length Students.birth_months) with 72%nat; subst i; lia).
  destruct (nth_error Students.birth_months i) as [m |] eqn:Hm;
    [| apply nth_error_None in Hm; lia].
  assert (In m Students.birth_months) as Hin by (eapply nth_error_In; exact Hm).
  pose proof (birth_months_range m Hin) as Hrange.
  pose proof (month_length_fits (cy - (g + 5)) m Hrange) as Hfit.
  pose proof (index_below_range (current (rn (step_rn w))) (month_length m)
                ltac:(lia)) as Hd.
  exists m, (1 + index_below (current (rn (step_rn w))) (month_length m)).
  cbv zeta.
  assert (Students.set_date_of_birth cy g w
          = lift (mkdate (cy - (g + 5)) m
                    (1 + index_below (current (rn (step_rn w))) (month_length m)))
                 (step_rn (step_rn w))) as Hrun.
  { unfold Students.set_date_of_birth.
    assert (choice Students.birth_months w = (Ok m, step_rn w)) as Hch.
    { unfold choice. change (length Students.birth_months) with 72%nat.
      unfold Students.birth_months at 1. cbn [replicate app].
      unfold bind, next_rn, ret. f_equal. f_equal.
      change (Z.of_nat 72) with 72. fold i.
      apply nth_error_nth. exact Hm. }
    rewrite (bind_Ok _ _ _ _ _ Hch).
    fold (month_length m).
    rewrite (bind_Ok _ _ _ _ _ (randint_Ok 1 (month_length m) (step_rn w) ltac:(lia))).
    replace (month_length m - 1 + 1) with (month_length m) by lia.
    reflexivity. }
  assert (mkdate (cy - (g + 5)) m
            (1 + index_below (current (rn (step_rn w))) (month_length m))
          = Ok (ymd2ord (cy - (g + 5)) m
                  (1 + index_below (current (rn (step_rn w))) (month_length m))))
    as Hmk.
  { unfold mkdate, MINYEAR, MAXYEAR.
    repeat match goal with
           | |- context [?a <=? ?b] =>
               destruct (Z.leb_spec a b); [| lia]
           end.
    reflexivity. }
  split; [rewrite Hrun; unfold lift; now rewrite Hmk |].
  split; [exact Hmk |].
  split; [reflexivity |].
  split; [reflexivity |].
  split; lia.
Qed.

(** The date of birth of a third-grader in 2023 is constructed. *)
Lemma set_date_of_birth_valid_witness :
  exists d w',
    Students.set_date_of_birth 2023 3
      (world_of (fun _ => 0%Q) (fun _ => 0%Q) (fun _ => "")) = (Ok d, w').
Proof.
  destruct (set_date_of_birth_valid 2023 3
              (world_of (fun _ => 0%Q) (fun _ => 0%Q) (fun _ => ""))
              ltac:(lia) ltac:(lia))
    as (_ & m & d & Hrun & _).
  eexists. eexists. exact Hrun.
Defined.

(** March does not weigh twelve times as much as January in the pool. *)
Lemma march_weight_not_twelvefold :
  ~ (count_occ Z.eq_dec Students.birth_months 3%Z
     = 12 * count_occ Z.eq_dec Students.birth_months 1%Z)%nat.
Proof. vm_compute. discriminate. Qed.

(** ** SchoolAttendance.generate_data *)

Lemma for_each_lift {A B} (g : A -> result B) (h : A -> B) (xs : list A) w :
  (forall x, In x xs -> g x = Ok (h x)) ->
  for_each (fun x => lift (g x)) xs w = (Ok (map h xs), w).
Proof.
  induction xs as [| x xs IH]; intros Hg; [reflexivity |].
  cbn [for_each map]. unfold bind at 1, lift at 1.
  rewrite (Hg x (or_introl eq_refl)).
  unfold bind at 1. rewrite IH by (intros; apply Hg; now right).
  reflexivity.
Qed.

Lemma range_shift a n : map (fun d => a + d) (range 0 n) = range a (a + n).
Proof.
  unfold range. rewrite map_map.
  replace (a + n - a) with (n - 0) by lia.
  apply map_ext. intros i. lia.
Qed.

Lemma date_range_Ok start_date end_date w :
  1 <= start_date -> end_date <= max_ordinal ->
  for_each (fun d => lift (add_days start_date d))
           (range 0 (days_between end_date start_date + 1)) w
  = (Ok (range start_date (end_date + 1)), w).
Proof.
  intros Hlo Hhi.
  rewrite (for_each_lift _ (fun d => start_date + d)).
  - rewrite range_shift. unfold days_between. do 3 f_equal. lia.
  - intros d Hd. apply in_range in Hd. unfold days_between in Hd.
    apply add_days_Ok. lia.
Qed.

Lemma Forall2_map_eq {A B C} (f : A -> C) (g : B -> C) xs ys :
  Forall2 (fun x y => g y = f x) xs ys -> map g ys = map f xs.
Proof. induction 1; cbn; congruence. Qed.

Lemma Forall2_concat_map {A B C} (f : A -> list C) (g : B -> C) xs yss :
  Forall2 (fun x ys => map g ys = f x) xs yss ->
  map g (concat yss) = flat_map f xs.
Proof.
  induction 1 as [| x ys xs yss Hxy _ IH]; [reflexivity |].
  cbn. rewrite map_app, Hxy, IH. reflexivity.
Qed.

Lemma list_prod_NoDup {A B} (l : list A) (l' : list B) :
  NoDup l -> NoDup l' -> NoDup (list_prod l l').
Proof.
  intros Hl Hl'. induction Hl as [| a l Ha _ IH]; cbn; [constructor |].
  apply NoDup_app. split; [| split; [| exact IH]].
  - assert (Inj eq eq (pair (B:=B) a)) as Hinj by (intros x y; congruence).
    apply (NoDup_fmap_2 _). exact Hl'.
  - intros [x y] Hin1 Hin2.
    apply list_elem_of_In, in_map_iff in Hin1 as (b & Heq & _).
    injection Heq as -> ->.
    apply list_elem_of_In, in_prod_iff in Hin2 as [Hin2 _].
    apply Ha, list_elem_of_In, Hin2.
Qed.

(** C2: for a date range [start_date .. end_date] and students
    [1 .. max_student_id], [generate_data] returns
    (end - start + 1) * max_student_id records whose (date, student_id)
    pairs are the cross product of the dates and the student ids, dates in
    the outer loop and ids in the inner one, every pair exactly once. *)
Theorem attendance_generate_data_cross_product :
  forall (start_date end_date : date) (max_student_id : Z) (w : world),
    1 <= start_date -> start_date <= end_date -> end_date <= max_ordinal ->
    0 < max_student_id ->
    exists self,
      SchoolAttendance.init start_date end_date max_student_id w = (Ok self, w)
      /\ forall w1, exists data w2,
          SchoolAttendance.generate_data self w1 = (Ok data, w2)
          /\ Z.of_nat (length data) = (end_date - start_date + 1) * max_student_id
          /\ map key_of data
             = list_prod (range start_date (end_date + 1)) (range 1 (max_student_id + 1))
          /\ NoDup (map key_of data)
          /\ forall d s, start_date <= d <= end_date -> 1 <= s <= max_student_id ->
                         count_occ key_eq_dec (map key_of data) (d, s) = 1%nat.
Proof.
  intros start_date end_date max_student_id w Hlo Hle Hhi Hmax.
  eexists. split.
  { unfold SchoolAttendance.init, SchoolAttendance.calculate_dates.
    rewrite (bind_Ok _ _ _ _ _ (date_range_Ok start_date end_date w Hlo Hhi)).
    reflexivity. }
  intros w1.
  set (dates := range start_date (end_date + 1)).
  set (ids := range 1 (max_student_id + 1)).
  set (self := SchoolAttendance.Build _ _ _ _ _).
  destruct (for_each_Ok
              (fun date =>
                 for_each (fun student_id =>
                             let* attendance := SchoolAttendance.set_random_attendance self in
                             ret (SchoolAttendance.Record_ date student_id attendance))
                          (SchoolAttendance.set_student_ids self))
              (fun date rs => map key_of rs = map (pair date) ids)
              dates) with (w := w1) as (per_date & w2 & Hrun & Hrel).
  { intros date w' _.
    destruct (for_each_Ok
                (fun student_id =>
                   let* attendance := SchoolAttendance.set_random_attendance self in
                   ret (SchoolAttendance.Record_ date student_id attendance))
                (fun student_id r => key_of r = pair date student_id)
                (SchoolAttendance.set_student_ids self)) with (w := w')
      as (rs & w'' & Hrs & Hrel).
    { intros s w0 _.
      destruct (choice_Ok (SchoolAttendance.attendance_weights self) w0)
        as (a & Ha & _); [discriminate |].
      exists (SchoolAttendance.Record_ date s a), (step_rn w0).
      split; [| reflexivity].
      unfold SchoolAttendance.set_random_attendance.
      now rewrite (bind_Ok _ _ _ _ _ Ha). }
    exists rs, w''. split; [exact Hrs |].
    apply Forall2_map_eq. exact Hrel. }
  exists (concat per_date), w2.
  assert (map key_of (concat per_date) = list_prod dates ids) as Hkeys.
  { rewrite list_prod_as_flat_map. apply Forall2_concat_map. exact Hrel. }
  assert (NoDup (list_prod dates ids)) as Hnd
    by (apply list_prod_NoDup; apply range_NoDup).
  split.
  { unfold SchoolAttendance.generate_data.
    change (SchoolAttendance.dates self) with dates.
    now rewrite (bind_Ok _ _ _ _ _ Hrun). }
  split.
  { rewrite <- (length_map key_of), Hkeys, length_prod.
    subst dates ids. rewrite !range_length. nia. }
  split; [exact Hkeys |].
  split; [rewrite Hkeys; exact Hnd |].
  intros d s Hd Hs. rewrite Hkeys.
  apply NoDup_count_occ'; [apply NoDup_ListNoDup; exact Hnd |].
  apply in_prod; apply in_range; lia.
Qed.

(** Three days of January 2023 and five students give fifteen records. *)
Lemma attendance_generate_data_cross_product_witness :
  exists self data w',
    SchoolAttendance.init (ymd2ord 2023 1 1) (ymd2ord 2023 1 3) 5
      (world_of (fun _ => 0%Q) (fun _ => 0%Q) (fun _ => ""))
    = (Ok self, world_of (fun _ => 0%Q) (fun _ => 0%Q) (fun _ => ""))
    /\ SchoolAttendance.generate_data self
         (world_of (fun _ => 0%Q) (fun _ => 0%Q) (fun _ => "")) = (Ok data, w')
    /\ length data = 15%nat
    /\ map key_of data
       = list_prod (range (ymd2ord 2023 1 1) (ymd2ord 2023 1 3 + 1)) (range 1 6).
Proof.
  destruct (attendance_generate_data_cross_product
              (ymd2ord 2023 1 1) (ymd2ord 2023 1 3) 5
              (world_of (fun _ => 0%Q) (fun _ => 0%Q) (fun _ => "")))
    as (self & Hinit & Hgen);
    [vm_compute; discriminate | vm_compute; discriminate
     | vm_compute; discriminate | lia |].
  destruct (Hgen (world_of (fun _ => 0%Q) (fun _ => 0%Q) (fun _ => "")))
    as (data & w' & Hrun & Hlen & Hkeys & _).
  exists self, data, w'.
  split; [exact Hinit |]. split; [exact Hrun |].
  split; [| exact Hkeys].
  apply Nat2Z.inj. rewrite Hlen. reflexivity.
Defined.

(** ** CustomerInfo.set_city_state_zip *)

Lemma attempt_returns by_state i w :
  raises_only_IndexError by_state ->
  exists r w',
    CustomerInfo.attempt by_state i w = (Ok r, w')
    /\ draws (fake w') = draws (fake w)
    /\ pos (fake w') = S (pos (fake w))
    /\ forall t, r = Some t -> sampled_for by_state (current (fake w)) t.
Proof.
  intros Hres. unfold CustomerInfo.attempt, try_except.
  unfold bind at 1, next_fake.
  destruct (existsb (String.eqb (current (fake w))) CustomerInfo.excluded_states)
    eqn:Hex; cbn [negb].
  { exists None, (step_fake w). do 3 (split; [reflexivity |]). discriminate. }
  unfold bind at 1, lift.
  destruct (by_state (current (fake w))) as [found | e] eqn:Hby.
  2:{ rewrite (Hres _ _ Hby). cbn [exn_eqb].
      exists None, (step_fake w). do 3 (split; [reflexivity |]). discriminate. }
  destruct found as [| loc0 found'].
  { cbn. exists None, (step_fake w). do 3 (split; [reflexivity |]). discriminate. }
  destruct (choice_Ok (loc0 :: found') (step_fake w)) as (loc & Hch & Hin);
    [discriminate |].
  unfold bind at 1. rewrite Hch.
  destruct (CustomerInfo.zipcode loc) as [z |] eqn:Hz.
  - exists (Some (CustomerInfo.major_city loc, current (fake w), z)),
      (step_rn (step_fake w)).
    do 3 (split; [reflexivity |]). intros t [= <-]. split; [exact Hex |].
    exists (loc0 :: found'), loc, z. auto.
  - exists None, (step_rn (step_fake w)). do 3 (split; [reflexivity |]). discriminate.
Qed.

Lemma first_return_attempts by_state (xs : list Z) w :
  raises_only_IndexError by_state ->
  exists t w',
    CustomerInfo.first_return (CustomerInfo.attempt by_state) xs (ret fallback) w
    = (Ok t, w')
    /\ draws (fake w') = draws (fake w)
    /\ ((t = fallback
         /\ pos (fake w') = (pos (fake w) + length xs)%nat
         /\ failed_attempts by_state xs w w')
        \/ exists n w1,
            (n < length xs)%nat
            /\ pos (fake w') = (pos (fake w) + n + 1)%nat
            /\ failed_attempts by_state (firstn n xs) w w1
            /\ CustomerInfo.attempt by_state (nth n xs 0) w1 = (Ok (Some t), w')
            /\ sampled_for by_state (draws (fake w) (pos (fake w) + n)%nat) t).
Proof.
  intros Hres. revert w. induction xs as [| x xs IH]; intros w.
  - exists fallback, w. split; [reflexivity |]. split; [reflexivity |].
    left. split; [reflexivity |]. split; [cbn; lia | reflexivity].
  - destruct (attempt_returns by_state x w Hres) as (r & w1 & Hrun & Hd & Hp & Hs).
    cbn [CustomerInfo.first_return]. rewrite (bind_Ok _ _ _ _ _ Hrun).
    destruct r as [t |].
    + exists t, w1. split; [reflexivity |]. split; [exact Hd |].
      right. exists 0%nat, w. split; [cbn; lia |]. split; [lia |].
      split; [reflexivity |]. split; [exact Hrun |].
      rewrite Nat.add_0_r. apply Hs. reflexivity.
    + destruct (IH w1) as (t & w2 & Hrun2 & Hd2 & Hcase).
      exists t, w2. split; [exact Hrun2 |]. split; [congruence |].
      destruct Hcase as [(-> & Hp2 & Hfail) | (n & w3 & Hn & Hp2 & Hfail & Hlast & Hs2)].
      * left. split; [reflexivity |]. split; [cbn [length]; lia |].
        exists w1. split; [exact Hrun | exact Hfail].
      * right. exists (S n), w3. split; [cbn [length]; lia |]. split; [lia |].
        split; [exists w1; split; [exact Hrun | exact Hfail] |].
        split; [exact Hlast |].
        rewrite Hd, Hp in Hs2.
        replace (pos (fake w) + S n)%nat with (S (pos (fake w)) + n)%nat by lia.
        exact Hs2.
Qed.

(** C6, as amended: when the resolver returns a list or raises
    [IndexError], [set_city_state_zip] returns a triple and never raises;
    it samples at most 5 state abbreviations; either the 5 attempts all
    fail and the triple is the fallback (Los Angeles, CA, 90210), or some
    attempts fail and the next one, the first to succeed, returns the
    triple it sampled. *)
Theorem set_city_state_zip_bounded_retry :
  forall (by_state : string -> result (list CustomerInfo.location)) (w : world),
    raises_only_IndexError by_state ->
    exists t w',
      CustomerInfo.set_city_state_zip by_state w = (Ok t, w')
      /\ (pos (fake w') <= pos (fake w) + 5)%nat
      /\ ((t = ("Los Angeles", "CA", "90210")
           /\ pos (fake w') = (pos (fake w) + 5)%nat
           /\ failed_attempts by_state (range 0 5) w w')
          \/ exists n w1,
              (n < 5)%nat
              /\ pos (fake w') = (pos (fake w) + n + 1)%nat
              /\ failed_attempts by_state (firstn n (range 0 5)) w w1
              /\ CustomerInfo.attempt by_state (nth n (range 0 5) 0) w1
                 = (Ok (Some t), w')
              /\ sampled_for by_state
                   (draws (fake w) (pos (fake w) + n)%nat) t).
Proof.
  intros by_state w Hres.
  destruct (first_return_attempts by_state (range 0 5) w Hres)
    as (t & w' & Hrun & _ & Hcase).
  exists t, w'. split; [exact Hrun |].
  change (length (range 0 5)) with 5%nat in Hcase.
  split; [| exact Hcase].
  destruct Hcase as [(_ & Hp & _) | (n & w1 & Hn & Hp & _)]; lia.
Qed.

(** With Hawaii (excluded), Guam (unknown) and Texas drawn in turn, the
    third attempt returns Austin. *)
Lemma set_city_state_zip_bounded_retry_witness :
  exists w',
    CustomerInfo.set_city_state_zip texas_only
      (world_of (fun _ => 0%Q) (fun _ => 0%Q)
                (fun n => nth n ["HI"; "GU"; "TX"] "CA"))
    = (Ok ("Austin", "TX", "73301"), w')
    /\ pos (fake w') = 3%nat.
Proof.
  destruct (set_city_state_zip_bounded_retry texas_only
              (world_of (fun _ => 0%Q) (fun _ => 0%Q)
                        (fun n => nth n ["HI"; "GU"; "TX"] "CA")))
    as (t & w' & Hrun & _).
  - intros s e. unfold texas_only. destruct (String.eqb s "TX"); discriminate.
  - exists w'. vm_compute in Hrun. injection Hrun as <- <-.
    split; reflexivity.
Defined.

(** The [ValueError] of the resolver reaches the caller: the handler of
    the loop catches [IndexError] only. *)
Lemma set_city_state_zip_propagates_ValueError :
  fst (CustomerInfo.set_city_state_zip rejecting
         (world_of (fun _ => 0%Q) (fun _ => 0%Q)
                   (fun n => nth n ["HI"; "GU"; "TX"] "CA")))
  = Raise ValueError.
Proof. vm_compute. reflexivity. Qed.

(** ** Rounding and draws in a range *)

Lemma frac_range q : (0 <= frac q < 1)%Q.
Proof.
  unfold frac. pose proof (Qfloor_le q) as H1. pose proof (Qlt_floor q) as H2.
  rewrite inject_Z_plus in H2. change (inject_Z 1) with 1%Q in H2.
  split; lra.
Qed.

Lemma round_half_even_cases x :
  round_half_even x = Qfloor x \/ round_half_even x = Qfloor x + 1.
Proof.
  unfold round_half_even. cbv zeta.
  destruct (x - inject_Z (Qfloor x) ?= 1 # 2)%Q; [destruct (Z.even _) | |]; auto.
Qed.

(** Rounding stays between two integers that enclose the argument. *)
Lemma round_half_even_between (a b : Z) x :
  (inject_Z a <= x)%Q -> (x <= inject_Z b)%Q -> a <= round_half_even x <= b.
Proof.
  intros Ha Hb.
  pose proof (Qfloor_resp_le _ _ Ha) as Hfa. rewrite Qfloor_Z in Hfa.
  pose proof (Qfloor_resp_le _ _ Hb) as Hfb. rewrite Qfloor_Z in Hfb.
  destruct (round_half_even_cases x) as [-> | Hup]; [lia |].
  split; [lia |].
  destruct (Z.eq_dec (Qfloor x) b) as [Heq | Hne]; [| lia].
  exfalso. revert Hup. unfold round_half_even. cbv zeta.
  assert (x - inject_Z (Qfloor x) <= 0)%Q as Hd by (rewrite Heq; lra).
  destruct (Qcompare_spec (x - inject_Z (Qfloor x)) (1 # 2)) as [E | L | G];
    [lra | lia | lra].
Qed.



(** Rounding to hundreds keeps a value of [[100 a, 100 b]] in it. *)
Lemma round_hundreds_between (a b : Z) x :
  (inject_Z (100 * a) <= x)%Q -> (x <= inject_Z (100 * b))%Q ->
  (inject_Z (100 * a) <= round x (-2) <= inject_Z (100 * b))%Q.
Proof.
  intros Ha Hb. unfold round.
  change (pow10 (-2)) with (1 / inject_Z 100)%Q.
  rewrite !inject_Z_mult in *. change (inject_Z 100) with (100 # 1) in *.
  assert (x * (1 / (100 # 1)) == x * (1 # 100))%Q as E1 by reflexivity.
  destruct (round_half_even_between a b (x * (1 / (100 # 1)))) as [Hlo Hhi];
    [rewrite E1; lra | rewrite E1; lra |].
  set (n := round_half_even (x * (1 / (100 # 1)))) in *.
  assert (inject_Z n / (1 / (100 # 1)) == inject_Z n * (100 # 1))%Q as E2
    by (unfold Qdiv; field).
  rewrite E2. rewrite Zle_Qle in Hlo, Hhi. split; lra.
Qed.

Lemma np_uniform_range lo hi w :
  (lo < hi)%Q ->
  exists u, np_uniform lo hi w = (Ok u, step_np w) /\ (lo <= u < hi)%Q.
Proof.
  intros H. unfold np_uniform, bind, next_np, ret. eexists. split; [reflexivity |].
  pose proof (frac_range (current (np w))) as [H0 H1].
  split; nra.
Qed.

(** ** OrderHistory.set_order_amount and generate_data *)

Lemma bind_inv {A B} (m : M A) (k : A -> M B) w b w' :
  bind m k w = (Ok b, w') ->
  exists a w1, m w = (Ok a, w1) /\ k a w1 = (Ok b, w').
Proof.
  unfold bind. destruct (m w) as [[a | e] w1]; [| discriminate].
  intros H. exists a, w1. split; [reflexivity | exact H].
Qed.

Lemma choice_inv {A} (xs : list A) w x w' :
  choice xs w = (Ok x, w') -> In x xs.
Proof.
  destruct xs as [| x0 xs]; [discriminate |].
  destruct (choice_Ok (x0 :: xs) w) as (y & Hy & Hin); [discriminate |].
  rewrite Hy. intros [= <- _]. exact Hin.
Qed.

Lemma Forall2_right {A B} (P : B -> Prop) (xs : list A) (ys : list B) :
  Forall2 (fun _ y => P y) xs ys -> Forall P ys.
Proof. induction 1; constructor; assumption. Qed.

Lemma set_order_amount_eq self order_date w :
  OrderHistory.set_order_amount self order_date w
  = (Ok (round (normal_sample self order_date w) 2),
     step_np (step_np (step_np w))).
Proof. reflexivity. Qed.



(** What an order record returned by the loop body of [generate_data]
    holds. *)
Lemma generate_data_orders holidays_2022 self w orders w' :
  OrderHistory.generate_data holidays_2022 self w = (Ok orders, w') ->
  Forall (fun o =>
            In (OrderHistory.order_date o) (OrderHistory.dates self)
            /\ In (OrderHistory.customer_id o) (OrderHistory.customer_pool self)
            /\ exists w1,
                OrderHistory.order_amount o
                = round (normal_sample self (OrderHistory.order_date o) w1) 2)
         orders.
Proof.
  intros Hrun. unfold OrderHistory.generate_data in Hrun.
  eapply Forall2_right, for_each_inv; [| exact Hrun].
  intros i w0 o w3 _ Hbody. cbv beta in Hbody.
  apply bind_inv in Hbody as (od & w1 & Hod & Hbody).
  apply bind_inv in Hbody as (oid & w2 & _ & Hbody).
  apply bind_inv in Hbody as (sd & w4 & _ & Hbody).
  apply bind_inv in Hbody as (st & w5 & _ & Hbody).
  apply bind_inv in Hbody as (amt & w6 & Hamt & Hbody).
  apply bind_inv in Hbody as (cid & w7 & Hcid & Hbody).
  apply bind_inv in Hbody as (sid & w8 & _ & Hbody).
  injection Hbody as <- _. cbn.
  rewrite set_order_amount_eq in Hamt. injection Hamt as <- _.
  split; [eapply choice_inv; exact Hod |].
  split; [eapply choice_inv; exact Hcid |].
  exists w5. reflexivity.
Qed.


Lemma set_order_id_Ok w :
  exists s, OrderHistory.set_order_id w = (Ok s, step_rn w).
Proof. eexists. reflexivity. Qed.

Lemma set_status_Ok w :
  exists s, OrderHistory.set_status w = (Ok s, step_rn w).
Proof. eexists. reflexivity. Qed.

Lemma set_store_id_Ok w :
  exists s, OrderHistory.set_store_id w = (Ok s, step_rn w).
Proof. eexists. reflexivity. Qed.

(** When the pool and the dates allow every draw, [generate_data]
    returns [num_orders] orders. *)
Lemma order_generate_data_returns holidays_2022 self w :
  OrderHistory.customer_pool self <> [] ->
  OrderHistory.dates self <> [] ->
  Forall shippable (OrderHistory.dates self) ->
  exists orders w',
    OrderHistory.generate_data holidays_2022 self w = (Ok orders, w')
    /\ length orders = Z.to_nat (OrderHistory.num_orders self).
Proof.
  intros Hpool Hdates Hship.
  destruct (for_each_Ok
              (fun _ : Z =>
                 let* order_date := OrderHistory.set_order_date self in
                 let* order_id := OrderHistory.set_order_id in
                 let* shipped_date :=
                   OrderHistory.set_shipped_date holidays_2022 order_date in
                 let* status := OrderHistory.set_status in
                 let comments := OrderHistory.set_comments holidays_2022 order_date in
                 let* order_amount := OrderHistory.set_order_amount self order_date in
                 let* customer_id := OrderHistory.set_customer_id self in
                 let* store_id := OrderHistory.set_store_id in
                 ret (OrderHistory.Order order_id order_date shipped_date status
                        comments order_amount customer_id store_id))
              (fun _ _ => True)
              (range 0 (OrderHistory.num_orders self))) with (w := w)
    as (orders & w' & Hrun & Hrel).
  { intros i w0 _.
    destruct (choice_Ok (OrderHistory.dates self) w0 Hdates) as (od & Hod & Hin).
    unfold OrderHistory.set_order_date. rewrite (bind_Ok _ _ _ _ _ Hod).
    destruct (set_order_id_Ok (step_rn w0)) as (oid & Hoid).
    rewrite (bind_Ok _ _ _ _ _ Hoid).
    rewrite List.Forall_forall in Hship. destruct (Hship od Hin) as [Hlo Hhi].
    rewrite (bind_Ok _ _ _ _ _
               (set_shipped_date_eq holidays_2022 od _ Hlo Hhi)).
    destruct (set_status_Ok (step_rn (step_rn (step_rn w0)))) as (st & Hst).
    rewrite (bind_Ok _ _ _ _ _ Hst).
    rewrite (bind_Ok _ _ _ _ _ (set_order_amount_eq self od _)).
    destruct (choice_Ok (OrderHistory.customer_pool self)
                (step_np (step_np (step_np
                   (step_rn (step_rn (step_rn (step_rn w0))))))) Hpool)
      as (cid & Hcid & _).
    unfold OrderHistory.set_customer_id. rewrite (bind_Ok _ _ _ _ _ Hcid).
    destruct (set_store_id_Ok
                (step_rn (step_np (step_np (step_np
                   (step_rn (step_rn (step_rn (step_rn w0)))))))))
      as (sid & Hsid).
    rewrite (bind_Ok _ _ _ _ _ Hsid).
    eexists. eexists. split; [reflexivity | exact I]. }
  exists orders, w'. split; [exact Hrun |].
  apply Forall2_length in Hrel. rewrite <- Hrel, range_length. f_equal. lia.
Qed.

(** ** OrderHistory.get_spend_weights and CustomerInfo.set_credit_limit *)

Lemma fold_max_upper (rest : list Q) (a : Q) :
  let m := fold_left (fun a b => if Qlt_le_dec a b then b else a) rest a in
  (a <= m)%Q /\ Forall (fun v => (v <= m)%Q) rest.
Proof.
  revert a. induction rest as [| b rest IH]; intros a; cbn.
  - split; [lra | constructor].
  - destruct (Qlt_le_dec a b) as [Hlt | Hle].
    + destruct (IH b) as [H1 H2]. split; [lra |]. constructor; assumption.
    + destruct (IH a) as [H1 H2]. split; [exact H1 |]. constructor; [lra | exact H2].
Qed.

Lemma max_of_upper (values : list Q) (m : Q) :
  OrderHistory.max_of values = Ok m -> Forall (fun v => (v <= m)%Q) values.
Proof.
  destruct values as [| v rest]; [discriminate |].
  intros [= <-]. destruct (fold_max_upper rest v) as [H1 H2].
  constructor; assumption.
Qed.

Lemma order_totals_nonneg (data : list OrderHistory.order) :
  Forall (fun o => (0 <= OrderHistory.order_amount o)%Q) data ->
  forall (totals : gmap Z Q),
    (forall k v, totals !! k = Some v -> (0 <= v)%Q) ->
    forall k v, fold_left OrderHistory.add_total data totals !! k = Some v ->
                (0 <= v)%Q.
Proof.
  induction 1 as [| o data Ho _ IH]; intros totals Htot k v; cbn.
  - apply Htot.
  - apply IH. intros k' v'. unfold OrderHistory.add_total.
    destruct (decide (OrderHistory.customer_id o = k')) as [-> | Hne].
    + rewrite lookup_insert_eq. intros [= <-].
      destruct (totals !! k') as [t |] eqn:Ht; cbn.
      * pose proof (Htot _ _ Ht). lra.
      * lra.
    + rewrite lookup_insert_ne by exact Hne. apply Htot.
Qed.

(** Non-negative order amounts give weights between 1 and 3. *)
Lemma spend_weights_range (data : list OrderHistory.order) (weights : gmap Z Q) :
  Forall (fun o => (0 <= OrderHistory.order_amount o)%Q) data ->
  OrderHistory.spend_weights_of data = Ok weights ->
  forall k wt, weights !! k = Some wt -> (1 <= wt <= 3)%Q.
Proof.
  intros Hpos Hw k wt Hk. unfold OrderHistory.spend_weights_of in Hw.
  cbv zeta in Hw.
  destruct (OrderHistory.max_of (snd <$> map_to_list (OrderHistory.order_totals data)))
    as [m | e] eqn:Hmax; [| discriminate].
  destruct (Qeq_bool m 0) eqn:Hz; [discriminate |].
  injection Hw as <-.
  rewrite lookup_fmap in Hk.
  destruct (OrderHistory.order_totals data !! k) as [v |] eqn:Hv; [| discriminate].
  injection Hk as <-.
  assert (0 <= v)%Q as Hv0.
  { eapply (order_totals_nonneg data Hpos ∅); [| exact Hv].
    intros k' v'. rewrite lookup_empty. discriminate. }
  assert (v <= m)%Q as Hvm.
  { apply max_of_upper in Hmax. rewrite Forall_forall in Hmax. apply Hmax.
    apply list_elem_of_fmap. exists (k, v).
    split; [reflexivity |]. apply elem_of_map_to_list. exact Hv. }
  apply Qeq_bool_neq in Hz.
  assert (0 < m)%Q as Hm0.
  { destruct (Qlt_le_dec 0 m) as [H | H]; [exact H |]. exfalso. apply Hz. lra. }
  assert (0 <= v / m)%Q by (apply Qle_shift_div_l; lra).
  assert (v / m <= 1)%Q by (apply Qle_shift_div_r; lra).
  split; lra.
Qed.

(** When the orders behind the weights all have a non-negative amount,
    every weight returned by [get_spend_weights] lies
    in [[1, 3]], and [set_credit_limit] returns
    [round(u * weight, -2)] with [u] in [[1000, 5000)], a value of
    [[1000, 15000]]; a customer without weight counts as weight 1. *)
Theorem credit_limit_within_bounds :
  forall (holidays_2022 : date -> bool) (order_history : OrderHistory.t)
         (w0 w1 : world) (data : list OrderHistory.order) (weights : gmap Z Q),
    OrderHistory.generate_data holidays_2022 order_history w0 = (Ok data, w1) ->
    Forall (fun o => (0 <= OrderHistory.order_amount o)%Q) data ->
    OrderHistory.spend_weights_of data = Ok weights ->
    OrderHistory.get_spend_weights holidays_2022 order_history w0 = (Ok weights, w1)
    /\ forall (customer_id : Z) (w : world),
        exists u wt,
          wt = default 1%Q (weights !! customer_id)
          /\ (1 <= wt <= 3)%Q
          /\ (1000 <= u < 5000)%Q
          /\ CustomerInfo.set_credit_limit
               (CustomerInfo.Build order_history weights) customer_id w
             = (Ok (round (u * wt) (-2)), step_np w)
          /\ (1000 <= round (u * wt) (-2) <= 15000)%Q.
Proof.
  intros hol oh w0 w1 data weights Hrun Hpos Hw. split.
  { unfold OrderHistory.get_spend_weights.
    rewrite (bind_Ok _ _ _ _ _ Hrun). unfold lift. now rewrite Hw. }
  intros cid w.
  destruct (np_uniform_range 1000 5000 w ltac:(lra)) as (u & Hu & Hu1 & Hu2).
  exists u, (default 1%Q (weights !! cid)).
  assert (1 <= default 1%Q (weights !! cid) <= 3)%Q as [Hw1 Hw3].
  { destruct (weights !! cid) as [wt |] eqn:Hk; cbn; [| split; lra].
    eapply spend_weights_range; eassumption. }
  split; [reflexivity |]. split; [split; assumption |].
  split; [split; assumption |].
  split.
  { unfold CustomerInfo.set_credit_limit. rewrite (bind_Ok _ _ _ _ _ Hu).
    reflexivity. }
  apply (round_hundreds_between 10 150).
  - change (inject_Z (100 * 10)) with 1000%Q. nra.
  - change (inject_Z (100 * 150)) with 15000%Q. nra.
Qed.

(** ** CustomerInfo.generate_data *)

Lemma customer_record_Ok by_state self customer_id w :
  raises_only_IndexError by_state ->
  exists c w',
    (let* '(city, state, postal_code) := CustomerInfo.set_city_state_zip by_state in
     let* customer_name := CustomerInfo.set_customer_name in
     let* phone := CustomerInfo.set_phone in
     let* address := CustomerInfo.set_address in
     let* sales_rep_employee_id := CustomerInfo.set_sales_rep_employee_id in
     let* credit_limit := CustomerInfo.set_credit_limit self customer_id in
     ret (CustomerInfo.Customer customer_id customer_name phone address city state
            postal_code sales_rep_employee_id credit_limit)) w
    = (Ok c, w')
    /\ CustomerInfo.customer_id c = customer_id.
Proof.
  intros Hres.
  destruct (first_return_attempts by_state (range 0 5) w Hres)
    as ([[city state] zip] & w1 & Hrun & _).
  fold (CustomerInfo.set_city_state_zip by_state) in Hrun.
  rewrite (bind_Ok _ _ _ _ _ Hrun).
  eexists. eexists. split; [reflexivity | reflexivity].
Qed.

(** C1, as amended: the customer ids of the records produced by
    [CustomerInfo.generate_data] are, each once, the distinct ids of the
    customer pool; every order that [OrderHistory.generate_data] produces
    carries one of them, so no order lacks a profile, while a profile
    exists for every id of the pool whether or not an order drew it. *)
Theorem customer_ids_are_pool_ids :
  forall (holidays_2022 : date -> bool)
         (by_state : string -> result (list CustomerInfo.location))
         (self : CustomerInfo.t) (w : world),
    raises_only_IndexError by_state ->
    exists customers w',
      CustomerInfo.generate_data by_state self w = (Ok customers, w')
      /\ (list_to_set (map CustomerInfo.customer_id customers) : gset Z)
         = OrderHistory.get_customer_ids (CustomerInfo.order_history self)
      /\ NoDup (map CustomerInfo.customer_id customers)
      /\ (forall w1 orders w2,
             OrderHistory.generate_data holidays_2022
               (CustomerInfo.order_history self) w1 = (Ok orders, w2) ->
             forall o, In o orders ->
                       In (OrderHistory.customer_id o)
                          (map CustomerInfo.customer_id customers))
      /\ (OrderHistory.customer_pool (CustomerInfo.order_history self) <> [] ->
          OrderHistory.dates (CustomerInfo.order_history self) <> [] ->
          Forall shippable (OrderHistory.dates (CustomerInfo.order_history self)) ->
          forall w1, exists orders w2,
              OrderHistory.generate_data holidays_2022
                (CustomerInfo.order_history self) w1 = (Ok orders, w2)
              /\ length orders
                 = Z.to_nat (OrderHistory.num_orders (CustomerInfo.order_history self))).
Proof.
  intros hol by_state self w Hres.
  destruct (for_each_Ok
              (fun customer_id =>
                 let* '(city, state, postal_code) :=
                   CustomerInfo.set_city_state_zip by_state in
                 let* customer_name := CustomerInfo.set_customer_name in
                 let* phone := CustomerInfo.set_phone in
                 let* address := CustomerInfo.set_address in
                 let* sales_rep_employee_id := CustomerInfo.set_sales_rep_employee_id in
                 let* credit_limit := CustomerInfo.set_credit_limit self customer_id in
                 ret (CustomerInfo.Customer customer_id customer_name phone address
                        city state postal_code sales_rep_employee_id credit_limit))
              (fun customer_id c => CustomerInfo.customer_id c = customer_id)
              (elements (CustomerInfo.set_customer_id self))) with (w := w)
    as (customers & w' & Hrun & Hrel).
  { intros cid w0 _. apply customer_record_Ok. exact Hres. }
  assert (map CustomerInfo.customer_id customers
          = elements (CustomerInfo.set_customer_id self)) as Hids.
  { rewrite <- (map_id (elements _)). apply Forall2_map_eq. exact Hrel. }
  exists customers, w'. split; [exact Hrun |].
  split; [rewrite Hids; apply list_to_set_elements_L |].
  split; [rewrite Hids; apply NoDup_elements |].
  split.
  - intros w1 orders w2 Horders o Hin. rewrite Hids.
    apply generate_data_orders in Horders.
    rewrite List.Forall_forall in Horders.
    destruct (Horders o Hin) as (_ & Hpool & _).
    apply list_elem_of_In, elem_of_elements.
    unfold CustomerInfo.set_customer_id, OrderHistory.get_customer_ids.
    apply elem_of_list_to_set, list_elem_of_In. exact Hpool.
  - intros Hpool Hdates Hship w1.
    apply order_generate_data_returns; assumption.
Qed.

(** ** A paired run *)

Lemma demo_history_init :
  OrderHistory.init 70 5 (ymd2ord 2022 1 1) (ymd2ord 2022 1 31) demo_world
  = (Ok demo_history, demo_world_1).
Proof. vm_compute. reflexivity. Qed.

Lemma texas_only_raises_only_IndexError : raises_only_IndexError texas_only.
Proof.
  intros s e. unfold texas_only. destruct (String.eqb s "TX"); discriminate.
Qed.

(** Customer 1000002 of the pool gets a profile but no order. *)
Lemma customer_profile_without_order :
  exists orders customers w',
    paired_run demo_world = (Ok (orders, customers), w')
    /\ In 1000002 (map CustomerInfo.customer_id customers)
    /\ ~ In 1000002 (map OrderHistory.customer_id orders)
    /\ (list_to_set (map CustomerInfo.customer_id customers) : gset Z)
       <> list_to_set (map OrderHistory.customer_id orders).
Proof.
  destruct (paired_run demo_world) as [[[orders customers] | e] w'] eqn:E;
    vm_compute in E; [| discriminate].
  injection E as Ho Hc _.
  exists orders, customers, w'. split; [reflexivity |].
  assert (In 1000002 (map CustomerInfo.customer_id customers)) as H1.
  { rewrite <- Hc. vm_compute. intuition congruence. }
  assert (~ In 1000002 (map OrderHistory.customer_id orders)) as H2.
  { rewrite <- Ho. vm_compute. intros H.
    repeat (destruct H as [H | H]; [discriminate |]). exact H. }
  split; [exact H1 |]. split; [exact H2 |].
  intros Heq. apply H2.
  apply list_elem_of_In, (elem_of_list_to_set (C := gset Z)).
  rewrite <- Heq. apply elem_of_list_to_set, list_elem_of_In. exact H1.
Qed.

(** On [demo_history] the profiles are those of the three customers of
    the pool and the 14 orders are generated. *)
Lemma customer_ids_are_pool_ids_witness :
  exists customers w' orders w2,
    CustomerInfo.generate_data texas_only (CustomerInfo.Build demo_history ∅)
      demo_world_1 = (Ok customers, w')
    /\ (list_to_set (map CustomerInfo.customer_id customers) : gset Z)
       = list_to_set [1000000; 1000001; 1000002]
    /\ OrderHistory.generate_data in_US_holidays_2022 demo_history demo_world_1
       = (Ok orders, w2)
    /\ length orders = 14%nat.
Proof.
  destruct (customer_ids_are_pool_ids in_US_holidays_2022 texas_only
              (CustomerInfo.Build demo_history ∅) demo_world_1
              texas_only_raises_only_IndexError)
    as (customers & w' & Hrun & Hset & _ & _ & Horders).
  destruct (Horders ltac:(discriminate) ltac:(discriminate)) with (w1 := demo_world_1)
    as (orders & w2 & Hgen & Hlen).
  { repeat (constructor; [split; [vm_compute; discriminate | vm_compute; discriminate] |]).
    constructor. }
  exists customers, w', orders, w2.
  split; [exact Hrun |]. split; [| split; [exact Hgen | exact Hlen]].
  rewrite Hset. vm_compute. reflexivity.
Defined.

(** C4: in the paired run the orders of customer 1000001 are seven
    times -10.00 and those of customer 1000000 seven times 20.00; the
    weight of 1000001 is 1 + 2 * (-70 / 140) = 0 and its credit limit is 0,
    outside [[1000, 15000]]. *)
Theorem credit_limit_can_fall_below_1000 :
  exists customer_info w1 c w2,
    CustomerInfo.init in_US_holidays_2022 demo_history demo_world_1
    = (Ok customer_info, w1)
    /\ In 1000001 (OrderHistory.customer_pool demo_history)
    /\ CustomerInfo.set_credit_limit customer_info 1000001 w1 = (Ok c, w2)
    /\ (c == 0)%Q
    /\ ~ (1000 <= c <= 15000)%Q.
Proof.
  destruct (CustomerInfo.init in_US_holidays_2022 demo_history demo_world_1)
    as [[customer_info | e] w1] eqn:E; vm_compute in E; [| discriminate].
  injection E as Hci Hw.
  destruct (CustomerInfo.set_credit_limit customer_info 1000001 w1)
    as [[c | e] w2] eqn:E2.
  2:{ rewrite <- Hci, <- Hw in E2. vm_compute in E2. discriminate. }
  pose proof E2 as Hc. rewrite <- Hci, <- Hw in Hc. vm_compute in Hc.
  injection Hc as Hc _.
  exists customer_info, w1, c, w2.
  split; [reflexivity |]. split; [cbn; tauto |]. split; [exact E2 |].
  rewrite <- Hc. split; [reflexivity |].
  intros [H _]. vm_compute in H. apply H. reflexivity.
Qed.

(** With every normal deviate equal to 1 all amounts are positive and the
    credit limit of customer 1000001 is within the bounds. *)
Lemma credit_limit_within_bounds_witness :
  exists data w1 weights c w',
    OrderHistory.generate_data in_US_holidays_2022 demo_history calm_world_1
    = (Ok data, w1)
    /\ OrderHistory.get_spend_weights in_US_holidays_2022 demo_history calm_world_1
       = (Ok weights, w1)
    /\ CustomerInfo.set_credit_limit (CustomerInfo.Build demo_history weights)
         1000001 w1 = (Ok c, w')
    /\ (1000 <= c <= 15000)%Q.
Proof.
  destruct (OrderHistory.generate_data in_US_holidays_2022 demo_history calm_world_1)
    as [[data | e] w1] eqn:E.
  2:{ vm_compute in E. discriminate. }
  pose proof E as Hdata. vm_compute in Hdata. injection Hdata as Hdata _.
  destruct (OrderHistory.spend_weights_of data) as [weights | e] eqn:Ew.
  2:{ rewrite <- Hdata in Ew. vm_compute in Ew. discriminate. }
  destruct (credit_limit_within_bounds in_US_holidays_2022 demo_history
              calm_world_1 w1 data weights E) as [Hget Hlimit];
    [| exact Ew |].
  { rewrite <- Hdata.
    repeat (constructor; [apply Qle_bool_imp_le; reflexivity |]). constructor. }
  destruct (Hlimit 1000001 w1) as (u & wt & _ & _ & _ & Hrun & Hbound).
  exists data, w1, weights, (round (u * wt) (-2)), (step_np w1).
  split; [reflexivity |]. split; [exact Hget |]. split; [exact Hrun | exact Hbound].
Defined.



(** ** Utilities.to_dataframe *)

Lemma row_le_total {V} (cell_le : V -> V -> bool) keys (a b : row V) :
  row_le cell_le keys a b = true \/ row_le cell_le keys b a = true.
Proof.
  induction keys as [| [c asc] keys IH]; cbn; [now left |].
  destruct (cell_before cell_le asc (mjoin (a !! c)) (mjoin (b !! c))) eqn:Hab;
    [now left |].
  destruct (cell_before cell_le asc (mjoin (b !! c)) (mjoin (a !! c))) eqn:Hba;
    [now right | exact IH].
Qed.

Lemma stable_insert_perm {V} (le : row V -> row V -> bool) r rs :
  Permutation (stable_insert le r rs) (r :: rs).
Proof.
  induction rs as [| s rs IH]; cbn; [reflexivity |].
  destruct (le r s); [reflexivity |].
  rewrite IH. apply perm_swap.
Qed.

Lemma stable_insert_sorted {V} (le : row V -> row V -> bool) r rs :
  (forall a b, le a b = true \/ le b a = true) ->
  Sorted (fun a b => le a b = true) rs ->
  Sorted (fun a b => le a b = true) (stable_insert le r rs).
Proof.
  intros Htot. induction 1 as [| s rs Hs IH Hhd]; cbn.
  - repeat constructor.
  - destruct (le r s) eqn:Hrs.
    + constructor; [constructor; assumption | constructor; exact Hrs].
    + constructor; [exact IH |].
      destruct rs as [| s' rs]; cbn.
      * constructor. destruct (Htot r s) as [H | H]; [congruence | exact H].
      * destruct (le r s') eqn:Hrs'.
        -- constructor. destruct (Htot r s) as [H | H]; [congruence | exact H].
        -- constructor. apply HdRel_inv in Hhd. exact Hhd.
Qed.

Lemma fold_insert_perm {V} (le : row V -> row V -> bool) rs acc :
  Permutation (fold_left (fun acc r => stable_insert le r acc) rs acc) (rs ++ acc).
Proof.
  revert acc. induction rs as [| r rs IH]; intros acc; cbn; [reflexivity |].
  rewrite IH, stable_insert_perm. symmetry. apply Permutation_middle.
Qed.

Lemma fold_insert_sorted {V} (le : row V -> row V -> bool) rs acc :
  (forall a b, le a b = true \/ le b a = true) ->
  Sorted (fun a b => le a b = true) acc ->
  Sorted (fun a b => le a b = true)
         (fold_left (fun acc r => stable_insert le r acc) rs acc).
Proof.
  intros Htot. revert acc.
  induction rs as [| r rs IH]; intros acc Hacc; cbn; [exact Hacc |].
  apply IH. apply stable_insert_sorted; [exact Htot | exact Hacc].
Qed.

Lemma reversing_sort_routine {V} : sorting_routine (@reversing_sort V).
Proof.
  intros le rs. unfold reversing_sort. split.
  - rewrite fold_insert_perm, app_nil_r. reflexivity.
  - intros Htot. apply fold_insert_sorted; [exact Htot | constructor].
Qed.

Lemma stable_sort_routine {V} : sorting_routine (@stable_sort V).
Proof.
  intros le rs. unfold stable_sort. split.
  - induction rs as [| r rs IH]; cbn; [reflexivity |].
    rewrite stable_insert_perm, IH. reflexivity.
  - intros Htot. induction rs as [| r rs IH]; cbn; [constructor |].
    apply stable_insert_sorted; assumption.
Qed.

(** The sorted arrangement of the three rows 3, 1, 2 is 1, 2, 3. *)
Lemma three_rows_sorted (sorted : list (row Z)) :
  Permutation sorted [[Some 3]; [Some 1]; [Some 2]] ->
  Sorted (fun a b => row_le Z.leb [(0%nat, true)] a b = true) sorted ->
  sorted = [[Some 1]; [Some 2]; [Some 3]].
Proof.
  intros Hperm Hsorted.
  pose proof (Permutation_length Hperm) as Hlen.
  destruct sorted as [| a [| b [| c [| d rest]]]]; try discriminate.
  assert (NoDup [a; b; c]) as Hnd.
  { apply NoDup_ListNoDup. eapply Permutation_NoDup; [symmetry; exact Hperm |].
    repeat (constructor; [cbn; intuition discriminate |]). constructor. }
  assert (a <> b /\ a <> c /\ b <> c) as (Hab & Hac & Hbc).
  { apply NoDup_cons in Hnd as [Ha Hnd]. apply NoDup_cons in Hnd as [Hb _].
    rewrite list_elem_of_In in Ha, Hb. cbn in Ha, Hb. intuition congruence. }
  apply Sorted_inv in Hsorted as [Hsorted Hd1]. apply HdRel_inv in Hd1.
  apply Sorted_inv in Hsorted as [_ Hd2]. apply HdRel_inv in Hd2.
  assert (In a [[Some 3]; [Some 1]; [Some 2]]) as Ha
    by (eapply Permutation_in; [exact Hperm | cbn; tauto]).
  assert (In b [[Some 3]; [Some 1]; [Some 2]]) as Hb
    by (eapply Permutation_in; [exact Hperm | cbn; tauto]).
  assert (In c [[Some 3]; [Some 1]; [Some 2]]) as Hc
    by (eapply Permutation_in; [exact Hperm | cbn; tauto]).
  cbn in Ha, Hb, Hc.
  destruct Ha as [<- | [<- | [<- | []]]];
    destruct Hb as [<- | [<- | [<- | []]]];
    destruct Hc as [<- | [<- | [<- | []]]];
    try reflexivity; try congruence;
    try (vm_compute in Hd1; discriminate); try (vm_compute in Hd2; discriminate).
Qed.

(** C7, as amended: with a sort key and the identifier enabled,
    [to_dataframe] returns the rows of the records rearranged in
    non-decreasing order of the keys, each preceded by its identifier, the
    identifiers being 1, 2, ... in row order; rows with equal keys come in
    an order the sorting routine is free to choose.  For the records
    k = 3, 1, 2 the rows are k = 1, 2, 3 with identifiers 1, 2, 3. *)
Theorem to_dataframe_sorted_and_identified :
  (forall (V : Type) (int_cell : Z -> V) (cell_le : V -> V -> bool)
          (sort_rows : (row V -> row V -> bool) -> list (row V) -> list (row V))
          (data : list (record V)) (by_ : list string)
          (ascending : bool + list bool) (keys : list (nat * bool)),
      sorting_routine sort_rows ->
      by_ <> [] ->
      sort_keys by_ ascending (keys_of data) = Ok keys ->
      existsb (String.eqb "id") (keys_of data) = false ->
      exists sorted,
        to_dataframe int_cell cell_le sort_rows data by_ ascending true
        = Ok (Frame ("id" :: keys_of data)
                (zip_with (fun i r => Some (int_cell i) :: r)
                          (range 1 (Z.of_nat (length data) + 1)) sorted))
        /\ Permutation sorted (rows (from_records data))
        /\ Sorted (fun a b => row_le cell_le keys a b = true) sorted
        /\ length sorted = length data)
  /\ (forall sort_rows : (row Z -> row Z -> bool) -> list (row Z) -> list (row Z),
         sorting_routine sort_rows ->
         to_dataframe id Z.leb sort_rows three_records ["k"] (inl true) true
         = Ok (Frame ["id"; "k"]
                 [[Some 1; Some 1]; [Some 2; Some 2]; [Some 3; Some 3]])).
Proof.
  split.
  - intros V int_cell cell_le sort_rows data by_ ascending keys Hsort Hby Hkeys Hid.
    destruct (Hsort (row_le cell_le keys) (rows (from_records data)))
      as [Hperm Hsorted].
    exists (sort_rows (row_le cell_le keys) (rows (from_records data))).
    assert (length (sort_rows (row_le cell_le keys) (rows (from_records data)))
            = length data) as Hlen.
    { rewrite (Permutation_length Hperm). cbn. apply length_map. }
    split; [| split; [exact Hperm | split; [| exact Hlen]]].
    + unfold to_dataframe. destruct by_ as [| b bs]; [congruence |].
      unfold sort_values. cbn [columns from_records]. rewrite Hkeys.
      cbn [rbind]. unfold insert_id. cbn [columns rows]. rewrite Hid.
      rewrite Hlen. reflexivity.
    + apply Hsorted. apply row_le_total.
  - intros sort_rows Hsort.
    destruct (Hsort (row_le Z.leb [(0%nat, true)]) [[Some 3]; [Some 1]; [Some 2]])
      as [Hperm Hsorted].
    specialize (Hsorted (row_le_total Z.leb _)).
    pose proof (three_rows_sorted _ Hperm Hsorted) as Heq.
    unfold to_dataframe, three_records, sort_values.
    cbn [rbind from_records columns rows keys_of concat map fst app fold_left
               existsb sort_keys length replicate rmap column_index String.eqb
               Ascii.eqb Bool.eqb combine get find snd fmap option_fmap option_map].
    cbn. set (sorted := sort_rows _ _).
    assert (sorted = [[Some 1]; [Some 2]; [Some 3]]) as -> by exact Heq.
    reflexivity.
Qed.

(** The three records sorted by a stable insertion sort. *)
Lemma to_dataframe_sorted_and_identified_witness :
  exists sorted,
    to_dataframe id Z.leb stable_sort three_records ["k"] (inl true) true
    = Ok (Frame ("id" :: keys_of three_records)
            (zip_with (fun i r => Some (id i) :: r)
                      (range 1 (Z.of_nat (length three_records) + 1)) sorted))
    /\ Permutation sorted (rows (from_records three_records))
    /\ Sorted (fun a b => row_le Z.leb [(0%nat, true)] a b = true) sorted
    /\ length sorted = length three_records.
Proof.
  apply (proj1 to_dataframe_sorted_and_identified Z id Z.leb stable_sort
           three_records ["k"] (inl true) [(0%nat, true)]).
  - apply stable_sort_routine.
  - discriminate.
  - reflexivity.
  - reflexivity.
Defined.

(** A routine that sorts, yet returns two rows of equal key in the
    reverse of their input order: the frame differs from the one a stable
    sort gives.  And a record with an [id] field gets no identifier
    column: the insertion raises [ValueError]. *)
Lemma to_dataframe_ties_not_in_input_order :
  sorting_routine (@reversing_sort Z)
  /\ to_dataframe id Z.leb stable_sort record_with_id ["id"] (inl true) true
     = Raise ValueError
  /\ to_dataframe id Z.leb reversing_sort tied_records ["k"] (inl true) true
     = Ok (Frame ["id"; "k"; "v"]
             [[Some 1; Some 1; Some 20]; [Some 2; Some 1; Some 10]])
  /\ to_dataframe id Z.leb stable_sort tied_records ["k"] (inl true) true
     = Ok (Frame ["id"; "k"; "v"]
             [[Some 1; Some 1; Some 10]; [Some 2; Some 1; Some 20]])
  /\ ~ (forall sort_rows : (row Z -> row Z -> bool) -> list (row Z) -> list (row Z),
           sorting_routine sort_rows ->
           forall data by_ ascending,
             to_dataframe id Z.leb sort_rows data by_ ascending true
             = to_dataframe id Z.leb stable_sort data by_ ascending true).
Proof.
  split; [apply reversing_sort_routine |].
  split; [vm_compute; reflexivity |].
  split; [vm_compute; reflexivity |].
  split; [vm_compute; reflexivity |].
  intros H.
  specialize (H reversing_sort reversing_sort_routine tied_records ["k"] (inl true)).
  vm_compute in H. discriminate.
Qed.

(** * Further properties *)

(** ** Loops that only step one generator *)

(** A loop whose body returns at every element and always leaves the
    world [g w] returns, relates each element to its result, and leaves
    the world stepped once per element. *)
Lemma for_each_steps {A B} (f : A -> M B) (g : world -> world)
      (P : A -> B -> Prop) (xs : list A) :
  (forall x w, In x xs -> exists y, f x w = (Ok y, g w) /\ P x y) ->
  forall w, exists ys,
    for_each f xs w = (Ok ys, Nat.iter (length xs) g w) /\ Forall2 P xs ys.
Proof.
  induction xs as [| x xs IH]; intros Hf w.
  - exists []. split; [reflexivity | constructor].
  - destruct (Hf x w (or_introl eq_refl)) as (y & Hy & HP).
    destruct (IH (fun x' w' Hin => Hf x' w' (or_intror Hin)) (g w))
      as (ys & Hys & HPs).
    exists (y :: ys). split; [| constructor; assumption].
    cbn [for_each length]. rewrite (bind_Ok _ _ _ _ _ Hy).
    rewrite (bind_Ok _ _ _ _ _ Hys). rewrite Nat.iter_succ_r. reflexivity.
Qed.

Lemma Forall2_left_right {A B} (P : A -> B -> Prop) (Q : B -> Prop) xs ys :
  (forall x y, In x xs -> P x y -> Q y) -> Forall2 P xs ys -> Forall Q ys.
Proof.
  intros H HF. induction HF as [| x y xs ys Hxy _ IH]; constructor.
  - apply (H x y); [left; reflexivity | exact Hxy].
  - apply IH. intros x' y' Hin. apply H. right. exact Hin.
Qed.

(** ** Students *)

Lemma set_school_id_and_district_Ok w :
  exists n school_id school_district,
    Students.set_school_id_and_district w
    = (Ok (school_id, school_district), step_rn w)
    /\ n = 1 + index_below (current (rn w)) 6
    /\ 1 <= n <= 6
    /\ school_id = "SC" +:+ pretty n
    /\ school_district = "District " +:+ pretty ((n + 1) / 2)
    /\ In (school_id, school_district) Students.school_district_mapping.
Proof.
  pose proof (index_below_range (current (rn w)) 6 ltac:(lia)) as Hi.
  exists (1 + index_below (current (rn w)) 6).
  unfold Students.set_school_id_and_district.
  rewrite (bind_Ok _ _ _ _ _ (randint_Ok 1 6 w ltac:(lia))).
  change (6 - 1 + 1) with 6.
  assert (index_below (current (rn w)) 6 = 0 \/ index_below (current (rn w)) 6 = 1
          \/ index_below (current (rn w)) 6 = 2 \/ index_below (current (rn w)) 6 = 3
          \/ index_below (current (rn w)) 6 = 4 \/ index_below (current (rn w)) 6 = 5)
    as Hc by lia.
  destruct Hc as [-> | [-> | [-> | [-> | [-> | ->]]]]];
    (eexists; eexists; split; [vm_compute; reflexivity |];
     split; [reflexivity |]; split; [lia |];
     split; [vm_compute; reflexivity |]; split; [vm_compute; reflexivity |];
     vm_compute; tauto).
Qed.

(** The mapping gives one district to a school. *)
Lemma school_district_mapping_functional school_id d1 d2 :
  In (school_id, d1) Students.school_district_mapping ->
  In (school_id, d2) Students.school_district_mapping ->
  d1 = d2.
Proof.
  intros H1 H2. cbn in H1, H2.
  repeat (destruct H1 as [H1 | H1]; [injection H1 as <- <- |]); try destruct H1;
    repeat (destruct H2 as [H2 | H2]; [congruence |]); destruct H2.
Qed.

(** X1: [set_school_id_and_district] never raises; the school is one of
    SC1..SC6, picked by the next draw, and the district is the one the
    mapping gives for it: District 1 for SC1 and SC2, District 2 for SC3
    and SC4, District 3 for SC5 and SC6; two calls that return the same
    school return the same district. *)
Theorem school_district_fixed :
  forall w1 w2 : world,
    exists n school_id school_district,
      Students.set_school_id_and_district w1
      = (Ok (school_id, school_district), step_rn w1)
      /\ n = 1 + index_below (current (rn w1)) 6
      /\ 1 <= n <= 6
      /\ school_id = "SC" +:+ pretty n
      /\ school_district = "District " +:+ pretty ((n + 1) / 2)
      /\ forall d w2',
          Students.set_school_id_and_district w2 = (Ok (school_id, d), w2') ->
          d = school_district.
Proof.
  intros w1 w2.
  destruct (set_school_id_and_district_Ok w1)
    as (n & sid & sd & Hrun & Hn & Hrange & Hsid & Hsd & Hin).
  exists n, sid, sd. do 5 (split; [assumption |]).
  intros d w2' Hrun2.
  destruct (set_school_id_and_district_Ok w2)
    as (n2 & sid2 & sd2 & Hrun2' & _ & _ & _ & _ & Hin2).
  rewrite Hrun2 in Hrun2'. injection Hrun2' as <- <- _.
  eapply school_district_mapping_functional; eassumption.
Qed.

Lemma round_half_even_comp x y : (x == y)%Q -> round_half_even x = round_half_even y.
Proof.
  intros E. unfold round_half_even. cbv zeta.
  rewrite (Qfloor_comp _ _ E).
  assert ((x - inject_Z (Qfloor y) ?= 1 # 2) = (y - inject_Z (Qfloor y) ?= 1 # 2))%Q
    as -> by (rewrite E; reflexivity).
  reflexivity.
Qed.

Lemma round_half_even_Z k : round_half_even (inject_Z k) = k.
Proof.
  unfold round_half_even. cbv zeta. rewrite Qfloor_Z.
  destruct (Qcompare_spec (inject_Z k - inject_Z k) (1 # 2)) as [E | L | G];
    [lra | reflexivity | lra].
Qed.

Lemma round_cents_between (a b : Z) x :
  (inject_Z a <= x)%Q -> (x <= inject_Z b)%Q ->
  exists n, round x 2 = (inject_Z n / inject_Z 100)%Q /\ 100 * a <= n <= 100 * b.
Proof.
  intros Ha Hb. unfold round. change (pow10 2) with (inject_Z 100).
  exists (round_half_even (x * inject_Z 100)). split; [reflexivity |].
  apply round_half_even_between.
  - rewrite inject_Z_mult. change (inject_Z 100) with (100 # 1). lra.
  - rewrite inject_Z_mult. change (inject_Z 100) with (100 # 1). lra.
Qed.

Lemma round_cents_Z (k : Z) x :
  (x == inject_Z k)%Q -> round x 2 = (inject_Z (100 * k) / inject_Z 100)%Q.
Proof.
  intros E. unfold round. change (pow10 2) with (inject_Z 100).
  rewrite (round_half_even_comp _ (inject_Z (100 * k))), round_half_even_Z;
    [reflexivity |].
  rewrite E, inject_Z_mult. ring.
Qed.

Lemma clip_range x lo hi : (lo <= hi)%Q -> (lo <= Students.clip x lo hi <= hi)%Q.
Proof.
  intros H. unfold Students.clip.
  destruct (Qlt_le_dec x lo); [lra |]. destruct (Qlt_le_dec hi x); lra.
Qed.

Lemma hundredths_range n :
  100 <= n <= 400 -> (1 <= inject_Z n / inject_Z 100 <= 4)%Q.
Proof.
  intros [H1 H2]. rewrite Zle_Qle in H1, H2.
  change (inject_Z 100) with (100 # 1) in *.
  change (inject_Z 400) with (400 # 1) in *.
  assert (inject_Z n / (100 # 1) == inject_Z n * (1 # 100))%Q as E
    by (unfold Qdiv; reflexivity).
  rewrite E. split; lra.
Qed.

Lemma set_gpa_Ok w :
  Students.set_gpa w = (Ok (inject_Z (gpa_hundredths w) / inject_Z 100)%Q, step_rn w)
  /\ 100 <= gpa_hundredths w <= 400.
Proof.
  split; [reflexivity |]. unfold gpa_hundredths.
  set (x := (3 + current (rn w) * (2 # 10))%Q).
  destruct (clip_range x 1 4 ltac:(lra)) as [Hlo Hhi].
  apply round_half_even_between.
  - change (inject_Z 100) with (100 # 1). lra.
  - change (inject_Z 400) with (400 # 1). change (inject_Z 100) with (100 # 1). lra.
Qed.


Lemma set_date_of_birth_Ok current_year grade_level w :
  1 <= grade_level <= 12 ->
  18 <= current_year <= 9999 ->
  exists m d,
    Students.set_date_of_birth current_year grade_level w
    = (Ok (ymd2ord (current_year - (grade_level + 5)) m d), step_rn (step_rn w))
    /\ In m Students.birth_months
    /\ 1 <= d <= month_length m.
Proof.
  intros Hg Hcy.
  destruct (choice_Ok Students.birth_months w ltac:(discriminate))
    as (m & Hch & Hin).
  pose proof (birth_months_range m Hin) as Hm.
  pose proof (month_length_fits (current_year - (grade_level + 5)) m Hm) as Hfit.
  pose proof (index_below_range (current (rn (step_rn w))) (month_length m)
                ltac:(lia)) as Hd.
  exists m, (1 + index_below (current (rn (step_rn w))) (month_length m)).
  split; [| split; [exact Hin | lia]].
  unfold Students.set_date_of_birth.
  rewrite (bind_Ok _ _ _ _ _ Hch). fold (month_length m).
  rewrite (bind_Ok _ _ _ _ _
             (randint_Ok 1 (month_length m) (step_rn w) ltac:(lia))).
  replace (month_length m - 1 + 1) with (month_length m) by lia.
  unfold lift, mkdate, MINYEAR, MAXYEAR.
  repeat match goal with
         | |- context [?a <=? ?b] => destruct (Z.leb_spec a b); [| lia]
         end.
  reflexivity.
Qed.

(** X3: [Students.generate_data] returns one record for each student id
    1 .. max_student_id of the attendance object, in that order; every
    record has a grade in 1..12, a gpa in [[1, 4]], a district matching its
    school and a date of birth in the year
    [current_year - (grade_level + 5)]. *)
Theorem students_generate_data_profiles :
  forall (current_year : Z) (self : Students.t) (w : world),
    18 <= current_year <= 9999 ->
    exists data w',
      Students.generate_data current_year self w = (Ok data, w')
      /\ map Students.student_id data
         = range 1 (SchoolAttendance.max_student_id (Students.school_attendance self) + 1)
      /\ Forall (student_ok current_year) data.
Proof.
  intros cy self w Hcy.
  destruct (for_each_Ok
              (fun student_id =>
                 let* grade_level := Students.set_grade_level in
                 let* '(school_id, district) := Students.set_school_id_and_district in
                 let* gpa := Students.set_gpa in
                 let* date_of_birth := Students.set_date_of_birth cy grade_level in
                 ret (Students.Student student_id school_id grade_level gpa
                        date_of_birth district))
              (fun student_id s =>
                 Students.student_id s = student_id /\ student_ok cy s)
              (Students.set_student_ids self)) with (w := w)
    as (data & w' & Hrun & Hrel).
  { intros sid w0 _.
    pose proof (index_below_range (current (rn w0)) 12 ltac:(lia)) as Hg.
    unfold Students.set_grade_level.
    rewrite (bind_Ok _ _ _ _ _ (randint_Ok 1 12 w0 ltac:(lia))).
    change (12 - 1 + 1) with 12.
    set (g := 1 + index_below (current (rn w0)) 12).
    destruct (set_school_id_and_district_Ok (step_rn w0))
      as (n & school & district & Hsd & _ & _ & _ & _ & Hin).
    rewrite (bind_Ok _ _ _ _ _ Hsd).
    destruct (set_gpa_Ok (step_rn (step_rn w0))) as [Hgpa Hrange].
    rewrite (bind_Ok _ _ _ _ _ Hgpa).
    destruct (set_date_of_birth_Ok cy g (step_rn (step_rn (step_rn w0)))
                ltac:(subst g; lia) Hcy) as (m & d & Hdob & Hm & Hd).
    rewrite (bind_Ok _ _ _ _ _ Hdob).
    eexists. eexists. split; [reflexivity |]. split; [reflexivity |].
    split; [cbn; subst g; lia |].
    split; [cbn; apply hundredths_range; exact Hrange |].
    split; [exact Hin |].
    exists m, d. split; [apply birth_months_range; exact Hm |]. split; [exact Hd |].
    reflexivity. }
  exists data, w'. split; [exact Hrun |]. split.
  - rewrite <- (map_id (range 1 _)). apply Forall2_map_eq.
    eapply Forall2_impl; [exact Hrel |]. intros sid s [H _]. exact H.
  - eapply Forall2_left_right; [| exact Hrel]. intros sid s _ [_ H]. exact H.
Qed.

(** Five students in 2023. *)
Lemma students_generate_data_profiles_witness :
  exists data w',
    Students.generate_data 2023
      (Students.Build (SchoolAttendance.Build 0 0 5 [true] []))
      (world_of (fun _ => 0%Q) (fun _ => 0%Q) (fun _ => ""))
    = (Ok data, w')
    /\ map Students.student_id data = [1; 2; 3; 4; 5].
Proof.
  destruct (students_generate_data_profiles 2023
              (Students.Build (SchoolAttendance.Build 0 0 5 [true] []))
              (world_of (fun _ => 0%Q) (fun _ => 0%Q) (fun _ => ""))
              ltac:(lia))
    as (data & w' & Hrun & Hids & _).
  exists data, w'. split; [exact Hrun | exact Hids].
Defined.

(** ** OrderHistory: the date pool *)

Lemma count_occ_range a b d :
  count_occ Z.eq_dec (range a b) d = if (a <=? d) && (d <? b) then 1%nat else 0%nat.
Proof.
  destruct ((a <=? d) && (d <? b)) eqn:H.
  - apply andb_prop in H as [H1 H2]. apply Z.leb_le in H1. apply Z.ltb_lt in H2.
    apply NoDup_count_occ'; [apply NoDup_ListNoDup, range_NoDup |].
    apply in_range. lia.
  - apply count_occ_not_In. rewrite in_range. intros [H1 H2].
    apply Z.leb_le in H1. apply Z.ltb_lt in H2. rewrite H1, H2 in H. discriminate.
Qed.

Lemma count_occ_concat_replicate (n : nat) (l : list Z) d :
  count_occ Z.eq_dec (concat (replicate n l)) d = (n * count_occ Z.eq_dec l d)%nat.
Proof.
  induction n as [| n IH]; [reflexivity |].
  cbn [replicate concat]. rewrite count_occ_app, IH. lia.
Qed.

Lemma length_concat_replicate {A} (n : nat) (l : list A) :
  length (concat (replicate n l)) = (n * length l)%nat.
Proof.
  induction n as [| n IH]; [reflexivity |].
  cbn [replicate concat]. rewrite length_app, IH. lia.
Qed.

Lemma calculate_dates_Ok start_date end_date peak_days w :
  1 <= start_date -> end_date <= max_ordinal ->
  OrderHistory.calculate_dates start_date end_date peak_days w
  = (Ok (range start_date (end_date + 1) ++ concat (replicate 4 peak_days)), w).
Proof.
  intros Hlo Hhi. unfold OrderHistory.calculate_dates.
  rewrite (bind_Ok _ _ _ _ _ (date_range_Ok start_date end_date w Hlo Hhi)).
  reflexivity.
Qed.

(** X4: [calculate_dates] returns every date from [start_date] to
    [end_date] once, followed by four copies of the peak days, so a peak
    day inside the range is in the pool five times and one outside it four
    times; when [end_date] is before [start_date] the pool is the four
    copies of the peak days alone. *)
Theorem calculate_dates_pool :
  forall (start_date end_date : date) (peak_days : list date) (w : world),
    1 <= start_date -> end_date <= max_ordinal ->
    exists dates,
      OrderHistory.calculate_dates start_date end_date peak_days w = (Ok dates, w)
      /\ dates = range start_date (end_date + 1) ++ concat (replicate 4 peak_days)
      /\ length dates
         = (Z.to_nat (end_date - start_date + 1) + 4 * length peak_days)%nat
      /\ (forall d,
             count_occ Z.eq_dec dates d
             = ((if Z.leb start_date d && Z.leb d end_date then 1 else 0)
                + 4 * count_occ Z.eq_dec peak_days d)%nat)
      /\ (end_date < start_date -> dates = concat (replicate 4 peak_days)).
Proof.
  intros start_date end_date peak_days w Hlo Hhi.
  eexists. split; [apply calculate_dates_Ok; assumption |].
  split; [reflexivity |]. split; [| split].
  - rewrite length_app, range_length, length_concat_replicate. f_equal. f_equal. lia.
  - intros d. rewrite count_occ_app, count_occ_range, count_occ_concat_replicate.
    f_equal. destruct (Z.leb_spec start_date d); cbn [andb]; [| reflexivity].
    destruct (Z.ltb_spec d (end_date + 1)); destruct (Z.leb_spec d end_date);
      try reflexivity; lia.
  - intros Hlt. unfold range.
    replace (Z.to_nat (end_date + 1 - start_date)) with 0%nat by lia. reflexivity.
Qed.

(** January 2022 and the peak days of the class. *)
Lemma calculate_dates_pool_witness :
  exists dates,
    OrderHistory.calculate_dates (ymd2ord 2022 1 1) (ymd2ord 2022 1 31)
      OrderHistory.peak_days_2022 demo_world = (Ok dates, demo_world)
    /\ length dates = 67%nat.
Proof.
  destruct (calculate_dates_pool (ymd2ord 2022 1 1) (ymd2ord 2022 1 31)
              OrderHistory.peak_days_2022 demo_world)
    as (dates & Hrun & _ & Hlen & _);
    [vm_compute; discriminate | vm_compute; discriminate |].
  exists dates. split; [exact Hrun | exact Hlen].
Defined.

(** ** OrderHistory: the customer pool *)

Lemma draw_customer_ids (xs : list Z) w :
  exists ids,
    for_each (fun _ : Z => randint 1000000 9999999) xs w
    = (Ok ids, Nat.iter (length xs) step_rn w)
    /\ length ids = length xs
    /\ Forall customer_id_range ids.
Proof.
  destruct (for_each_steps (fun _ : Z => randint 1000000 9999999) step_rn
              (fun _ customer_id => customer_id_range customer_id) xs) with (w := w)
    as (ids & Hrun & Hrel).
  { intros x w0 _. eexists. split; [apply randint_Ok; lia |].
    pose proof (index_below_range (current (rn w0)) (9999999 - 1000000 + 1)
                  ltac:(lia)).
    unfold customer_id_range. lia. }
  exists ids. split; [exact Hrun |]. split.
  - symmetry. eapply Forall2_length. exact Hrel.
  - eapply Forall2_right. exact Hrel.
Qed.

Lemma for_each_cons_Ok {A B} (f : A -> M B) x xs w y w1 ys w2 :
  f x w = (Ok y, w1) -> for_each f xs w1 = (Ok ys, w2) ->
  for_each f (x :: xs) w = (Ok (y :: ys), w2).
Proof.
  intros H1 H2. cbn [for_each].
  rewrite (bind_Ok _ _ _ _ _ H1), (bind_Ok _ _ _ _ _ H2). reflexivity.
Qed.

Lemma tier_Ok percentage slots num_orders n w :
  OrderHistory.tier_size percentage num_orders = Ok n ->
  exists ids,
    (let* n := lift (OrderHistory.tier_size percentage num_orders) in
     let* ids := for_each (fun _ => randint 1000000 9999999) (range 0 n) in
     ret (concat (map (fun customer_id => replicate (Z.to_nat slots) customer_id) ids)))
      w
    = (Ok (spread (Z.to_nat slots) ids), Nat.iter (Z.to_nat n) step_rn w)
    /\ length ids = Z.to_nat n
    /\ Forall customer_id_range ids.
Proof.
  intros Hn. destruct (draw_customer_ids (range 0 n) w) as (ids & Hrun & Hlen & Hr).
  rewrite range_length, Z.sub_0_r in Hrun, Hlen.
  exists ids. split; [| split; assumption].
  unfold bind at 1, lift. rewrite Hn. rewrite (bind_Ok _ _ _ _ _ Hrun). reflexivity.
Qed.

(** X5: when the three tier sizes are [n1], [n2] and [n3],
    [set_customer_pool] draws [n1 + n2 + n3] customer ids, each between
    1000000 and 9999999, and returns the pool in which the first [n1] ids
    have 20 slots each, the next [n2] have 4 and the last [n3] have 1; it
    uses no other draw. *)
Theorem set_customer_pool_tiers :
  forall (num_orders n1 n2 n3 : Z) (w : world),
    OrderHistory.tier_size 0.05%float num_orders = Ok n1 ->
    OrderHistory.tier_size 0.35%float num_orders = Ok n2 ->
    OrderHistory.tier_size 0.60%float num_orders = Ok n3 ->
    exists ids1 ids2 ids3,
      OrderHistory.set_customer_pool num_orders w
      = (Ok (spread 20 ids1 ++ spread 4 ids2 ++ spread 1 ids3),
         Nat.iter (Z.to_nat n1 + Z.to_nat n2 + Z.to_nat n3) step_rn w)
      /\ length ids1 = Z.to_nat n1
      /\ length ids2 = Z.to_nat n2
      /\ length ids3 = Z.to_nat n3
      /\ Forall customer_id_range (ids1 ++ ids2 ++ ids3)
      /\ length (spread 20 ids1 ++ spread 4 ids2 ++ spread 1 ids3)
         = (20 * Z.to_nat n1 + 4 * Z.to_nat n2 + Z.to_nat n3)%nat.
Proof.
  intros num_orders n1 n2 n3 w H1 H2 H3.
  destruct (tier_Ok 0.05%float 20 num_orders n1 w H1) as (ids1 & R1 & L1 & F1).
  destruct (tier_Ok 0.35%float 4 num_orders n2 (Nat.iter (Z.to_nat n1) step_rn w) H2)
    as (ids2 & R2 & L2 & F2).
  destruct (tier_Ok 0.60%float 1 num_orders n3
              (Nat.iter (Z.to_nat n2) step_rn (Nat.iter (Z.to_nat n1) step_rn w)) H3)
    as (ids3 & R3 & L3 & F3).
  exists ids1, ids2, ids3.
  split; [| split; [exact L1 | split; [exact L2 | split; [exact L3 | split]]]].
  - unfold OrderHistory.set_customer_pool, OrderHistory.percentages,
      OrderHistory.orders_list.
    cbn [combine].
    erewrite bind_Ok;
      [| eapply for_each_cons_Ok; [exact R1 |];
         eapply for_each_cons_Ok; [exact R2 |];
         eapply for_each_cons_Ok; [exact R3 | reflexivity]].
    unfold ret. cbn [concat]. rewrite app_nil_r.
    rewrite <- !Nat.iter_add.
    do 2 f_equal. lia.
  - rewrite !Forall_app. auto.
  - assert (forall k ids, length (spread k ids) = (k * length ids)%nat) as Hs.
    { intros k ids. unfold spread. induction ids as [| i ids IH]; cbn; [lia |].
      rewrite length_app, length_replicate, IH. lia. }
    rewrite !length_app, !Hs, L1, L2, L3. lia.
Qed.

(** For 200 orders: 2 customers of 20 slots, 17 of 4 and 30 of 1, a pool
    of 138 slots. *)
Lemma set_customer_pool_tiers_witness :
  exists pool w', OrderHistory.set_customer_pool 200 demo_world = (Ok pool, w')
                  /\ length pool = 138%nat.
Proof.
  destruct (set_customer_pool_tiers 200 2 17 30 demo_world)
    as (ids1 & ids2 & ids3 & Hrun & _ & _ & _ & _ & Hlen);
    [vm_compute; reflexivity | vm_compute; reflexivity | vm_compute; reflexivity |].
  eexists. eexists. split; [exact Hrun | exact Hlen].
Defined.

(** ** OrderHistory: runs with few orders *)

Lemma bind_Raise {A B} (m : M A) (k : A -> M B) w e w' :
  m w = (Raise e, w') -> bind m k w = (Raise e, w').
Proof. intros H. unfold bind. now rewrite H. Qed.

Lemma set_customer_pool_small num_orders w :
  0 <= num_orders <= 6 -> OrderHistory.set_customer_pool num_orders w = (Ok [], w).
Proof.
  intros H.
  assert (num_orders = 0 \/ num_orders = 1 \/ num_orders = 2 \/ num_orders = 3
          \/ num_orders = 4 \/ num_orders = 5 \/ num_orders = 6) as Hn by lia.
  repeat destruct Hn as [-> | Hn]; try subst num_orders; vm_compute; reflexivity.
Qed.

Lemma peak_days_2022_shippable : Forall shippable OrderHistory.peak_days_2022.
Proof. repeat constructor; vm_compute; discriminate. Qed.

Lemma date_pool_shippable start_date end_date :
  1 <= start_date -> end_date + 5 <= max_ordinal ->
  Forall shippable
    (range start_date (end_date + 1)
     ++ concat (replicate 4 OrderHistory.peak_days_2022)).
Proof.
  intros Hlo Hhi. apply Forall_app. split.
  - apply List.Forall_forall. intros d Hd. apply in_range in Hd.
    unfold shippable. lia.
  - cbn [replicate concat]. rewrite app_nil_r, !Forall_app.
    pose proof peak_days_2022_shippable. auto.
Qed.

Lemma init_small revenue aov start_date end_date w :
  aov <> 0 -> 0 <= revenue / aov <= 6 ->
  1 <= start_date -> end_date <= max_ordinal ->
  OrderHistory.init revenue aov start_date end_date w
  = (Ok (OrderHistory.Build (revenue / aov) revenue aov start_date end_date
           OrderHistory.peak_days_2022
           (range start_date (end_date + 1)
            ++ concat (replicate 4 OrderHistory.peak_days_2022))
           []), w).
Proof.
  intros Haov Hn Hlo Hhi. unfold OrderHistory.init.
  destruct (Z.eqb_spec aov 0) as [-> | _]; [congruence |].
  rewrite (bind_Ok _ _ _ _ _ (calculate_dates_Ok _ _ _ w Hlo Hhi)).
  rewrite (bind_Ok _ _ _ _ _ (set_customer_pool_small _ w Hn)).
  reflexivity.
Qed.

Lemma range_cons a b : a < b -> range a b = a :: range (a + 1) b.
Proof.
  intros H. unfold range.
  replace (b - a) with (Z.succ (b - (a + 1))) by lia.
  rewrite Z2Nat.inj_succ by lia.
  cbn [seq map]. f_equal; [lia |].
  rewrite <- seq_shift, map_map. apply map_ext. intros i. lia.
Qed.

Lemma generate_data_empty_pool holidays_2022 self w :
  OrderHistory.customer_pool self = [] ->
  OrderHistory.dates self <> [] ->
  Forall shippable (OrderHistory.dates self) ->
  1 <= OrderHistory.num_orders self ->
  exists w', OrderHistory.generate_data holidays_2022 self w = (Raise IndexError, w').
Proof.
  intros Hpool Hdates Hship Hn.
  destruct (choice_Ok (OrderHistory.dates self) w Hdates) as (od & Hod & Hin).
  destruct (set_order_id_Ok (step_rn w)) as (oid & Hoid).
  rewrite List.Forall_forall in Hship. destruct (Hship od Hin) as [H1 H2].
  pose proof (set_shipped_date_eq holidays_2022 od (step_rn (step_rn w)) H1 H2) as Hsd.
  cbv zeta in Hsd.
  destruct (set_status_Ok (step_rn (step_rn (step_rn w)))) as (st & Hst).
  eexists. unfold OrderHistory.generate_data.
  rewrite (range_cons 0 (OrderHistory.num_orders self)) by lia. cbn [for_each].
  apply bind_Raise.
  unfold OrderHistory.set_order_date. rewrite (bind_Ok _ _ _ _ _ Hod).
  rewrite (bind_Ok _ _ _ _ _ Hoid), (bind_Ok _ _ _ _ _ Hsd), (bind_Ok _ _ _ _ _ Hst).
  rewrite (bind_Ok _ _ _ _ _ (set_order_amount_eq self od _)).
  apply bind_Raise. unfold OrderHistory.set_customer_id. rewrite Hpool. reflexivity.
Qed.

(** X6: with one to six orders ([revenue // aov]) every customer tier is
    empty: the constructor succeeds with an empty customer pool, and
    [generate_data] then raises [IndexError] when it picks the customer of
    the first order. *)
Theorem few_orders_raise_IndexError :
  forall (holidays_2022 : date -> bool) (revenue aov : Z)
         (start_date end_date : date) (w : world),
    1 <= revenue / aov <= 6 ->
    1 <= start_date -> end_date + 5 <= max_ordinal ->
    exists self,
      OrderHistory.init revenue aov start_date end_date w = (Ok self, w)
      /\ OrderHistory.num_orders self = revenue / aov
      /\ OrderHistory.customer_pool self = []
      /\ forall w1, exists w2,
          OrderHistory.generate_data holidays_2022 self w1 = (Raise IndexError, w2).
Proof.
  intros holidays_2022 revenue aov start_date end_date w Hn Hlo Hhi.
  assert (aov <> 0) as Haov.
  { intros ->. rewrite Z.div_0_r in Hn. lia. }
  eexists. split; [apply init_small; [assumption | lia | assumption | lia] |].
  split; [reflexivity |]. split; [reflexivity |].
  intros w1. apply generate_data_empty_pool; cbn.
  - reflexivity.
  - destruct (range start_date (end_date + 1)); discriminate.
  - apply date_pool_shippable; assumption.
  - lia.
Qed.

(** A revenue of 30 at an average order value of 5: six orders. *)
Lemma few_orders_raise_IndexError_witness :
  exists self w2,
    OrderHistory.init 30 5 (ymd2ord 2022 1 1) (ymd2ord 2022 1 31) demo_world
    = (Ok self, demo_world)
    /\ OrderHistory.generate_data in_US_holidays_2022 self demo_world
       = (Raise IndexError, w2).
Proof.
  destruct (few_orders_raise_IndexError in_US_holidays_2022 30 5
              (ymd2ord 2022 1 1) (ymd2ord 2022 1 31) demo_world)
    as (self & Hinit & _ & _ & Hgen);
    [vm_compute; split; discriminate | vm_compute; discriminate
     | vm_compute; discriminate |].
  destruct (Hgen demo_world) as (w2 & Hrun).
  exists self, w2. split; [exact Hinit | exact Hrun].
Defined.

Lemma spend_weights_of_nil : OrderHistory.spend_weights_of [] = Raise ValueError.
Proof. reflexivity. Qed.

(** X7: when [revenue // aov] is zero (a revenue below the average
    order value) the constructor succeeds, [generate_data] returns no
    order and draws nothing, and [get_spend_weights], hence the
    constructor of [CustomerInfo], raises [ValueError] ([max] of an empty
    sequence). *)
Theorem no_orders_raise_ValueError :
  forall (holidays_2022 : date -> bool) (revenue aov : Z)
         (start_date end_date : date) (w : world),
    0 <= revenue < aov ->
    1 <= start_date -> end_date <= max_ordinal ->
    exists self,
      OrderHistory.init revenue aov start_date end_date w = (Ok self, w)
      /\ OrderHistory.num_orders self = 0
      /\ forall w1,
          OrderHistory.generate_data holidays_2022 self w1 = (Ok [], w1)
          /\ OrderHistory.get_spend_weights holidays_2022 self w1
             = (Raise ValueError, w1)
          /\ CustomerInfo.init holidays_2022 self w1 = (Raise ValueError, w1).
Proof.
  intros holidays_2022 revenue aov start_date end_date w Hrev Hlo Hhi.
  pose proof (Z.div_small revenue aov Hrev) as Hdiv.
  eexists. split; [apply init_small; lia |].
  split; [exact Hdiv |].
  intros w1.
  assert (OrderHistory.generate_data holidays_2022
            (OrderHistory.Build (revenue / aov) revenue aov start_date end_date
               OrderHistory.peak_days_2022
               (range start_date (end_date + 1)
                ++ concat (replicate 4 OrderHistory.peak_days_2022)) []) w1
          = (Ok [], w1)) as Hgen.
  { unfold OrderHistory.generate_data. cbn [OrderHistory.num_orders].
    rewrite Hdiv. reflexivity. }
  assert (OrderHistory.get_spend_weights holidays_2022
            (OrderHistory.Build (revenue / aov) revenue aov start_date end_date
               OrderHistory.peak_days_2022
               (range start_date (end_date + 1)
                ++ concat (replicate 4 OrderHistory.peak_days_2022)) []) w1
          = (Raise ValueError, w1)) as Hsw.
  { unfold OrderHistory.get_spend_weights.
    rewrite (bind_Ok _ _ _ _ _ Hgen). reflexivity. }
  split; [exact Hgen |]. split; [exact Hsw |].
  unfold CustomerInfo.init. apply bind_Raise. exact Hsw.
Qed.

(** A revenue of 3 at an average order value of 5. *)
Lemma no_orders_raise_ValueError_witness :
  exists self,
    OrderHistory.init 3 5 (ymd2ord 2022 1 1) (ymd2ord 2022 1 31) demo_world
    = (Ok self, demo_world)
    /\ CustomerInfo.init in_US_holidays_2022 self demo_world
       = (Raise ValueError, demo_world).
Proof.
  destruct (no_orders_raise_ValueError in_US_holidays_2022 3 5
              (ymd2ord 2022 1 1) (ymd2ord 2022 1 31) demo_world)
    as (self & Hinit & _ & Hrun);
    [lia | vm_compute; discriminate | vm_compute; discriminate |].
  exists self. split; [exact Hinit | apply Hrun].
Defined.

(** ** OrderHistory.set_status *)

Lemma set_status_eq w :
  OrderHistory.set_status w = (Ok (status_of (frac (current (rn w)))), step_rn w).
Proof.
  unfold OrderHistory.set_status, choices, bind, next_rn, ret, status_of.
  f_equal. f_equal. cbn [combine fold_right pick_weighted].
  set (u := frac (current (rn w))).
  destruct (Qlt_le_dec (u * _) (0 + (87 # 100))) as [H1 | H1];
    destruct (Qlt_le_dec u (87 # 100)) as [H1' | H1']; try reflexivity; try lra.
  destruct (Qlt_le_dec (u * _) (0 + (87 # 100) + (1 # 10))) as [H2 | H2];
    destruct (Qlt_le_dec u (97 # 100)) as [H2' | H2']; try reflexivity; try lra.
  destruct (Qlt_le_dec (u * _) (0 + (87 # 100) + (1 # 10) + (3 # 100))) as [H3 | H3];
    reflexivity.
Qed.


(** ** OrderHistory.get_spend_weights: totals and weights *)










(** ** OrderHistory.generate_data: the shape of an order *)

Lemma status_of_In u : In (status_of u) ["completed"; "abandoned"; "canceled"].
Proof.
  unfold status_of.
  destruct (Qlt_le_dec u (87 # 100)); [left; reflexivity |].
  destruct (Qlt_le_dec u (97 # 100)); [right; left | right; right; left]; reflexivity.
Qed.

Lemma iter_order_step (n : nat) (w : world) :
  fake (Nat.iter n order_step w) = fake w
  /\ draws (rn (Nat.iter n order_step w)) = draws (rn w)
  /\ draws (np (Nat.iter n order_step w)) = draws (np w)
  /\ pos (rn (Nat.iter n order_step w)) = (pos (rn w) + 6 * n)%nat
  /\ pos (np (Nat.iter n order_step w)) = (pos (np w) + 3 * n)%nat.
Proof.
  induction n as [| n (IH1 & IH2 & IH3 & IH4 & IH5)].
  - simpl Nat.iter. repeat split; try reflexivity; lia.
  - rewrite Nat.iter_succ.
    set (w1 := Nat.iter n order_step w) in *. clearbody w1.
    unfold order_step. cbn. rewrite IH4, IH5.
    repeat split; try assumption; lia.
Qed.

Lemma order_body_Ok holidays_2022 self (w : world) :
  OrderHistory.customer_pool self <> [] ->
  OrderHistory.dates self <> [] ->
  Forall shippable (OrderHistory.dates self) ->
  exists o,
    (let* order_date := OrderHistory.set_order_date self in
     let* order_id := OrderHistory.set_order_id in
     let* shipped_date := OrderHistory.set_shipped_date holidays_2022 order_date in
     let* status := OrderHistory.set_status in
     let comments := OrderHistory.set_comments holidays_2022 order_date in
     let* order_amount := OrderHistory.set_order_amount self order_date in
     let* customer_id := OrderHistory.set_customer_id self in
     let* store_id := OrderHistory.set_store_id in
     ret (OrderHistory.Order order_id order_date shipped_date status
            comments order_amount customer_id store_id)) w
    = (Ok o, order_step w)
    /\ order_ok holidays_2022 self o.
Proof.
  intros Hpool Hdates Hship.
  destruct (choice_Ok (OrderHistory.dates self) w Hdates) as (od & Hod & Hin).
  rewrite List.Forall_forall in Hship. destruct (Hship od Hin) as [Hlo Hhi].
  pose proof (set_shipped_date_eq holidays_2022 od (step_rn (step_rn w)) Hlo Hhi) as Hsd.
  cbv zeta in Hsd.
  destruct (choice_Ok (OrderHistory.customer_pool self)
              (step_np (step_np (step_np (step_rn (step_rn (step_rn (step_rn w)))))))
              Hpool) as (cid & Hcid & Hcin).
  eexists. split.
  - unfold OrderHistory.set_order_date. rewrite (bind_Ok _ _ _ _ _ Hod).
    unfold OrderHistory.set_order_id at 1.
    rewrite (bind_Ok _ _ _ _ _
               (bind_Ok _ _ _ _ _ (randint_Ok 1000000 9999999 _ ltac:(lia)))).
    unfold ret at 1.
    rewrite (bind_Ok _ _ _ _ _ Hsd).
    rewrite (bind_Ok _ _ _ _ _ (set_status_eq _)).
    rewrite (bind_Ok _ _ _ _ _ (set_order_amount_eq self od _)).
    unfold OrderHistory.set_customer_id. rewrite (bind_Ok _ _ _ _ _ Hcid).
    unfold OrderHistory.set_store_id.
    rewrite (bind_Ok _ _ _ _ _ (bind_Ok _ _ _ _ _ (randint_Ok 1 500 _ ltac:(lia)))).
    unfold ret. reflexivity.
  - unfold order_ok. cbn [OrderHistory.order_date OrderHistory.customer_id
                           OrderHistory.shipped_date OrderHistory.status
                           OrderHistory.comments OrderHistory.order_id
                           OrderHistory.store_id].
    split; [exact Hin |]. split; [exact Hcin |]. split; [| split; [| split; [| split]]].
    + pose proof (index_below_range (current (rn (step_rn (step_rn w)))) 2 ltac:(lia))
        as Hr.
      set (r := index_below _ 2) in *.
      destruct ((5 <=? weekday (od + (1 + r))) || holidays_2022 (od + (1 + r)));
        assert (r = 0 \/ r = 1) as [-> | ->] by lia; cbn; auto 6; 
        match goal with
        | |- context [?a - od] =>
            first [replace (a - od) with 1 by lia | replace (a - od) with 2 by lia
                  | replace (a - od) with 4 by lia | replace (a - od) with 5 by lia]
        end; auto 6.
    + apply status_of_In.
    + reflexivity.
    + eexists. split; [| reflexivity].
      pose proof (index_below_range (current (rn (step_rn w)))
                    (9999999 - 1000000 + 1) ltac:(lia)). lia.
    + eexists. split; [| reflexivity].
      match goal with
      | |- context [index_below ?q (500 - 1 + 1)] =>
          pose proof (index_below_range q (500 - 1 + 1) ltac:(lia))
      end. lia.
Qed.

(** X11: with a customer pool that is not empty and dates that leave
    room for shipping, [generate_data] returns [num_orders] orders; each
    has its date from the date pool, its customer from the customer pool,
    a shipped date 1, 2, 4 or 5 days after the order date, one of the three
    statuses, the comment "Holiday Promotion" exactly on a holiday, an id
    "O" followed by a seven-digit number and a store "S1" to "S500"; every
    order uses six draws of [random] and three of [numpy.random], and
    Faker is not used. *)
Theorem order_generate_data_shape :
  forall (holidays_2022 : date -> bool) (self : OrderHistory.t) (w : world),
    OrderHistory.customer_pool self <> [] ->
    OrderHistory.dates self <> [] ->
    Forall shippable (OrderHistory.dates self) ->
    exists orders w',
      OrderHistory.generate_data holidays_2022 self w = (Ok orders, w')
      /\ length orders = Z.to_nat (OrderHistory.num_orders self)
      /\ Forall (order_ok holidays_2022 self) orders
      /\ fake w' = fake w
      /\ pos (rn w') = (pos (rn w) + 6 * length orders)%nat
      /\ pos (np w') = (pos (np w) + 3 * length orders)%nat.
Proof.
  intros holidays_2022 self w Hpool Hdates Hship.
  destruct (for_each_steps
              (fun _ : Z =>
                 let* order_date := OrderHistory.set_order_date self in
                 let* order_id := OrderHistory.set_order_id in
                 let* shipped_date :=
                   OrderHistory.set_shipped_date holidays_2022 order_date in
                 let* status := OrderHistory.set_status in
                 let comments := OrderHistory.set_comments holidays_2022 order_date in
                 let* order_amount := OrderHistory.set_order_amount self order_date in
                 let* customer_id := OrderHistory.set_customer_id self in
                 let* store_id := OrderHistory.set_store_id in
                 ret (OrderHistory.Order order_id order_date shipped_date status
                        comments order_amount customer_id store_id))
              order_step
              (fun _ o => order_ok holidays_2022 self o)
              (range 0 (OrderHistory.num_orders self))) with (w := w)
    as (orders & Hrun & Hrel).
  { intros i w0 _. apply order_body_Ok; assumption. }
  pose proof (Forall2_length _ _ _ Hrel) as Hlen.
  rewrite range_length, Z.sub_0_r in Hlen, Hrun.
  destruct (iter_order_step (Z.to_nat (OrderHistory.num_orders self)) w)
    as (Hf & _ & _ & Hprn & Hpnp).
  exists orders, (Nat.iter (Z.to_nat (OrderHistory.num_orders self)) order_step w).
  split; [exact Hrun |]. split; [symmetry; exact Hlen |].
  split; [eapply Forall2_right; exact Hrel |].
  rewrite <- Hlen. auto.
Qed.

(** The run of the seventy-dollar history. *)
Lemma order_generate_data_shape_witness :
  exists orders w',
    OrderHistory.generate_data in_US_holidays_2022 demo_history demo_world_1
    = (Ok orders, w')
    /\ length orders = 14%nat.
Proof.
  destruct (order_generate_data_shape in_US_holidays_2022 demo_history demo_world_1)
    as (orders & w' & Hrun & Hlen & _).
  - vm_compute. discriminate.
  - vm_compute. discriminate.
  - apply (date_pool_shippable (ymd2ord 2022 1 1) (ymd2ord 2022 1 31));
      vm_compute; discriminate.
  - exists orders, w'. split; [exact Hrun | exact Hlen].
Defined.

(** ** SchoolAttendance.generate_data: records as a function of the draws *)

Lemma iter_step_rn (n : nat) (w : world) :
  draws (rn (Nat.iter n step_rn w)) = draws (rn w)
  /\ pos (rn (Nat.iter n step_rn w)) = (pos (rn w) + n)%nat
  /\ np (Nat.iter n step_rn w) = np w
  /\ fake (Nat.iter n step_rn w) = fake w.
Proof.
  induction n as [| n (IH1 & IH2 & IH3 & IH4)].
  - simpl Nat.iter. repeat split; try reflexivity; lia.
  - rewrite Nat.iter_succ.
    set (w1 := Nat.iter n step_rn w) in *. clearbody w1.
    unfold step_rn. cbn. rewrite IH2. repeat split; try assumption; lia.
Qed.

Lemma for_each_draws {A B} (h : A -> Q -> B) (f : A -> M B) (xs : list A) :
  (forall x w, f x w = (Ok (h x (current (rn w))), step_rn w)) ->
  forall w,
    for_each f xs w
    = (Ok (draw_map h (draws (rn w)) (pos (rn w)) xs),
       Nat.iter (length xs) step_rn w).
Proof.
  intros Hf. induction xs as [| x xs IH]; intros w; [reflexivity |].
  cbn [for_each length draw_map].
  rewrite (bind_Ok _ _ _ _ _ (Hf x w)), (bind_Ok _ _ _ _ _ (IH (step_rn w))).
  rewrite Nat.iter_succ_r. reflexivity.
Qed.

Lemma draw_map_app {A B} (h : A -> Q -> B) tape (xs ys : list A) :
  forall p,
    draw_map h tape p (xs ++ ys)
    = draw_map h tape p xs ++ draw_map h tape (p + length xs) ys.
Proof.
  induction xs as [| x xs IH]; intros p; cbn [app draw_map length].
  - rewrite Nat.add_0_r. reflexivity.
  - rewrite IH. do 3 f_equal. lia.
Qed.

Lemma draw_map_map {A B C} (g : C -> A) (h : A -> Q -> B) tape (xs : list C) :
  forall p, draw_map h tape p (map g xs) = draw_map (fun x => h (g x)) tape p xs.
Proof.
  induction xs as [| x xs IH]; intros p; cbn [map draw_map]; [reflexivity |].
  rewrite IH. reflexivity.
Qed.

Lemma draw_map_length {A B} (h : A -> Q -> B) tape (xs : list A) :
  forall p, length (draw_map h tape p xs) = length xs.
Proof.
  induction xs as [| x xs IH]; intros p; cbn [draw_map length]; [reflexivity |].
  rewrite IH. reflexivity.
Qed.

Lemma draw_map_nth_error {A B} (h : A -> Q -> B) tape (xs : list A) :
  forall p k,
    nth_error (draw_map h tape p xs) k
    = option_map (fun x => h x (tape (p + k)%nat)) (nth_error xs k).
Proof.
  induction xs as [| x xs IH]; intros p k.
  - destruct k; reflexivity.
  - destruct k as [| k]; cbn [draw_map nth_error option_map].
    + rewrite Nat.add_0_r. reflexivity.
    + rewrite IH. replace (S p + k)%nat with (p + S k)%nat by lia. reflexivity.
Qed.

Lemma set_random_attendance_eq self w :
  SchoolAttendance.attendance_weights self = [true; true; true; true; false] ->
  SchoolAttendance.set_random_attendance self w
  = (Ok (attendance_of (current (rn w))), step_rn w).
Proof.
  intros Hw. unfold SchoolAttendance.set_random_attendance. rewrite Hw. reflexivity.
Qed.

Lemma attendance_per_date self (ds : list date) :
  SchoolAttendance.attendance_weights self = [true; true; true; true; false] ->
  forall w, exists per_date,
    for_each (fun date =>
                for_each (fun student_id =>
                            let* attendance := SchoolAttendance.set_random_attendance self in
                            ret (SchoolAttendance.Record_ date student_id attendance))
                         (SchoolAttendance.set_student_ids self))
             ds w
    = (Ok per_date,
       Nat.iter (length ds * length (SchoolAttendance.set_student_ids self)) step_rn w)
    /\ concat per_date
       = draw_map record_of (draws (rn w)) (pos (rn w))
           (list_prod ds (SchoolAttendance.set_student_ids self)).
Proof.
  intros Hw. set (ids := SchoolAttendance.set_student_ids self).
  induction ds as [| d ds IH]; intros w.
  - exists []. split; reflexivity.
  - pose proof (for_each_draws
                  (fun student_id q => record_of (d, student_id) q)
                  (fun student_id =>
                     let* attendance := SchoolAttendance.set_random_attendance self in
                     ret (SchoolAttendance.Record_ d student_id attendance))
                  ids) as Hinner.
    specialize (Hinner
                  (fun s w0 => bind_Ok _ _ _ _ _ (set_random_attendance_eq self w0 Hw)) w).
    destruct (IH (Nat.iter (length ids) step_rn w)) as (per_date & Hrun & Hcat).
    destruct (iter_step_rn (length ids) w) as (Hd & Hp & _ & _).
    eexists. split.
    + cbn [for_each]. rewrite (bind_Ok _ _ _ _ _ Hinner), (bind_Ok _ _ _ _ _ Hrun).
      unfold ret. rewrite <- Nat.iter_add. do 2 f_equal. cbn [length]. lia.
    + cbn [concat list_prod]. rewrite Hcat, Hd, Hp.
      rewrite draw_map_app, draw_map_map, length_map. reflexivity.
Qed.

Lemma attendance_generate_data_eq self w :
  SchoolAttendance.attendance_weights self = [true; true; true; true; false] ->
  SchoolAttendance.generate_data self w
  = (Ok (draw_map record_of (draws (rn w)) (pos (rn w))
           (list_prod (SchoolAttendance.dates self)
                      (SchoolAttendance.set_student_ids self))),
     Nat.iter (length (SchoolAttendance.dates self)
               * length (SchoolAttendance.set_student_ids self)) step_rn w).
Proof.
  intros Hw.
  destruct (attendance_per_date self (SchoolAttendance.dates self) Hw w)
    as (per_date & Hrun & Hcat).
  unfold SchoolAttendance.generate_data. rewrite (bind_Ok _ _ _ _ _ Hrun).
  unfold ret. rewrite Hcat. reflexivity.
Qed.

(** X12: [SchoolAttendance.generate_data] uses one draw of [random]
    for each record, in the order of the records, and nothing else: record
    number [k] carries the [k]-th (date, student) pair and is absent
    exactly when draw number [k] picks the last of the five weights. *)
Theorem attendance_follows_draws :
  forall (self : SchoolAttendance.t) (w : world),
    SchoolAttendance.attendance_weights self = [true; true; true; true; false] ->
    exists data w',
      SchoolAttendance.generate_data self w = (Ok data, w')
      /\ length data
         = (length (SchoolAttendance.dates self)
            * length (SchoolAttendance.set_student_ids self))%nat
      /\ (forall k r,
             nth_error data k = Some r ->
             let q := draws (rn w) (pos (rn w) + k)%nat in
             nth_error (list_prod (SchoolAttendance.dates self)
                                  (SchoolAttendance.set_student_ids self)) k
             = Some (key_of r)
             /\ (SchoolAttendance.attendance r = false <-> index_below q 5 = 4))
      /\ draws (rn w') = draws (rn w)
      /\ pos (rn w') = (pos (rn w) + length data)%nat
      /\ np w' = np w /\ fake w' = fake w.
Proof.
  intros self w Hw. eexists. eexists.
  split; [apply attendance_generate_data_eq; exact Hw |].
  rewrite draw_map_length, length_prod.
  split; [reflexivity |]. split.
  - intros k r Hk q. rewrite draw_map_nth_error in Hk.
    destruct (nth_error (list_prod _ _) k) as [[d s] |]; [| discriminate].
    injection Hk as <-. split; [reflexivity |].
    cbn [record_of SchoolAttendance.attendance]. fold q. unfold attendance_of.
    pose proof (index_below_range q 5 ltac:(lia)) as Hr.
    assert (index_below q 5 = 0 \/ index_below q 5 = 1 \/ index_below q 5 = 2
            \/ index_below q 5 = 3 \/ index_below q 5 = 4) as Hc by lia.
    destruct Hc as [-> | [-> | [-> | [-> | ->]]]]; vm_compute;
      split; intros H; first [discriminate H | reflexivity].
  - apply iter_step_rn.
Qed.

(** Three days and five students with the weights of the constructor. *)
Lemma attendance_follows_draws_witness :
  exists data w',
    SchoolAttendance.generate_data
      (SchoolAttendance.Build (ymd2ord 2023 1 1) (ymd2ord 2023 1 3) 5
         [true; true; true; true; false]
         (range (ymd2ord 2023 1 1) (ymd2ord 2023 1 3 + 1)))
      demo_world = (Ok data, w')
    /\ length data = 15%nat.
Proof.
  destruct (attendance_follows_draws
              (SchoolAttendance.Build (ymd2ord 2023 1 1) (ymd2ord 2023 1 3) 5
                 [true; true; true; true; false]
                 (range (ymd2ord 2023 1 1) (ymd2ord 2023 1 3 + 1)))
              demo_world eq_refl)
    as (data & w' & Hrun & Hlen & _).
  exists data, w'. split; [exact Hrun | exact Hlen].
Defined.

(** X13: a date range that ends before it starts, or a
    [max_student_id] of zero or less, is accepted: the constructor
    succeeds and [generate_data] returns the empty list without a draw;
    with the empty date range [set_date_range] raises [IndexError]. *)
Theorem attendance_empty_configurations :
  forall (start_date end_date : date) (max_student_id : Z) (w : world),
    end_date < start_date
    \/ (1 <= start_date /\ end_date <= max_ordinal /\ max_student_id <= 0) ->
    exists self,
      SchoolAttendance.init start_date end_date max_student_id w = (Ok self, w)
      /\ forall w1,
          SchoolAttendance.generate_data self w1 = (Ok [], w1)
          /\ (end_date < start_date ->
              SchoolAttendance.dates self = []
              /\ SchoolAttendance.set_date_range self w1 = (Raise IndexError, w1)).
Proof.
  intros start_date end_date max_student_id w Hcase.
  assert (exists dates,
             SchoolAttendance.calculate_dates start_date end_date w = (Ok dates, w)
             /\ (end_date < start_date -> dates = [])
             /\ (dates = [] \/ max_student_id <= 0)) as (dates & Hdates & Hnil & Hempty).
  { destruct (Z_lt_le_dec end_date start_date) as [Hlt | Hle].
    - exists []. split; [| split; [reflexivity | left; reflexivity]].
      unfold SchoolAttendance.calculate_dates, days_between, range.
      replace (Z.to_nat (end_date - start_date + 1 - 0)) with 0%nat by lia.
      reflexivity.
    - destruct Hcase as [Hlt | (Hlo & Hhi & Hmax)]; [lia |].
      exists (range start_date (end_date + 1)).
      split; [apply date_range_Ok; assumption |]. split; [lia | right; exact Hmax]. }
  eexists. split.
  { unfold SchoolAttendance.init. rewrite (bind_Ok _ _ _ _ _ Hdates). reflexivity. }
  intros w1. split.
  - rewrite attendance_generate_data_eq by reflexivity.
    cbn [SchoolAttendance.dates SchoolAttendance.set_student_ids
         SchoolAttendance.max_student_id].
    unfold SchoolAttendance.set_student_ids. cbn [SchoolAttendance.max_student_id].
    destruct Hempty as [-> | Hmax]; [reflexivity |].
    unfold range at 1 2. replace (Z.to_nat (max_student_id + 1 - 1)) with 0%nat by lia.
    cbn [seq map length]. rewrite Nat.mul_0_r.
    assert (forall (l : list date), list_prod l (@nil Z) = []) as ->
      by (induction l; [reflexivity | assumption]).
    reflexivity.
  - intros Hlt. rewrite (Hnil Hlt). split; reflexivity.
Qed.

(** A range from the 3rd back to the 1st of January 2023. *)
Lemma attendance_empty_configurations_witness :
  exists self,
    SchoolAttendance.init (ymd2ord 2023 1 3) (ymd2ord 2023 1 1) 5 demo_world
    = (Ok self, demo_world)
    /\ SchoolAttendance.generate_data self demo_world = (Ok [], demo_world).
Proof.
  destruct (attendance_empty_configurations
              (ymd2ord 2023 1 3) (ymd2ord 2023 1 1) 5 demo_world)
    as (self & Hinit & Hgen); [left; vm_compute; reflexivity |].
  exists self. split; [exact Hinit | apply Hgen].
Defined.

(** ** CustomerInfo.generate_data: the shape of a customer record *)

Lemma round_hundreds_multiple x :
  (round x (-2) == inject_Z (100 * round_half_even (x * pow10 (-2))))%Q.
Proof.
  unfold round. set (n := round_half_even _).
  change (pow10 (-2)) with (1 / inject_Z 100)%Q.
  rewrite inject_Z_mult. change (inject_Z 100) with (100 # 1).
  unfold Qdiv. field.
Qed.

Lemma customer_record_shape by_state self customer_id w :
  raises_only_IndexError by_state ->
  exists c w',
    (let* '(city, state, postal_code) := CustomerInfo.set_city_state_zip by_state in
     let* customer_name := CustomerInfo.set_customer_name in
     let* phone := CustomerInfo.set_phone in
     let* address := CustomerInfo.set_address in
     let* sales_rep_employee_id := CustomerInfo.set_sales_rep_employee_id in
     let* credit_limit := CustomerInfo.set_credit_limit self customer_id in
     ret (CustomerInfo.Customer customer_id customer_name phone address city state
            postal_code sales_rep_employee_id credit_limit)) w
    = (Ok c, w')
    /\ CustomerInfo.customer_id c = customer_id
    /\ customer_ok by_state c.
Proof.
  intros Hres.
  destruct (first_return_attempts by_state (range 0 5) w Hres)
    as ([[city state] zip] & w1 & Hrun & _ & Hcase).
  fold (CustomerInfo.set_city_state_zip by_state) in Hrun.
  rewrite (bind_Ok _ _ _ _ _ Hrun).
  eexists. eexists. split; [| split].
  - unfold CustomerInfo.set_customer_name, CustomerInfo.set_phone,
      CustomerInfo.set_address, CustomerInfo.set_sales_rep_employee_id.
    unfold bind at 1, next_fake at 1. unfold bind at 1, next_fake at 1.
    unfold bind at 1, next_fake at 1.
    rewrite (bind_Ok _ _ _ _ _ (bind_Ok _ _ _ _ _ (randint_Ok 1 10 _ ltac:(lia)))).
    unfold ret at 1. unfold CustomerInfo.set_credit_limit, np_uniform.
    unfold bind, next_np, ret. reflexivity.
  - reflexivity.
  - unfold customer_ok.
    cbn [CustomerInfo.state CustomerInfo.city CustomerInfo.postal_code
         CustomerInfo.sales_rep_employee_id CustomerInfo.credit_limit].
    assert ((city, state, zip) = fallback
            \/ sampled_for by_state state (city, state, zip)) as Ht.
    { destruct Hcase as [(Ht & _) | (n & w2 & _ & _ & _ & _ & Hs)]; [left; exact Ht |].
      right. pose proof Hs as (_ & found & loc & z & _ & _ & _ & Heq).
      injection Heq as _ Hst _. rewrite <- Hst in Hs. exact Hs. }
    split; [| split; [exact Ht | split]].
    + destruct Ht as [Ht | (Hex & _)]; [| exact Hex].
      injection Ht as _ -> _. reflexivity.
    + eexists. split; [| reflexivity].
      match goal with
      | |- context [index_below ?q (10 - 1 + 1)] =>
          pose proof (index_below_range q (10 - 1 + 1) ltac:(lia))
      end. lia.
    + eexists. apply round_hundreds_multiple.
Qed.

(** X14: when the zipcode search raises nothing but [IndexError],
    [CustomerInfo.generate_data] returns one record for each customer id,
    and in every record the state is none of AK, HI, DC and PR, the city,
    state and postal code are the fallback or those of a location the
    search lists for that state, the sales representative is "SRE1" to
    "SRE10", and the credit limit is a whole number of hundreds. *)
Theorem customer_generate_data_shape :
  forall (by_state : string -> result (list CustomerInfo.location))
         (self : CustomerInfo.t) (w : world),
    raises_only_IndexError by_state ->
    exists customers w',
      CustomerInfo.generate_data by_state self w = (Ok customers, w')
      /\ map CustomerInfo.customer_id customers
         = elements (CustomerInfo.set_customer_id self)
      /\ Forall (customer_ok by_state) customers.
Proof.
  intros by_state self w Hres.
  destruct (for_each_Ok
              (fun customer_id =>
                 let* '(city, state, postal_code) :=
                   CustomerInfo.set_city_state_zip by_state in
                 let* customer_name := CustomerInfo.set_customer_name in
                 let* phone := CustomerInfo.set_phone in
                 let* address := CustomerInfo.set_address in
                 let* sales_rep_employee_id := CustomerInfo.set_sales_rep_employee_id in
                 let* credit_limit := CustomerInfo.set_credit_limit self customer_id in
                 ret (CustomerInfo.Customer customer_id customer_name phone address
                        city state postal_code sales_rep_employee_id credit_limit))
              (fun customer_id c =>
                 CustomerInfo.customer_id c = customer_id /\ customer_ok by_state c)
              (elements (CustomerInfo.set_customer_id self))) with (w := w)
    as (customers & w' & Hrun & Hrel).
  { intros cid w0 _. apply customer_record_shape. exact Hres. }
  exists customers, w'. split; [exact Hrun |]. split.
  - rewrite <- (map_id (elements _)). apply Forall2_map_eq.
    eapply Forall2_impl; [exact Hrel |]. intros x c [H _]. exact H.
  - eapply Forall2_right. eapply Forall2_impl; [exact Hrel |].
    intros x c [_ H]. exact H.
Qed.

(** The three customers of [demo_history], all resolved to Austin. *)
Lemma customer_generate_data_shape_witness :
  exists customers w',
    CustomerInfo.generate_data texas_only (CustomerInfo.Build demo_history ∅)
      demo_world_1 = (Ok customers, w')
    /\ Forall (customer_ok texas_only) customers.
Proof.
  destruct (customer_generate_data_shape texas_only
              (CustomerInfo.Build demo_history ∅) demo_world_1
              texas_only_raises_only_IndexError)
    as (customers & w' & Hrun & _ & Hok).
  exists customers, w'. split; [exact Hrun | exact Hok].
Defined.

(** ** Utilities.get_state_name *)

Lemma upper_ascii_idem c : upper_ascii (upper_ascii c) = upper_ascii c.
Proof. destruct c as [[] [] [] [] [] [] [] []]; reflexivity. Qed.

Lemma upper_idem s : upper (upper s) = upper s.
Proof.
  induction s as [| c s IH]; [reflexivity |].
  cbn [upper]. rewrite upper_ascii_idem, IH. reflexivity.
Qed.

Lemma upper_length s : String.length (upper s) = String.length s.
Proof. induction s as [| c s IH]; [reflexivity |]. cbn. now rewrite IH. Qed.

Lemma get_In {V} (k : string) (r : record V) (v : V) :
  get k r = Some v -> In (k, v) r.
Proof.
  unfold get. destruct (find _ r) as [[k' v'] |] eqn:Hfind; [| discriminate].
  intros [= <-]. apply find_some in Hfind as [Hin Heq].
  apply String.eqb_eq in Heq. cbn in Heq. subst k'. exact Hin.
Qed.

Lemma state_dict_keys :
  Forall (fun kv => String.length (fst kv) = 2%nat /\ upper (fst kv) = fst kv)
         state_dict.
Proof. repeat constructor. Qed.

Lemma state_dict_names_differ k1 k2 name :
  In (k1, name) state_dict -> In (k2, name) state_dict -> k1 = k2.
Proof.
  intros H1 H2.
  assert (NoDup (map snd state_dict)) as Hnd.
  { apply (bool_decide_unpack _). vm_compute. reflexivity. }
  revert H1 H2 Hnd. generalize state_dict as d.
  induction d as [| [k v] d IH]; [intros [] |].
  cbn [map snd]. intros H1 H2 Hnd. apply NoDup_cons in Hnd as [Hv Hnd].
  assert (forall k', In (k', name) d -> v <> name) as Hfresh.
  { intros k' Hin ->. apply Hv, list_elem_of_In, in_map_iff.
    exists (k', name). split; [reflexivity | exact Hin]. }
  destruct H1 as [E1 | H1]; destruct H2 as [E2 | H2].
  - congruence.
  - exfalso. apply (Hfresh k2 H2). congruence.
  - exfalso. apply (Hfresh k1 H1). congruence.
  - apply IH; assumption.
Qed.

(** X15: on ASCII input [get_state_name] does not look at the case of
    the letters; it returns a name only for a two-letter code, the name the
    table gives to the code in capitals, and two codes with the same name
    differ in case only. *)
Theorem get_state_name_by_code :
  forall (state_abbr : string),
    ascii_only state_abbr = true ->
    get_state_name (upper state_abbr) = get_state_name state_abbr
    /\ forall name,
        get_state_name state_abbr = Some name ->
        String.length state_abbr = 2%nat
        /\ In (upper state_abbr, name) state_dict
        /\ forall other,
            ascii_only other = true ->
            get_state_name other = Some name -> upper other = upper state_abbr.
Proof.
  intros state_abbr _. split.
  - unfold get_state_name. rewrite upper_idem. reflexivity.
  - intros name Hname. unfold get_state_name in Hname.
    apply get_In in Hname.
    pose proof state_dict_keys as Hkeys. rewrite List.Forall_forall in Hkeys.
    destruct (Hkeys _ Hname) as [Hlen _]. cbn [fst] in Hlen.
    rewrite upper_length in Hlen.
    split; [exact Hlen |]. split; [exact Hname |].
    intros other _ Hother. unfold get_state_name in Hother.
    apply get_In in Hother.
    exact (state_dict_names_differ _ _ _ Hother Hname).
Qed.

(** "tx" is Texas; the District of Columbia and Puerto Rico, which
    [CustomerInfo] expects among the sampled states, have no name. *)
Lemma get_state_name_by_code_witness :
  get_state_name (upper "tx") = get_state_name "tx"
  /\ get_state_name "tx" = Some "Texas"
  /\ get_state_name "DC" = None
  /\ get_state_name "PR" = None.
Proof.
  split; [apply (get_state_name_by_code "tx"); reflexivity |].
  vm_compute. repeat split.
Defined.

(** ** Utilities.to_dataframe: the errors *)

Lemma column_index_None c cols : column_index c cols = None <-> ~ In c cols.
Proof.
  induction cols as [| c' cols IH]; cbn [column_index In]; [tauto |].
  destruct (String.eqb_spec c c') as [-> | Hne].
  - split; [discriminate | tauto].
  - destruct (column_index c cols); cbn.
    + split; [discriminate |]. intros H. exfalso. apply H. right.
      destruct (in_dec String.string_dec c cols) as [Hin | Hno]; [exact Hin |].
      apply IH in Hno. discriminate.
    + split; [| reflexivity]. intros _ [H | H]; [congruence |].
      apply (proj1 IH); [reflexivity | exact H].
Qed.

Lemma rmap_index_cases (by_ cols : list string) :
  (exists idx,
      rmap (fun c => match column_index c cols with
                     | Some i => Ok i
                     | None => Raise KeyError
                     end) by_ = Ok idx
      /\ Forall (fun c => In c cols) by_)
  \/ (rmap (fun c => match column_index c cols with
                     | Some i => Ok i
                     | None => Raise KeyError
                     end) by_ = Raise KeyError
      /\ exists c, In c by_ /\ ~ In c cols).
Proof.
  induction by_ as [| c by_ IH]; cbn [rmap].
  - left. exists []. split; [reflexivity | constructor].
  - destruct (column_index c cols) as [i |] eqn:Hc; cbn [rbind].
    + assert (In c cols) as Hin.
      { destruct (in_dec String.string_dec c cols) as [H | H]; [exact H |].
        apply column_index_None in H. congruence. }
      destruct IH as [(idx & -> & Hall) | (-> & c' & Hc' & Hno)]; cbn [rbind].
      * left. exists (i :: idx). split; [reflexivity | constructor; assumption].
      * right. split; [reflexivity |]. exists c'. split; [right; exact Hc' | exact Hno].
    + right. split; [reflexivity |]. exists c. split; [left; reflexivity |].
      apply column_index_None. exact Hc.
Qed.

Lemma sort_keys_cases (by_ : list string) (ascending : bool + list bool)
      (cols : list string) :
  (~ flags_fit by_ ascending /\ sort_keys by_ ascending cols = Raise ValueError)
  \/ (flags_fit by_ ascending
      /\ ((exists keys, sort_keys by_ ascending cols = Ok keys
                        /\ Forall (fun c => In c cols) by_)
          \/ (sort_keys by_ ascending cols = Raise KeyError
              /\ exists c, In c by_ /\ ~ In c cols))).
Proof.
  unfold sort_keys, flags_fit.
  destruct ascending as [b | flags].
  - right. split; [exact I |]. cbn [rbind].
    destruct (rmap_index_cases by_ cols) as [(idx & -> & Hall) | (-> & Hc)]; cbn [rbind].
    + left. eexists. split; [reflexivity | exact Hall].
    + right. split; [reflexivity | exact Hc].
  - destruct (Nat.eqb_spec (length flags) (length by_)) as [Heq | Hne]; cbn [rbind].
    + right. split; [exact Heq |].
      destruct (rmap_index_cases by_ cols) as [(idx & -> & Hall) | (-> & Hc)];
        cbn [rbind].
      * left. eexists. split; [reflexivity | exact Hall].
      * right. split; [reflexivity | exact Hc].
    + left. split; [exact Hne | reflexivity].
Qed.

Lemma existsb_eqb_In (c : string) (cols : list string) :
  existsb (String.eqb c) cols = true <-> In c cols.
Proof.
  rewrite existsb_exists. split.
  - intros (x & Hin & Heq). apply String.eqb_eq in Heq. subst x. exact Hin.
  - intros Hin. exists c. split; [exact Hin | apply String.eqb_refl].
Qed.

(** X16: [to_dataframe] fails in three cases only, whatever the values
    of the records and the sorting routine: with [ValueError] when it sorts
    and [ascending] is a list of another length than [by]; with [KeyError]
    when it sorts, [ascending] fits and some sort column is no key of any
    record; with [ValueError] when the sort, if any, succeeds, the
    identifier is asked for and some record has an "id" key. *)
Theorem to_dataframe_errors :
  forall (V : Type) (int_cell : Z -> V) (cell_le : V -> V -> bool)
         (sort_rows : (row V -> row V -> bool) -> list (row V) -> list (row V))
         (data : list (record V)) (by_ : list string)
         (ascending : bool + list bool) (add_id : bool) (e : exn),
    to_dataframe int_cell cell_le sort_rows data by_ ascending add_id = Raise e
    <-> (by_ <> [] /\ ~ flags_fit by_ ascending /\ e = ValueError)
        \/ (by_ <> [] /\ flags_fit by_ ascending
            /\ (exists c, In c by_ /\ ~ In c (keys_of data))
            /\ e = KeyError)
        \/ ((by_ = [] \/ (flags_fit by_ ascending
                          /\ Forall (fun c => In c (keys_of data)) by_))
            /\ add_id = true /\ In "id" (keys_of data) /\ e = ValueError).
Proof.
  intros V int_cell cell_le sort_rows data by_ ascending add_id e.
  assert (forall df : DataFrame V,
             columns df = keys_of data ->
             (if add_id then insert_id int_cell df else Ok df) = Raise e
             <-> add_id = true /\ In "id" (keys_of data) /\ e = ValueError) as Hid.
  { intros df Hcols. destruct add_id; [| split; [discriminate | intros [H _]; discriminate]].
    unfold insert_id. rewrite Hcols.
    destruct (existsb (String.eqb "id") (keys_of data)) eqn:Hex.
    - apply existsb_eqb_In in Hex. split.
      + intros [= <-]. auto.
      + intros (_ & _ & ->). reflexivity.
    - split; [discriminate |]. intros (_ & Hin & _).
      apply existsb_eqb_In in Hin. congruence. }
  unfold to_dataframe. destruct by_ as [| b bs].
  - cbn [rbind]. rewrite (Hid (from_records data) eq_refl). split.
    + intros H. right. right. split; [left; reflexivity | exact H].
    + intros [(H & _) | [(H & _) | (_ & H)]]; [congruence | congruence | exact H].
  - unfold sort_values. cbn [columns from_records].
    destruct (sort_keys_cases (b :: bs) ascending (keys_of data))
      as [(Hfit & ->) | (Hfit & [(keys & -> & Hall) | (-> & Hmiss)])]; cbn [rbind].
    + split.
      * intros [= <-]. left. split; [discriminate | split; [exact Hfit | reflexivity]].
      * intros [(_ & _ & ->) | [(_ & H & _) | ([H | (H & _)] & _)]];
          [reflexivity | contradiction | discriminate | contradiction].
    + rewrite (Hid (Frame (keys_of data) _) eq_refl). split.
      * intros H. right. right. split; [right; split; assumption | exact H].
      * intros [(_ & H & _) | [(_ & _ & (c & Hc & Hno) & _) | (_ & H)]];
          [contradiction | | exact H].
        rewrite List.Forall_forall in Hall. exfalso. apply Hno, Hall, Hc.
    + split.
      * intros [= <-]. right. left.
        split; [discriminate | split; [exact Hfit | split; [exact Hmiss | reflexivity]]].
      * intros [(_ & H & _) | [(_ & _ & _ & ->) | ([H | (_ & Hall)] & _)]];
          [contradiction | reflexivity | discriminate |].
        destruct Hmiss as (c & Hc & Hno).
        rewrite List.Forall_forall in Hall. exfalso. apply Hno, Hall, Hc.
Qed.

(** ** Utilities.to_dataframe: rows without ties *)

Section NoTies.

Variable V : Type.
Variable cell_le : V -> V -> bool.
Hypothesis cell_le_total : forall x y, cell_le x y = true \/ cell_le y x = true.
Hypothesis cell_le_trans :
  forall x y z, cell_le x y = true -> cell_le y z = true -> cell_le x z = true.

Lemma cell_before_asym asc (a b : option V) :
  cell_before cell_le asc a b = true -> cell_before cell_le asc b a = false.
Proof.
  destruct a as [x |], b as [y |]; cbn; try congruence.
  destruct asc; intros H; apply negb_true_iff in H; apply negb_false_iff;
    destruct (cell_le_total x y); congruence.
Qed.

Lemma cell_before_negtrans asc (a b c : option V) :
  cell_before cell_le asc a b = false -> cell_before cell_le asc b c = false ->
  cell_before cell_le asc a c = false.
Proof.
  destruct a as [x |], b as [y |], c as [z |]; cbn; try congruence.
  destruct asc; intros H1 H2; apply negb_false_iff in H1, H2; apply negb_false_iff;
    eauto.
Qed.

Lemma cell_before_trans asc (a b c : option V) :
  cell_before cell_le asc a b = true -> cell_before cell_le asc b c = true ->
  cell_before cell_le asc a c = true.
Proof.
  destruct a as [x |], b as [y |], c as [z |]; cbn; try congruence.
  destruct asc; intros H1 H2; apply negb_true_iff in H1, H2; apply negb_true_iff.
  - destruct (cell_le z x) eqn:Hzx; [| reflexivity].
    destruct (cell_le_total x y) as [Hxy | Hyx]; [| congruence].
    rewrite (cell_le_trans z x y Hzx Hxy) in H2. discriminate.
  - destruct (cell_le x z) eqn:Hxz; [| reflexivity].
    destruct (cell_le_total y z) as [Hyz | Hzy]; [congruence |].
    rewrite (cell_le_trans x z y Hxz Hzy) in H1. discriminate.
Qed.

Lemma row_le_trans keys (a b c : row V) :
  row_le cell_le keys a b = true -> row_le cell_le keys b c = true ->
  row_le cell_le keys a c = true.
Proof.
  induction keys as [| [i asc] keys IH]; [reflexivity |].
  cbn [row_le].
  set (x := mjoin (a !! i)). set (y := mjoin (b !! i)). set (z := mjoin (c !! i)).
  destruct (cell_before cell_le asc x y) eqn:Hxy.
  - intros _.
    destruct (cell_before cell_le asc y z) eqn:Hyz.
    + intros _. rewrite (cell_before_trans asc x y z Hxy Hyz). reflexivity.
    + destruct (cell_before cell_le asc z y) eqn:Hzy; [discriminate |]. intros _.
      destruct (cell_before cell_le asc x z) eqn:Hxz; [reflexivity |].
      rewrite (cell_before_negtrans asc x z y Hxz Hzy) in Hxy. discriminate.
  - destruct (cell_before cell_le asc y x) eqn:Hyx; [discriminate |]. intros Hab.
    destruct (cell_before cell_le asc y z) eqn:Hyz.
    + intros _.
      destruct (cell_before cell_le asc x z) eqn:Hxz; [reflexivity |].
      rewrite (cell_before_negtrans asc y x z Hyx Hxz) in Hyz. discriminate.
    + destruct (cell_before cell_le asc z y) eqn:Hzy; [discriminate |]. intros Hbc.
      rewrite (cell_before_negtrans asc x y z Hxy Hyz).
      rewrite (cell_before_negtrans asc z y x Hzy Hyx).
      apply IH; assumption.
Qed.

Lemma sorted_head_least (le : row V -> row V -> bool) (a : row V) (l : list (row V)) :
  (forall x y z, le x y = true -> le y z = true -> le x z = true) ->
  Sorted (fun x y => le x y = true) (a :: l) ->
  forall x, In x l -> le a x = true.
Proof.
  intros Htrans Hs.
  apply Sorted_StronglySorted in Hs; [| intros x y z; apply Htrans].
  apply StronglySorted_inv in Hs as [_ Hall].
  rewrite List.Forall_forall in Hall. exact Hall.
Qed.

Lemma sorted_perm_eq (le : row V -> row V -> bool) (l1 : list (row V)) :
  (forall x y z, le x y = true -> le y z = true -> le x z = true) ->
  (forall x, le x x = true) ->
  forall l2,
    (forall x y, In x l1 -> In y l1 -> le x y = true -> le y x = true -> x = y) ->
    Sorted (fun x y => le x y = true) l1 ->
    Sorted (fun x y => le x y = true) l2 ->
    Permutation l1 l2 -> l1 = l2.
Proof.
  intros Htrans Hrefl.
  induction l1 as [| a l1 IH]; intros l2 Hanti H1 H2 Hperm.
  - apply Permutation_nil in Hperm. congruence.
  - destruct l2 as [| b l2];
      [apply Permutation_sym, Permutation_nil in Hperm; discriminate |].
    assert (le a b = true) as Hab.
    { assert (In b (a :: l1)) as Hb
        by (eapply Permutation_in; [symmetry; exact Hperm | left; reflexivity]).
      destruct Hb as [<- | Hb]; [apply Hrefl |].
      eapply sorted_head_least; eassumption. }
    assert (le b a = true) as Hba.
    { assert (In a (b :: l2)) as Ha
        by (eapply Permutation_in; [exact Hperm | left; reflexivity]).
      destruct Ha as [<- | Ha]; [apply Hrefl |].
      eapply sorted_head_least; eassumption. }
    assert (a = b) as <-.
    { apply Hanti; [left; reflexivity | | exact Hab | exact Hba].
      eapply Permutation_in; [symmetry; exact Hperm | left; reflexivity]. }
    f_equal. apply IH.
    + intros x y Hx Hy. apply Hanti; right; assumption.
    + apply Sorted_inv in H1. apply H1.
    + apply Sorted_inv in H2. apply H2.
    + eapply Permutation_cons_inv. exact Hperm.
Qed.

Lemma row_le_refl keys (a : row V) : row_le cell_le keys a a = true.
Proof. destruct (row_le_total cell_le keys a a); assumption. Qed.

(** X17: when the order on cells is a total preorder and no two
    different rows of the records tie on the sort keys, the frame that
    [to_dataframe] returns does not depend on the sorting routine: any two
    routines that rearrange the rows into order give the same frame. *)
Theorem to_dataframe_without_ties :
  forall (int_cell : Z -> V)
         (sort_rows1 sort_rows2
            : (row V -> row V -> bool) -> list (row V) -> list (row V))
         (data : list (record V)) (by_ : list string)
         (ascending : bool + list bool) (add_id : bool)
         (keys : list (nat * bool)),
    sorting_routine sort_rows1 ->
    sorting_routine sort_rows2 ->
    sort_keys by_ ascending (keys_of data) = Ok keys ->
    (forall r1 r2,
        In r1 (rows (from_records data)) -> In r2 (rows (from_records data)) ->
        row_le cell_le keys r1 r2 = true -> row_le cell_le keys r2 r1 = true ->
        r1 = r2) ->
    to_dataframe int_cell cell_le sort_rows1 data by_ ascending add_id
    = to_dataframe int_cell cell_le sort_rows2 data by_ ascending add_id.
Proof.
  intros int_cell sort_rows1 sort_rows2 data by_ ascending add_id keys
         Hs1 Hs2 Hkeys Hties.
  unfold to_dataframe. destruct by_ as [| b bs]; [reflexivity |].
  unfold sort_values. cbn [columns from_records rows]. rewrite Hkeys. cbn [rbind].
  set (rs := map _ data) in *.
  destruct (Hs1 (row_le cell_le keys) rs) as [Hp1 Hsorted1].
  destruct (Hs2 (row_le cell_le keys) rs) as [Hp2 Hsorted2].
  specialize (Hsorted1 (row_le_total cell_le keys)).
  specialize (Hsorted2 (row_le_total cell_le keys)).
  assert (sort_rows1 (row_le cell_le keys) rs = sort_rows2 (row_le cell_le keys) rs)
    as ->; [| reflexivity].
  apply (sorted_perm_eq (row_le cell_le keys)).
  - apply row_le_trans.
  - apply row_le_refl.
  - intros x y Hx Hy. apply Hties.
    + eapply Permutation_in; [exact Hp1 | exact Hx].
    + eapply Permutation_in; [exact Hp1 | exact Hy].
  - exact Hsorted1.
  - exact Hsorted2.
  - rewrite Hp1, Hp2. reflexivity.
Qed.

End NoTies.

(** The records 3, 1, 2 sorted by the stable and by the reversing
    routine. *)
Lemma to_dataframe_without_ties_witness :
  to_dataframe id Z.leb stable_sort three_records ["k"] (inl true) true
  = to_dataframe id Z.leb reversing_sort three_records ["k"] (inl true) true.
Proof.
  apply (to_dataframe_without_ties Z Z.leb) with (keys := [(0%nat, true)]).
  - intros x y. destruct (Z.leb_spec x y); [left; reflexivity |].
    right. apply Z.leb_le. lia.
  - intros x y z Hxy Hyz. apply Z.leb_le in Hxy, Hyz. apply Z.leb_le. lia.
  - apply stable_sort_routine.
  - apply reversing_sort_routine.
  - reflexivity.
  - intros r1 r2 H1 H2.
    cbn in H1, H2.
    destruct H1 as [<- | [<- | [<- | []]]]; destruct H2 as [<- | [<- | [<- | []]]];
      vm_compute; congruence.
Defined.

(** ** The tables of runs without records *)

Lemma attendance_no_records self w :
  SchoolAttendance.dates self = [] \/ SchoolAttendance.max_student_id self <= 0 ->
  SchoolAttendance.generate_data self w = (Ok [], w).
Proof.
  intros Hcase. unfold SchoolAttendance.generate_data.
  destruct Hcase as [-> | Hmax]; [reflexivity |].
  assert (SchoolAttendance.set_student_ids self = []) as ->.
  { unfold SchoolAttendance.set_student_ids, range.
    replace (Z.to_nat (SchoolAttendance.max_student_id self + 1 - 1)) with 0%nat by lia.
    reflexivity. }
  cbn [for_each].
  assert (forall ds w0,
             for_each (fun _ : date => ret (A := list SchoolAttendance.attendance_record) [])
                      ds w0
             = (Ok (map (fun _ => []) ds), w0)) as Hloop.
  { induction ds as [| d ds IH]; intros w0; [reflexivity |].
    cbn [for_each map]. unfold bind at 1, ret at 1. rewrite (bind_Ok _ _ _ _ _ (IH w0)).
    reflexivity. }
  rewrite (bind_Ok _ _ _ _ _ (Hloop _ w)). unfold ret. f_equal. f_equal.
  induction (SchoolAttendance.dates self) as [| d ds IH]; [reflexivity | exact IH].
Qed.

(** X18: a run that generates no record has no table: the frame of an
    empty list has no column, so the sort of [__call__] raises [KeyError]
    before anything is written.  This is the case of [OrderHistory] with
    no order, of [SchoolAttendance] with no date or no student, and of
    [Students] with no student. *)
Theorem empty_tables_raise_KeyError :
  forall (sort_rows : (row Tables.cell -> row Tables.cell -> bool)
                      -> list (row Tables.cell) -> list (row Tables.cell))
         (to_csv : DataFrame Tables.cell -> string -> result unit)
         (to_sql : DataFrame Tables.cell -> string -> string -> result unit),
    (forall holidays_2022 self w,
        OrderHistory.num_orders self <= 0 ->
        Tables.OrderHistory_call sort_rows to_csv to_sql holidays_2022 self w
        = (Raise KeyError, w))
    /\ (forall self w,
           SchoolAttendance.dates self = []
           \/ SchoolAttendance.max_student_id self <= 0 ->
           Tables.SchoolAttendance_call sort_rows to_csv to_sql self w
           = (Raise KeyError, w))
    /\ (forall current_year self w,
           SchoolAttendance.max_student_id (Students.school_attendance self) <= 0 ->
           Tables.Students_call sort_rows to_csv to_sql current_year self w
           = (Raise KeyError, w)).
Proof.
  intros sort_rows to_csv to_sql. split; [| split].
  - intros holidays_2022 self w Hn. unfold Tables.OrderHistory_call.
    assert (OrderHistory.generate_data holidays_2022 self w = (Ok [], w)) as Hgen.
    { unfold OrderHistory.generate_data, range.
      replace (Z.to_nat (OrderHistory.num_orders self - 0)) with 0%nat by lia.
      reflexivity. }
    rewrite (bind_Ok _ _ _ _ _ Hgen). reflexivity.
  - intros self w Hcase. unfold Tables.SchoolAttendance_call.
    rewrite (bind_Ok _ _ _ _ _ (attendance_no_records self w Hcase)). reflexivity.
  - intros current_year self w Hmax. unfold Tables.Students_call.
    assert (Students.generate_data current_year self w = (Ok [], w)) as Hgen.
    { unfold Students.generate_data, Students.set_student_ids,
        SchoolAttendance.get_student_ids, SchoolAttendance.set_student_ids, range.
      replace (Z.to_nat (SchoolAttendance.max_student_id
                           (Students.school_attendance self) + 1 - 1))
        with 0%nat by lia.
      reflexivity. }
    rewrite (bind_Ok _ _ _ _ _ Hgen). reflexivity.
Qed.

(** The attendance of a range that ends before it starts. *)
Lemma empty_tables_raise_KeyError_witness :
  Tables.SchoolAttendance_call stable_sort
    (fun _ _ => Ok tt) (fun _ _ _ => Ok tt)
    (SchoolAttendance.Build (ymd2ord 2023 1 3) (ymd2ord 2023 1 1) 5
       [true; true; true; true; false] [])
    demo_world
  = (Raise KeyError, demo_world).
Proof.
  apply (proj1 (proj2 (empty_tables_raise_KeyError stable_sort
                         (fun _ _ => Ok tt) (fun _ _ _ => Ok tt)))).
  left. reflexivity.
Defined.

(** ** SchoolAttendance.__call__ *)

Lemma attendance_keys_of (data : list SchoolAttendance.attendance_record) :
  data <> [] ->
  keys_of (map Tables.attendance_record data) = ["date"; "student_id"; "attendance"].
Proof.
  destruct data as [| r data]; [congruence |]. intros _.
  unfold keys_of. cbn [map concat Tables.attendance_record fst app fold_left existsb].
  change (existsb (String.eqb "student_id") ([] ++ ["date"])) with false.
  change (existsb (String.eqb "attendance") (([] ++ ["date"]) ++ ["student_id"]))
    with false.
  cbv iota. cbn [app].
  induction data as [| r' data IH]; [reflexivity |].
  cbn [map concat Tables.attendance_record fst app fold_left]. exact IH.
Qed.

Lemma attendance_rows (data : list SchoolAttendance.attendance_record) :
  map (fun r => map (fun c => get c r) ["date"; "student_id"; "attendance"])
      (map Tables.attendance_record data)
  = map attendance_row data.
Proof. rewrite map_map. apply map_ext. intros r. reflexivity. Qed.

(** X19: for a date list and a student list that are not empty,
    [SchoolAttendance.__call__] builds the frame with the columns id, date,
    student_id, attendance, whose rows are those of the generated records
    rearranged in order of student, then date, and numbered from 1; it
    writes the frame to the CSV file and then to the table
    [school_attendance], and returns it unless a write fails. *)
Theorem attendance_table :
  forall (sort_rows : (row Tables.cell -> row Tables.cell -> bool)
                      -> list (row Tables.cell) -> list (row Tables.cell))
         (to_csv : DataFrame Tables.cell -> string -> result unit)
         (to_sql : DataFrame Tables.cell -> string -> string -> result unit)
         (self : SchoolAttendance.t) (w : world),
    sorting_routine sort_rows ->
    SchoolAttendance.attendance_weights self = [true; true; true; true; false] ->
    SchoolAttendance.dates self <> [] ->
    0 < SchoolAttendance.max_student_id self ->
    exists data w' sorted,
      SchoolAttendance.generate_data self w = (Ok data, w')
      /\ Permutation sorted (map attendance_row data)
      /\ Sorted (fun a b => row_le Tables.cell_le attendance_keys a b = true) sorted
      /\ let df :=
           Frame ["id"; "date"; "student_id"; "attendance"]
                 (zip_with (fun i r => Some (Tables.CInt i) :: r)
                           (range 1 (Z.of_nat (length data) + 1)) sorted) in
         Tables.SchoolAttendance_call sort_rows to_csv to_sql self w
         = (rbind (to_csv df "../Data/school_attendance.csv")
                  (fun _ =>
                     rbind (to_sql df "school_attendance" "../Data/jane.db")
                           (fun _ => Ok df)),
            w').
Proof.
  intros sort_rows to_csv to_sql self w Hsort Hw Hdates Hmax.
  pose proof (attendance_generate_data_eq self w Hw) as Hgen.
  set (data := draw_map _ _ _ _) in Hgen. set (w' := Nat.iter _ _ _) in Hgen.
  assert (data <> []) as Hdata.
  { intros Hnil. apply (f_equal (@length _)) in Hnil. subst data.
    rewrite draw_map_length, length_prod in Hnil. cbn [length] in Hnil.
    unfold SchoolAttendance.set_student_ids in Hnil. rewrite range_length in Hnil.
    destruct (SchoolAttendance.dates self); [congruence |]. cbn [length] in Hnil. lia. }
  destruct (Hsort (row_le Tables.cell_le attendance_keys) (map attendance_row data))
    as [Hperm Hsorted].
  specialize (Hsorted (row_le_total Tables.cell_le attendance_keys)).
  exists data, w', (sort_rows (row_le Tables.cell_le attendance_keys)
                              (map attendance_row data)).
  split; [exact Hgen |]. split; [exact Hperm |]. split; [exact Hsorted |].
  cbv zeta. unfold Tables.SchoolAttendance_call.
  rewrite (bind_Ok _ _ _ _ _ Hgen). unfold lift. f_equal.
  unfold Tables.to_dataframe, Utilities.to_dataframe, sort_values, from_records.
  cbn [columns rows]. rewrite (attendance_keys_of data Hdata), attendance_rows.
  change (sort_keys ["student_id"; "date"] (inl true)
            ["date"; "student_id"; "attendance"]) with (Ok attendance_keys).
  cbn [rbind]. unfold insert_id. cbn [columns rows].
  change (existsb (String.eqb "id") ["date"; "student_id"; "attendance"]) with false.
  cbv iota. cbn [rbind].
  rewrite (Permutation_length Hperm), length_map.
  reflexivity.
Qed.

(** Three days and five students, a stable sort and writes that
    succeed. *)
Lemma attendance_table_witness :
  exists df w',
    Tables.SchoolAttendance_call stable_sort
      (fun _ _ => Ok tt) (fun _ _ _ => Ok tt)
      (SchoolAttendance.Build (ymd2ord 2023 1 1) (ymd2ord 2023 1 3) 5
         [true; true; true; true; false]
         (range (ymd2ord 2023 1 1) (ymd2ord 2023 1 3 + 1)))
      demo_world
    = (Ok df, w')
    /\ columns df = ["id"; "date"; "student_id"; "attendance"].
Proof.
  destruct (attendance_table stable_sort
              (fun _ _ => Ok tt) (fun _ _ _ => Ok tt)
              (SchoolAttendance.Build (ymd2ord 2023 1 1) (ymd2ord 2023 1 3) 5
                 [true; true; true; true; false]
                 (range (ymd2ord 2023 1 1) (ymd2ord 2023 1 3 + 1)))
              demo_world stable_sort_routine eq_refl)
    as (data & w' & sorted & _ & _ & _ & Hcall);
    [vm_compute; discriminate | reflexivity |].
  cbv zeta in Hcall. cbn [rbind] in Hcall.
  eexists. exists w'. split; [exact Hcall | reflexivity].
Defined.

(** ** Utilities.save_path *)

Lemma string_app_cons c (x y : string) : String c x +:+ y = String c (x +:+ y).
Proof. reflexivity. Qed.

Lemma string_app_nil_r (x : string) : x +:+ "" = x.
Proof.
  induction x as [| c x IH]; [reflexivity |]. rewrite string_app_cons, IH. reflexivity.
Qed.

Lemma string_app_assoc (x y z : string) : (x +:+ y) +:+ z = x +:+ (y +:+ z).
Proof.
  induction x as [| c x IH]; [reflexivity |].
  rewrite !string_app_cons, IH. reflexivity.
Qed.

Lemma ends_with_sep_app (x y : string) :
  Tables.ends_with_sep x = true ->
  String.eqb (x +:+ y) "" || Tables.ends_with_sep (x +:+ y)
  = String.eqb y "" || Tables.ends_with_sep y.
Proof.
  intros Hx. destruct y as [| d y].
  - rewrite string_app_nil_r, Hx. apply orb_true_r.
  - assert (String.eqb (x +:+ String d y) "" = false) as ->
      by (destruct x; reflexivity).
    cbn [String.eqb orb]. clear Hx.
    induction x as [| c x IH]; [reflexivity |].
    rewrite string_app_cons. cbn [Tables.ends_with_sep].
    destruct (x +:+ String d y) eqn:E; [destruct x; discriminate | exact IH].
Qed.

Lemma join_absolute (p : list string) :
  existsb Tables.starts_with_sep p = true ->
  forall a a', Tables.join a p = Tables.join a' p.
Proof.
  induction p as [| b p IH]; [discriminate |].
  cbn [existsb Tables.join]. intros H a a'.
  destruct (Tables.starts_with_sep b); [reflexivity |].
  cbn [orb] in H. apply IH. exact H.
Qed.

Lemma join_prefix (x : string) (p : list string) :
  Tables.ends_with_sep x = true ->
  existsb Tables.starts_with_sep p = false ->
  forall y, Tables.join (x +:+ y) p = x +:+ Tables.join y p.
Proof.
  intros Hx. induction p as [| b p IH]; intros Hp y; [reflexivity |].
  cbn [existsb] in Hp. apply orb_false_iff in Hp as [Hb Hp].
  cbn [Tables.join]. rewrite Hb, (ends_with_sep_app x y Hx).
  destruct (String.eqb y "" || Tables.ends_with_sep y).
  - rewrite string_app_assoc. apply IH. exact Hp.
  - rewrite string_app_assoc. apply IH. exact Hp.
Qed.

(** X20: on a POSIX system [save_path] with [use_parent_directory]
    puts "../" before the path built without it, unless one of the
    subdirectories is absolute: then the parent directory is dropped and
    the two paths are the same. *)
Theorem save_path_parent_directory :
  forall (subdir : string) (subdirs : list string),
    Tables.save_path true subdir subdirs
    = if existsb Tables.starts_with_sep (subdir :: subdirs)
      then Tables.save_path false subdir subdirs
      else "../" +:+ Tables.save_path false subdir subdirs.
Proof.
  intros subdir subdirs. unfold Tables.save_path.
  cbn [Tables.join existsb].
  destruct (Tables.starts_with_sep subdir) eqn:Ha; [reflexivity |].
  cbn [orb String.eqb Tables.ends_with_sep].
  change (Tables.ends_with_sep "..") with false. cbv iota.
  destruct (existsb Tables.starts_with_sep subdirs) eqn:Hp.
  - apply join_absolute. exact Hp.
  - change (".." +:+ "/" +:+ subdir) with ("../" +:+ subdir).
    apply join_prefix; [reflexivity | exact Hp].
Qed.
